(** * scripts/historical_events.py: the OMNI event pipeline

    A shallow embedding of the historical-event script (record parser with
    fill-value resolution, date-range filter, magnetopause model, storm
    classifier, per-record derivation and summary) and the properties its
    specification states about it.

    Python floats are IEEE binary64 values: they are modelled by Rocq's
    primitive floats, whose operations are specified by [SpecFloat].
    Raw records are dictionaries keyed by column name: they are finite maps
    from strings to optional floats, next to the optional timestamp. *)

From Stdlib Require Import ZArith Floats Uint63 Lia Bool String Ascii List.
From stdpp Require Import gmap strings.

Set Warnings "-inexact-float".

#[local] Open Scope string_scope.
#[local] Open Scope Z_scope.

(* ===================================================================== *)
(** * Part I. The Python runtime the script relies on                     *)
(* ===================================================================== *)

Module Py.

(** ** Exceptions and results *)

Inductive exn : Set :=
| ValueError | IndexError | TypeError | OverflowError | ZeroDivisionError.

Definition exn_eqb (a b : exn) : bool :=
  match a, b with
  | ValueError, ValueError | IndexError, IndexError | TypeError, TypeError
  | OverflowError, OverflowError | ZeroDivisionError, ZeroDivisionError => true
  | _, _ => false
  end.

(** The outcome of a call: a value, or an exception that propagates. *)
Inductive result (A : Type) : Type :=
| Ret (a : A)
| Raise (e : exn).
Arguments Ret {A} a.
Arguments Raise {A} e.

#[global] Instance result_ret : MRet result := fun A a => Ret a.
#[global] Instance result_bind : MBind result := fun A B k m =>
  match m with
  | Ret a => k a
  | Raise e => Raise e
  end.

(** [try: m except caught: handler]. *)
Definition try_except {A} (m : result A) (caught : list exn) (handler : result A)
  : result A :=
  match m with
  | Ret a => Ret a
  | Raise e => if existsb (exn_eqb e) caught then handler else Raise e
  end.

(** A loop body run over a list, left to right, stopping at the first
    exception. *)
Fixpoint for_each {A S : Type} (body : S -> A -> result S) (xs : list A) (s : S)
  : result S :=
  match xs with
  | [] => Ret s
  | x :: xs' => s' ← body s x; for_each body xs' s'
  end.

(** ** Floats *)

(** [bool(x)] for a float: [x != 0.0]. Both zeros are falsy, NaN is truthy. *)
Definition py_bool (x : float) : bool := negb (x =? 0)%float.

(** Truthiness of a value that is a float or [None]. *)
Definition truthy (v : option float) : bool :=
  match v with
  | Some x => py_bool x
  | None => false
  end.

(** [int(x)] for a float: truncation toward zero; NaN raises [ValueError],
    an infinity raises [OverflowError]. *)
Definition py_int (x : float) : result Z :=
  match Prim2SF x with
  | S754_nan => Raise ValueError
  | S754_infinity _ => Raise OverflowError
  | S754_zero _ => Ret 0
  | S754_finite s m e => Ret (cond_Zopp s (Z.shiftl (Zpos m) e))
  end.

(** [x / y] on floats raises [ZeroDivisionError] on a zero divisor. *)
Definition py_truediv (x y : float) : result float :=
  if (y =? 0)%float then Raise ZeroDivisionError else Ret (x / y)%float.

(** [max(a, b)] and [min(a, b)]: the first argument is kept unless the
    second compares strictly greater (respectively smaller). *)
Definition py_max2 (a b : float) : float := if (a <? b)%float then b else a.
Definition py_min2 (a b : float) : float := if (b <? a)%float then b else a.

(** [max(xs)] and [min(xs)] over a list: [ValueError] on the empty list. *)
Definition py_max (xs : list float) : result float :=
  match xs with
  | [] => Raise ValueError
  | x :: xs' => Ret (fold_left py_max2 xs' x)
  end.

Definition py_min (xs : list float) : result float :=
  match xs with
  | [] => Raise ValueError
  | x :: xs' => Ret (fold_left py_min2 xs' x)
  end.

(** [sum(xs)]: the items added left to right to the start value 0 (the
    plain accumulation of CPython before 3.12; later versions compensate
    the rounding error of the same sum). *)
Definition py_sum (xs : list float) : float :=
  fold_left (fun acc x => (acc + x)%float) xs 0%float.

(** [len(xs)] converted to a float, as [/] does with an int operand
    (a list length fits a machine word). *)
Definition float_of_len {A} (xs : list A) : float :=
  of_uint63 (Uint63.of_Z (Z.of_nat (length xs))).

(** [max] over a non-empty list of ints. *)
Definition py_max_int (xs : list Z) : result Z :=
  match xs with
  | [] => Raise ValueError
  | x :: xs' => Ret (fold_left Z.max xs' x)
  end.

(** ** Strings *)

(** [str.isspace] on the code points below 256. *)
Definition is_space (c : ascii) : bool :=
  let n := Z.of_nat (nat_of_ascii c) in
  ((9 <=? n) && (n <=? 13)) || ((28 <=? n) && (n <=? 32))
  || (n =? 133) || (n =? 160).

Definition flush (tok : string) : list string :=
  match tok with
  | EmptyString => []
  | _ => [tok]
  end.

Fixpoint split_from (s tok : string) : list string :=
  match s with
  | EmptyString => flush tok
  | String c s' =>
      if is_space c then (flush tok ++ split_from s' EmptyString)%list
      else split_from s' (tok ++ String c EmptyString)%string
  end.

(** [s.split()]: the maximal runs of non-whitespace characters. *)
Definition py_split (s : string) : list string := split_from s EmptyString.


(** ** [float(token)] on ASCII text

    The grammar of Python's float literals in strings: an optional sign,
    then [inf], [infinity] or [nan] in any case, or a decimal number with an
    optional exponent, digits possibly separated by single underscores. The
    value is the correctly rounded binary64 number ([inf] on overflow).
    [None] stands for [ValueError]. The argument carries no surrounding
    whitespace (the tokens of [split()] have none), and digits are the ASCII
    ones. *)

Definition digit_val (c : ascii) : option Z :=
  let n := Z.of_nat (nat_of_ascii c) in
  if (48 <=? n) && (n <=? 57) then Some (n - 48) else None.

Definition is_underscore (c : ascii) : bool := Ascii.eqb c "_"%char.

(** The digits after the first one of a digit part: value so far, number of
    digits so far; returns both with the unread rest. *)
Fixpoint digitpart_rest (s : string) (acc cnt : Z) : Z * Z * string :=
  match s with
  | EmptyString => (acc, cnt, s)
  | String c s' =>
      match digit_val c with
      | Some d => digitpart_rest s' (10 * acc + d) (cnt + 1)
      | None =>
          if is_underscore c then
            match s' with
            | String c2 s'' =>
                match digit_val c2 with
                | Some d => digitpart_rest s'' (10 * acc + d) (cnt + 1)
                | None => (acc, cnt, s)
                end
            | EmptyString => (acc, cnt, s)
            end
          else (acc, cnt, s)
      end
  end.

Definition digitpart (s : string) : option (Z * Z * string) :=
  match s with
  | String c s' =>
      match digit_val c with
      | Some d => Some (digitpart_rest s' d 1)
      | None => None
      end
  | EmptyString => None
  end.

Definition is_dot (c : ascii) : bool := Ascii.eqb c "."%char.

(** [number ::= [digitpart] "." digitpart | digitpart ["."]]: all digits
    read as one integer, the number of fraction digits, the rest. *)
Definition number (s : string) : option (Z * Z * string) :=
  match digitpart s with
  | Some (i, _, rest) =>
      match rest with
      | String c rest' =>
          if is_dot c then
            match digitpart rest' with
            | Some (f, nf, rest'') => Some (i * 10 ^ nf + f, nf, rest'')
            | None => Some (i, 0, rest')
            end
          else Some (i, 0, rest)
      | EmptyString => Some (i, 0, rest)
      end
  | None =>
      match s with
      | String c rest' => if is_dot c then digitpart rest' else None
      | EmptyString => None
      end
  end.

(** An optional sign: [true] for ["-"]. *)
Definition sign (s : string) : bool * string :=
  match s with
  | String c s' =>
      if Ascii.eqb c "-"%char then (true, s')
      else if Ascii.eqb c "+"%char then (false, s')
      else (false, s)
  | EmptyString => (false, s)
  end.

(** [exponent ::= ("e" | "E") [sign] digitpart], up to the end of the text;
    no exponent is exponent 0. *)
Definition exponent (s : string) : option Z :=
  match s with
  | EmptyString => Some 0
  | String c s' =>
      if Ascii.eqb c "e"%char || Ascii.eqb c "E"%char then
        let '(neg, s'') := sign s' in
        match digitpart s'' with
        | Some (e, _, EmptyString) => Some (if neg then - e else e)
        | _ => None
        end
      else None
  end.

Definition lower (c : ascii) : ascii :=
  let n := nat_of_ascii c in
  if (65 <=? Z.of_nat n) && (Z.of_nat n <=? 90) then ascii_of_nat (n + 32) else c.

Fixpoint lowercase (s : string) : string :=
  match s with
  | EmptyString => EmptyString
  | String c s' => String (lower c) (lowercase s')
  end.

(** The binary64 number nearest to [(-1)^neg * digits * 10^exp10]. *)
Definition decimal_to_float (neg : bool) (digits exp10 : Z) : float :=
  match digits with
  | Zpos d =>
      if 0 <=? exp10
      then SF2Prim (binary_normalize prec emax (cond_Zopp neg (digits * 10 ^ exp10)) 0 false)
      else SF2Prim (SFdiv prec emax (S754_finite neg d 0)
                          (S754_finite false (Z.to_pos (10 ^ (- exp10))) 0))
  | _ => SF2Prim (S754_zero neg)
  end.

Definition float_of_str (s : string) : option float :=
  let '(neg, body) := sign s in
  let word := lowercase body in
  if String.eqb word "inf" || String.eqb word "infinity"
  then Some (if neg then neg_infinity else infinity)
  else if String.eqb word "nan" then Some nan
  else
    match number body with
    | Some (digits, nfrac, rest) =>
        match exponent rest with
        | Some e => Some (decimal_to_float neg digits (e - nfrac))
        | None => None
        end
    | None => None
    end.


(** ** Dates: the parts of [datetime] the script uses

    Proleptic Gregorian calendar, years 1 to 9999; day 1 is 0001-01-01. *)

Definition is_leap (y : Z) : bool :=
  (y mod 4 =? 0) && (negb (y mod 100 =? 0) || (y mod 400 =? 0)).

Definition days_in_month (y m : Z) : Z :=
  if m =? 2 then (if is_leap y then 29 else 28)
  else if (m =? 4) || (m =? 6) || (m =? 9) || (m =? 11) then 30
  else 31.

(** Days of year [y] before the first of month [m]. *)
Definition days_before_month (y m : Z) : Z :=
  fold_left (fun acc k => acc + days_in_month y k) (seqZ 1 (m - 1)) 0.

(** Days before January 1st of year [y]. *)
Definition days_before_year (y : Z) : Z :=
  let p := y - 1 in p * 365 + p / 4 - p / 100 + p / 400.

Definition MAXORDINAL : Z := 3652059.

Record datetime : Set := mk_datetime
  { dt_year : Z; dt_month : Z; dt_day : Z; dt_hour : Z }.

(** Month and day of the [n]-th day (from 0) of year [y], scanning the
    months from [m]. *)
Fixpoint month_day (y n m : Z) (fuel : nat) : Z * Z :=
  match fuel with
  | O => (m, n + 1)
  | S fuel' =>
      let dim := days_in_month y m in
      if n <? dim then (m, n + 1) else month_day y (n - dim) (m + 1) fuel'
  end.

(** The civil date of an ordinal in [1, MAXORDINAL]. *)
Definition ord2ymd (ordinal : Z) : Z * Z * Z :=
  let n := ordinal - 1 in
  let n400 := n / 146097 in
  let n := n mod 146097 in
  let n100 := n / 36524 in
  let n := n mod 36524 in
  let n4 := n / 1461 in
  let n := n mod 1461 in
  let n1 := n / 365 in
  let n := n mod 365 in
  let year := n400 * 400 + 1 + n100 * 100 + n4 * 4 + n1 in
  if (n1 =? 4) || (n100 =? 4) then (year - 1, 12, 31)
  else let '(m, d) := month_day year n 1 11 in (year, m, d).

(** [datetime(year, 1, 1)] as an ordinal. CPython reads the argument as a C
    int ([OverflowError] beyond it) and then checks the year range
    ([ValueError]). *)
Definition datetime_jan1 (year : Z) : result Z :=
  if (year <? - 2 ^ 31) || (2 ^ 31 - 1 <? year) then Raise OverflowError
  else if (year <? 1) || (9999 <? year) then Raise ValueError
  else Ret (days_before_year year + 1).

(** [datetime(year, 1, 1) + timedelta(days=days, hours=hours)]: the delta is
    normalised to whole days and an hour of the day; a delta beyond
    999999999 days, or a sum outside the calendar, is an [OverflowError]. *)
Definition jan1_plus (year days hours : Z) : result datetime :=
  jan1 ← datetime_jan1 year;
  let delta_days := days + hours / 24 in
  let hh := hours mod 24 in
  if (delta_days <? -999999999) || (999999999 <? delta_days) then Raise OverflowError
  else
    let ordinal := jan1 + delta_days in
    if (ordinal <? 1) || (MAXORDINAL <? ordinal) then Raise OverflowError
    else let '(y, m, d) := ord2ymd ordinal in Ret (mk_datetime y m d hh).

Definition digit_char (d : Z) : ascii := ascii_of_nat (Z.to_nat (48 + d mod 10)).

Definition pad2 (n : Z) : string :=
  String (digit_char (n / 10)) (String (digit_char n) EmptyString).

Definition pad4 (n : Z) : string := (pad2 (n / 100) ++ pad2 (n mod 100))%string.

(** [dt.isoformat()] of a datetime on the hour: [YYYY-MM-DDTHH:00:00]. *)
Definition isoformat (dt : datetime) : string :=
  (pad4 (dt_year dt) ++ "-" ++ pad2 (dt_month dt) ++ "-" ++ pad2 (dt_day dt)
   ++ "T" ++ pad2 (dt_hour dt) ++ ":00:00")%string.

(** [s.split(sep)] for a one-character separator: empty fields are kept. *)
Fixpoint split_on (sep : ascii) (s field : string) : list string :=
  match s with
  | EmptyString => [field]
  | String c s' =>
      if Ascii.eqb c sep then field :: split_on sep s' EmptyString
      else split_on sep s' (field ++ String c EmptyString)%string
  end.

(** The value of a non-empty string of ASCII digits. *)
Definition digits_value (s : string) : option Z :=
  match digitpart s with
  | Some (v, n, EmptyString) => if n =? Z.of_nat (String.length s) then Some v else None
  | _ => None
  end.

(** The directive [%Y]: four digits. *)
Definition year_field (s : string) : option Z :=
  if Nat.eqb (String.length s) 4 then digits_value s else None.

(** The directive [%m]: [1[0-2]|0[1-9]|[1-9]]. *)
Definition month_field (s : string) : option Z :=
  if Nat.leb (String.length s) 2 then
    match digits_value s with
    | Some v => if (1 <=? v) && (v <=? 12) then Some v else None
    | None => None
    end
  else None.

(** The directive [%d]: [3[01]|[12]\d|0[1-9]|[1-9]| [1-9]]. *)
Definition day_field (s : string) : option Z :=
  let digits :=
    match s with
    | String c (String d EmptyString) => if Ascii.eqb c " "%char then String d EmptyString else s
    | _ => s
    end in
  if Nat.leb (String.length s) 2 then
    match digits_value digits with
    | Some v => if (1 <=? v) && (v <=? 31) then Some v else None
    | None => None
    end
  else None.

(** [datetime.strptime(s, '%Y-%m-%d')]: year, month and day, or
    [ValueError] when the text does not match or names no calendar day. *)
Definition strptime_ymd (s : string) : result (Z * Z * Z) :=
  match split_on "-"%char s EmptyString with
  | [ys; ms; ds] =>
      match year_field ys, month_field ms, day_field ds with
      | Some y, Some m, Some d =>
          if (1 <=? y) && (d <=? days_in_month y m) then Ret (y, m, d)
          else Raise ValueError
      | _, _, _ => Raise ValueError
      end
  | _ => Raise ValueError
  end.

End Py.
Export Py.

(* ===================================================================== *)
(** * Part II. The script                                                 *)
(* ===================================================================== *)

(** ** Tables *)

(** Column of each field in a line of OMNI2 hourly data, in the order the
    dictionary lists them. *)
Definition OMNI_COLUMNS : list (string * nat) :=
  [ ("year", 0); ("doy", 1); ("hour", 2);
    ("imf_magnitude", 9);
    ("imf_bx_gse", 14); ("imf_by_gse", 15); ("imf_bz_gse", 16);
    ("plasma_temp", 22); ("proton_density", 23); ("plasma_speed", 24);
    ("kp", 38); ("dst", 40) ]%nat.

(** Fill values for missing data. The entries for [kp] and [dst] are the
    ints 99 and 99999, which arithmetic with a float converts exactly. *)
Definition FILL_VALUES : gmap string float :=
  list_to_map
    [ ("imf_magnitude", 999.9); ("imf_bx_gse", 999.9); ("imf_by_gse", 999.9);
      ("imf_bz_gse", 999.9); ("plasma_temp", 9999999.0);
      ("proton_density", 999.9); ("plasma_speed", 9999.0);
      ("kp", 99); ("dst", 99999) ]%float.

Record EventInfo : Set := mk_event
  { ev_name : string; ev_description : string;
    ev_start : string; ev_end : string;
    ev_peak_flare : string; ev_min_dst : Z }.

(** Notable historical events. *)
Definition HISTORICAL_EVENTS : list (string * EventInfo) :=
  [ ("halloween2003",
     mk_event "Halloween Solar Storms 2003"
       "Series of powerful flares causing widespread effects. X17 and X28 class flares."
       "2003-10-28" "2003-11-02" "X28 (estimated X45)" (-383));
    ("march1989",
     mk_event "March 1989 Geomagnetic Storm"
       "Caused Quebec power grid collapse, 6 million without power for 9 hours."
       "1989-03-10" "1989-03-15" "X15" (-589));
    ("bastille2000",
     mk_event "Bastille Day Event 2000"
       "Major solar event causing satellite anomalies and spectacular auroras."
       "2000-07-14" "2000-07-17" "X5.7" (-301));
    ("may2024",
     mk_event "May 2024 Geomagnetic Storm"
       "G5 extreme storm. Historic aurora displays visible at low latitudes."
       "2024-05-10" "2024-05-14" "X8.7" (-412));
    ("october2024",
     mk_event "October 2024 X9.0 Event"
       "Strongest flare of Solar Cycle 25."
       "2024-10-01" "2024-10-05" "X9.0" (-150)) ].

(** ** Records *)

(** A raw record: the decoded columns by name ([None] for a fill value) and
    the ISO timestamp when one was attached. *)
Record OmniRecord : Type := mk_record
  { fields : gmap string (option float);
    timestamp : option string }.

(** [record.get(name)]: [None] for a missing key and for a stored [None]. *)
Definition get (fs : gmap string (option float)) (name : string) : option float :=
  match fs !! name with
  | Some v => v
  | None => None
  end.

(** Truthiness of the dictionary and of its timestamp string. *)
Definition record_truthy (r : OmniRecord) : bool :=
  negb (bool_decide (fields r = ∅) && bool_decide (timestamp r = None)).

Definition str_truthy (s : option string) : bool :=
  match s with
  | Some (String _ _) => true
  | _ => false
  end.

Record SolarWind : Set := mk_solar_wind
  { sw_speed : option float;         (* km/s *)
    sw_density : option float;       (* /cc *)
    sw_temperature : option float;   (* K *)
    sw_pressure : option float }.    (* nPa *)

Record Imf : Set := mk_imf
  { imf_magnitude : option float; imf_bx : option float;
    imf_by : option float; imf_bz : option float }.

Record Geomagnetic : Set := mk_geomagnetic
  { geo_dst : option float; geo_kp : option float; geo_storm_level : Z }.

Record Magnetosphere : Set := mk_magnetosphere
  { standoff_re : float }.           (* Earth radii *)

Record ProcessedRecord : Set := mk_processed
  { p_timestamp : string;
    solar_wind : SolarWind;
    imf : Imf;
    geomagnetic : Geomagnetic;
    magnetosphere : Magnetosphere }.

Record ProcessedData : Set := mk_processed_data
  { event_info : option EventInfo;
    data : list ProcessedRecord;
    generated_at : string }.

Record TimeRange : Set := mk_time_range
  { tr_start : string; tr_end : string; tr_hours : Z }.

Record EventSummary : Set := mk_summary
  { time_range : TimeRange;
    max_speed : option float; min_speed : option float;
    avg_speed : option float; max_density : option float;
    min_dst : option float; max_storm_level : Z;
    min_bz : option float; max_bz : option float }.

(** ** [date_to_doy], [doy_to_date] *)

(** Convert YYYY-MM-DD to (year, day_of_year). *)
Definition date_to_doy (date_str : string) : result (Z * Z) :=
  '(y, m, d) ← strptime_ymd date_str;
  mret (y, days_before_month y m + d).

(** Convert (year, day_of_year, hour) to datetime. *)
Definition doy_to_date (year doy hour : Z) : result datetime :=
  jan1_plus year (doy - 1) hour.

(** ** [parse_omni_line] *)

(** Check for fill values: the decoded value, or [None] when it is within
    0.1 of the field's fill value. *)
Definition resolve_fill (name : string) (val : float) : option float :=
  match FILL_VALUES !! name with
  | Some fill =>
      if py_bool fill && (abs (val - fill) <? 0.1)%float then None else Some val
  | None => Some val
  end.

(** [int(record[name])], under the guard that the entry is a float. *)
Definition int_field (fs : gmap string (option float)) (name : string) : result Z :=
  match get fs name with
  | Some x => py_int x
  | None => Raise TypeError
  end.

(** Create timestamp. *)
Definition make_timestamp (fs : gmap string (option float)) : result (option string) :=
  if truthy (get fs "year") && truthy (get fs "doy")
     && bool_decide (get fs "hour" ≠ None)
  then
    y ← int_field fs "year";
    d ← int_field fs "doy";
    h ← int_field fs "hour";
    dt ← doy_to_date y d h;
    mret (Some (isoformat dt))
  else mret None.

Section Parser.

(** [float(token)]: [None] stands for [ValueError]. *)
Variable py_float : string -> option float.

(** One turn of the loop over [OMNI_COLUMNS]. *)
Definition decode_field (parts : list string)
    (record : gmap string (option float)) (column : string * nat)
  : result (gmap string (option float)) :=
  let '(name, col) := column in
  match parts !! col with
  | Some tok =>                         (* col < len(parts) *)
      match py_float tok with
      | Some val => mret (<[name := resolve_fill name val]> record)
      | None => Raise ValueError
      end
  | None => mret record
  end.

(** Parse a single line of OMNI data. *)
Definition parse_omni_line (line : string) : result (option OmniRecord) :=
  let parts := py_split line in
  if (length parts <? 45)%nat then mret None
  else
    try_except
      (record ← for_each (decode_field parts) OMNI_COLUMNS ∅;
       ts ← make_timestamp record;
       mret (Some (mk_record record ts)))
      [ValueError; IndexError]
      (mret None).

End Parser.

(** ** [fetch_event_data] *)

(** [int(record.get(name, 0))]: 0 for a missing key; a stored [None] is a
    [TypeError]. *)
Definition int_field_or_0 (r : OmniRecord) (name : string) : result Z :=
  match fields r !! name with
  | None => mret 0
  | Some None => Raise TypeError
  | Some (Some x) => py_int x
  end.

(** Filter to date range: [false] where the loop body reaches a
    [continue], [true] where it appends the record. *)
Definition in_date_range (start_year start_doy end_year end_doy rec_year rec_doy : Z)
  : bool :=
  if (rec_year =? start_year) && (rec_doy <? start_doy) then false
  else if (rec_year =? end_year) && (rec_doy >? end_doy) then false
  else if (rec_year <? start_year) || (rec_year >? end_year) then false
  else true.

Definition keep_record (start_year start_doy end_year end_doy : Z) (record : OmniRecord)
  : result bool :=
  rec_year ← int_field_or_0 record "year";
  rec_doy ← int_field_or_0 record "doy";
  mret (in_date_range start_year start_doy end_year end_doy rec_year rec_doy).

Section Fetch.

Variable py_float : string -> option float.

(** Fetch OMNI data for a specific year: the lines of the year's file, or
    [None] when the download fails. *)
Variable fetch_omni_year : Z -> option (list string).

(** The body of the loop over the lines of one year. *)
Definition fetch_line (start_year start_doy end_year end_doy : Z)
    (all_data : list OmniRecord) (line : string) : result (list OmniRecord) :=
  parsed ← parse_omni_line py_float line;
  match parsed with
  | None => mret all_data
  | Some record =>
      if negb (record_truthy record) then mret all_data
      else
        keep_record start_year start_doy end_year end_doy record ≫= λ keep : bool,
        mret (if keep then (all_data ++ [record])%list else all_data)
  end.

(** The body of the loop over the years. *)
Definition fetch_year (start_year start_doy end_year end_doy : Z)
    (all_data : list OmniRecord) (year : Z) : result (list OmniRecord) :=
  match fetch_omni_year year with
  | None | Some [] => mret all_data
  | Some lines =>
      for_each (fetch_line start_year start_doy end_year end_doy) lines all_data
  end.

(** Fetch OMNI data for a date range. *)
Definition fetch_event_data (start_date end_date : string)
  : result (list OmniRecord) :=
  '(start_year, start_doy) ← date_to_doy start_date;
  '(end_year, end_doy) ← date_to_doy end_date;
  for_each (fetch_year start_year start_doy end_year end_doy)
           (seqZ start_year (end_year + 1 - start_year)) [].

End Fetch.

(** ** [calculate_magnetopause_standoff] *)

Section Standoff.

(** [x ** y] on floats, which the C library computes. *)
Variable py_pow : float -> float -> result float.

(** Estimate magnetopause standoff distance based on solar wind
    parameters. *)
Definition calculate_magnetopause_standoff (density speed bz : option float)
  : result float :=
  match density, speed with
  | Some density, Some speed =>
      (* Dynamic pressure (nPa) *)
      let p_dyn := (2e-6 * density * speed * speed)%float in
      (* Bz effect (southward IMF compresses magnetosphere) *)
      let bz_factor :=
        match bz with
        | Some bz => if (bz <? 0)%float then (1.0 + 0.02 * abs bz)%float else 1.0%float
        | None => 1.0%float
        end in
      (* Standoff distance (Earth radii) *)
      r0 ← (if (0 <? p_dyn)%float
            then p ← py_pow p_dyn (-1 / 6.6)%float;
                 py_truediv (11.4 * p)%float bz_factor
            else mret 10.0%float);
      mret (py_max2 4.0 (py_min2 15.0 r0))
  | _, _ => mret 10.0%float     (* Default *)
  end.

End Standoff.

(** ** [calculate_storm_intensity] *)

(** Calculate storm intensity level (0-5 scale). The division of [kp] by
    the constant 10.0 cannot fail. *)
Definition calculate_storm_intensity (dst kp : option float) : Z :=
  let dst := match dst with Some dst => dst | None => 0%float end in
  let kp := match kp with Some kp => (kp / 10.0)%float | None => 0%float end in
  (* Use the more severe indicator *)
  let dst_level := 0 in
  let dst_level := if (dst <=? -50)%float then 1 else dst_level in
  let dst_level := if (dst <=? -100)%float then 2 else dst_level in
  let dst_level := if (dst <=? -200)%float then 3 else dst_level in
  let dst_level := if (dst <=? -300)%float then 4 else dst_level in
  let dst_level := if (dst <=? -400)%float then 5 else dst_level in
  let kp_level := 0 in
  let kp_level := if (5 <=? kp)%float then 1 else kp_level in
  let kp_level := if (6 <=? kp)%float then 2 else kp_level in
  let kp_level := if (7 <=? kp)%float then 3 else kp_level in
  let kp_level := if (8 <=? kp)%float then 4 else kp_level in
  let kp_level := if (9 <=? kp)%float then 5 else kp_level in
  Z.max dst_level kp_level.

(** ** [process_event_data] *)

Section Process.

Variable py_pow : float -> float -> result float.

(** The body of the loop over the raw records: [None] where it reaches
    the [continue]. *)
Definition process_record (record : OmniRecord) : result (option ProcessedRecord) :=
  if negb (str_truthy (timestamp record)) then mret None
  else
    (* Calculate derived parameters *)
    let density := get (fields record) "proton_density" in
    let speed := get (fields record) "plasma_speed" in
    let bz := get (fields record) "imf_bz_gse" in
    let dst := get (fields record) "dst" in
    let kp := get (fields record) "kp" in
    let temp := get (fields record) "plasma_temp" in
    (* Dynamic pressure *)
    let pressure :=
      match density, speed with
      | Some d, Some s =>
          if py_bool d && py_bool s then Some (2e-6 * d * s * s)%float else None
      | _, _ => None
      end in
    (* Magnetopause standoff *)
    standoff ← calculate_magnetopause_standoff py_pow density speed bz;
    (* Storm intensity *)
    let storm_level := calculate_storm_intensity dst kp in
    mret (Some
      {| p_timestamp := default "" (timestamp record);
         solar_wind :=
           {| sw_speed := speed; sw_density := density;
              sw_temperature := temp; sw_pressure := pressure |};
         imf :=
           {| imf_magnitude := get (fields record) "imf_magnitude";
              imf_bx := get (fields record) "imf_bx_gse";
              imf_by := get (fields record) "imf_by_gse";
              imf_bz := bz |};
         geomagnetic :=
           {| geo_dst := dst;
              geo_kp := match kp with
                        | Some k => if py_bool k then Some (k / 10.0)%float else None
                        | None => None
                        end;
              geo_storm_level := storm_level |};
         magnetosphere := {| standoff_re := standoff |} |}).

Definition process_step (processed : list ProcessedRecord) (record : OmniRecord)
  : result (list ProcessedRecord) :=
  p ← process_record record;
  mret (match p with Some p => (processed ++ [p])%list | None => processed end).

(** The clock reading [datetime.utcnow().isoformat() + 'Z']. *)
Variable utcnow : string.

(** Process raw OMNI data into visualization-ready format. *)
Definition process_event_data (raw_data : list OmniRecord)
    (event_info : option EventInfo) : result ProcessedData :=
  processed ← for_each process_step raw_data [];
  mret {| event_info := event_info; data := processed; generated_at := utcnow |}.

End Process.

(** ** [generate_summary] *)

(** The comprehension [[v for v in values if v]]: the values that are
    truthy. *)
Definition truthy_values (values : list (option float)) : list float :=
  omap (fun v => match v with
                 | Some x => if py_bool x then Some x else None
                 | None => None
                 end) values.

(** [f(xs) if xs else None]. *)
Definition if_nonempty (f : list float -> result float) (xs : list float)
  : result (option float) :=
  match xs with
  | [] => mret None
  | _ => x ← f xs; mret (Some x)
  end.

Definition average (xs : list float) : result float :=
  py_truediv (py_sum xs) (float_of_len xs).

(** Generate event summary statistics: [None] is the empty dictionary
    returned for no data. *)
Definition generate_summary (processed_data : ProcessedData)
  : result (option EventSummary) :=
  let data := data processed_data in
  match data with
  | [] => mret None
  | first :: _ =>
      let speeds := truthy_values (map (fun d => sw_speed (solar_wind d)) data) in
      let densities := truthy_values (map (fun d => sw_density (solar_wind d)) data) in
      let dsts := truthy_values (map (fun d => geo_dst (geomagnetic d)) data) in
      let bzs := truthy_values (map (fun d => imf_bz (imf d)) data) in
      max_speed ← if_nonempty py_max speeds;
      min_speed ← if_nonempty py_min speeds;
      avg_speed ← if_nonempty average speeds;
      max_density ← if_nonempty py_max densities;
      min_dst ← if_nonempty py_min dsts;
      max_storm_level ← py_max_int (map (fun d => geo_storm_level (geomagnetic d)) data);
      min_bz ← if_nonempty py_min bzs;
      max_bz ← if_nonempty py_max bzs;
      mret (Some
        {| time_range :=
             {| tr_start := p_timestamp first;
                tr_end := p_timestamp (List.last data first);
                tr_hours := Z.of_nat (length data) |};
           max_speed := max_speed; min_speed := min_speed;
           avg_speed := avg_speed; max_density := max_density;
           min_dst := min_dst; max_storm_level := max_storm_level;
           min_bz := min_bz; max_bz := max_bz |})
  end.


(** ** [main], for one date range

    What [main] does with the date range of an event: fetch, then, when
    there is data, process it and add the summary. Printing and the JSON
    file are left out. [None] when there is no data. *)

Section Main.

Variable py_float : string -> option float.
Variable fetch_omni_year : Z -> option (list string).
Variable py_pow : float -> float -> result float.
Variable utcnow : string.

Definition run_date_range (start_date end_date : string) (info : option EventInfo)
  : result (option (ProcessedData * option EventSummary)) :=
  raw_data ← fetch_event_data py_float fetch_omni_year start_date end_date;
  match raw_data with
  | [] => mret None
  | _ =>
      processed ← process_event_data py_pow utcnow raw_data info;
      summary ← generate_summary processed;
      mret (Some (processed, summary))
  end.

End Main.

(* ===================================================================== *)
(** * Part III. Notions used to state and prove the properties            *)
(* ===================================================================== *)

(** The mapping the specification describes for Dst: the level of the most
    severe threshold that Dst reaches, looked up in order. *)
Definition dst_level_lookup (dst : float) : Z :=
  if (dst <=? -400)%float then 5
  else if (dst <=? -300)%float then 4
  else if (dst <=? -200)%float then 3
  else if (dst <=? -100)%float then 2
  else if (dst <=? -50)%float then 1
  else 0.

(** The value the specification gives for the pressure. *)
Definition dynamic_pressure (density speed : float) : float :=
  (2e-6 * density * speed * speed)%float.

(** [lo <= x <= hi] in the order of the floats. *)
Definition between (lo hi x : float) : Prop :=
  (lo <=? x)%float = true /\ (x <=? hi)%float = true.

(** Where the processed record reports a raw field: [None] for the three
    time fields, which it reports through the timestamp only. *)
Definition reported_field (name : string) (p : ProcessedRecord)
  : option (option float) :=
  if String.eqb name "plasma_speed" then Some (sw_speed (solar_wind p))
  else if String.eqb name "proton_density" then Some (sw_density (solar_wind p))
  else if String.eqb name "plasma_temp" then Some (sw_temperature (solar_wind p))
  else if String.eqb name "imf_magnitude" then Some (imf_magnitude (imf p))
  else if String.eqb name "imf_bx_gse" then Some (imf_bx (imf p))
  else if String.eqb name "imf_by_gse" then Some (imf_by (imf p))
  else if String.eqb name "imf_bz_gse" then Some (imf_bz (imf p))
  else if String.eqb name "dst" then Some (geo_dst (geomagnetic p))
  else if String.eqb name "kp" then Some (geo_kp (geomagnetic p))
  else None.

(** The values that are present ([not None]), zero included. *)
Definition present_values (values : list (option float)) : list float :=
  omap id values.

(** A power function that never raises: an instance of what is assumed
    of [**] where the standoff model calls it. *)
Definition unit_pow (x y : float) : result float := Ret 1.0%float.

(** ** Sample lines of OMNI2 hourly data (55 columns) *)

(** A storm hour: Bz -20.0, density 10.0, speed 800, Kp 90, Dst -450. *)
Definition storm_line : string :=
  "2003 303 22 2320 71 71 24 62 9.6 27.5 166.1 -22.5 7.9 -2.0 -3.1 10.2 -20.0 1.7 2.1 1.5 3.0 1.2 1234567. 10.0 800. -3.5 1.6 0.034 12001. 0.5 3.0 0.020 2.61 3.1 0.88 1.2 8.1 3.3 90 116 -450 213 999999.99 99999.99 99999.99 9999.99 9999.99 9999.99 12 -7 141.2 2.35 9.999 99999 7".

(** A quiet hour: Bz 0.0, density 0.0, speed 400, Kp 0, Dst 0. *)
Definition quiet_line : string :=
  "2003 301 0 2320 71 71 24 62 9.6 4.1 166.1 -22.5 7.9 -2.0 1.2 -0.7 0.0 1.7 2.1 1.5 3.0 1.2 51234. 0.0 400. -3.5 1.6 0.034 12001. 0.5 3.0 0.020 2.61 3.1 0.88 1.2 8.1 3.3 0 116 0 213 999999.99 99999.99 99999.99 9999.99 9999.99 9999.99 12 -7 141.2 2.35 9.999 99999 7".

(** The next hour: Bz 3.1, density missing (999.9), speed 500, Kp 13,
    Dst 12. *)
Definition calm_line : string :=
  "2003 301 1 2320 71 71 24 62 9.6 5.0 166.1 -22.5 7.9 -2.0 2.2 -1.7 3.1 1.7 2.1 1.5 3.0 1.2 61234. 999.9 500. -3.5 1.6 0.034 12001. 0.5 3.0 0.020 2.61 3.1 0.88 1.2 8.1 3.3 13 116 12 213 999999.99 99999.99 99999.99 9999.99 9999.99 9999.99 12 -7 141.2 2.35 9.999 99999 7".

(** An hour whose nine measurements are all fill values. *)
Definition fill_line : string :=
  "2003 306 23 2320 71 71 24 62 9.6 999.9 166.1 -22.5 7.9 -2.0 999.9 999.9 999.9 1.7 2.1 1.5 3.0 1.2 9999999. 999.9 9999. -3.5 1.6 0.034 12001. 0.5 3.0 0.020 2.61 3.1 0.88 1.2 8.1 3.3 99 116 99999 213 999999.99 99999.99 99999.99 9999.99 9999.99 9999.99 12 -7 141.2 2.35 9.999 99999 7".

(** A line whose day of year is 0. *)
Definition undated_line : string :=
  "2003 0 0 2320 71 71 24 62 9.6 9.4 166.1 -22.5 7.9 -2.0 1.4 -3.0 1.9 1.7 2.1 1.5 3.0 1.2 98765. 3.6 602. -3.5 1.6 0.034 12001. 0.5 3.0 0.020 2.61 3.1 0.88 1.2 8.1 3.3 43 116 -49 213 999999.99 99999.99 99999.99 9999.99 9999.99 9999.99 12 -7 141.2 2.35 9.999 99999 7".

(** A line of year 0 whose day of year reads [nan]. *)
Definition nan_day_line : string :=
  "0 nan 0 2320 71 71 24 62 9.6 9.4 166.1 -22.5 7.9 -2.0 1.4 -3.0 1.9 1.7 2.1 1.5 3.0 1.2 98765. 3.6 602. -3.5 1.6 0.034 12001. 0.5 3.0 0.020 2.61 3.1 0.88 1.2 8.1 3.3 43 116 -49 213 999999.99 99999.99 99999.99 9999.99 9999.99 9999.99 12 -7 141.2 2.35 9.999 99999 7".

(** A line of day 306.9 of 2003: a day of year with a fraction. *)
Definition fractional_day_line : string :=
  "2003 306.9 23 2320 71 71 24 62 9.6 9.4 166.1 -22.5 7.9 -2.0 1.4 -3.0 1.9 1.7 2.1 1.5 3.0 1.2 98765. 3.6 602. -3.5 1.6 0.034 12001. 0.5 3.0 0.020 2.61 3.1 0.88 1.2 8.1 3.3 43 116 -49 213 999999.99 99999.99 99999.99 9999.99 9999.99 9999.99 12 -7 141.2 2.35 9.999 99999 7".

(** A year file that opens with the line of year 0 and a [nan] day. *)
Definition nan_day_year (year : Z) : option (list string) :=
  Some [nan_day_line; storm_line].

(** A truncated line of 44 tokens. *)
Definition short_line : string :=
  "2003 301 0 2320 71 71 24 62 9.6 9.4 166.1 -22.5 7.9 -2.0 1.4 -3.0 1.9 1.7 2.1 1.5 3.0 1.2 98765. 3.6 602. -3.5 1.6 0.034 12001. 0.5 3.0 0.020 2.61 3.1 0.88 1.2 8.1 3.3 43 116 -49 213 999999.99 99999.99".

(** A year file of 2003 holding the quiet and the calm hour. *)
Definition quiet_year (year : Z) : option (list string) :=
  if year =? 2003 then Some [quiet_line; calm_line] else None.

(** The record a line parses to with the ASCII decoder, the empty record
    where there is none. *)
Definition record_of (line : string) : OmniRecord :=
  match parse_omni_line float_of_str line with
  | Ret (Some r) => r
  | _ => mk_record ∅ None
  end.

(** The mantissa [m] at exponent [e] denotes at least [2^emin], the
    smallest positive number of the format. *)
Definition above_emin (prec emax m e : Z) : Prop :=
  0 < m /\ 2 ^ (SpecFloat.emin prec emax - e) <= m.

(** A float that is positive or zero, an infinity included; not NaN. *)
Definition SFnonneg (x : spec_float) : Prop :=
  match x with
  | S754_zero false | S754_infinity false | S754_finite false _ _ => True
  | _ => False
  end.

(** ** Notions and sample inputs of the further properties *)

(** The number of days of a year. *)
Definition year_length (y : Z) : Z := if is_leap y then 366 else 365.

(** The ordered lookup of the Kp thresholds, on true Kp. *)
Definition kp_level_lookup (kp : float) : Z :=
  if (9 <=? kp)%float then 5
  else if (8 <=? kp)%float then 4
  else if (7 <=? kp)%float then 3
  else if (6 <=? kp)%float then 2
  else if (5 <=? kp)%float then 1
  else 0.

(** A float that is a number: [x == x]. *)
Definition not_nan (x : float) : Prop := (x =? x)%float = true.

(** A line whose speed column reads [n/a]. *)
Definition garbled_line : string :=
  "2003 301 5 2320 71 71 24 62 9.6 9.4 166.1 -22.5 7.9 -2.0 1.4 -3.0 1.9 1.7 2.1 1.5 3.0 1.2 98765. 3.6 n/a -3.5 1.6 0.034 12001. 0.5 3.0 0.020 2.61 3.1 0.88 1.2 8.1 3.3 43 116 -49 213 999999.99 99999.99 99999.99 9999.99 9999.99 9999.99 12 -7 141.2 2.35 9.999 99999 7".

(** A line for day 366 of the year 9999, a day past the calendar. *)
Definition overflow_line : string :=
  "9999 366 0 2320 71 71 24 62 9.6 9.4 166.1 -22.5 7.9 -2.0 1.4 -3.0 1.9 1.7 2.1 1.5 3.0 1.2 98765. 3.6 602. -3.5 1.6 0.034 12001. 0.5 3.0 0.020 2.61 3.1 0.88 1.2 8.1 3.3 43 116 -49 213 999999.99 99999.99 99999.99 9999.99 9999.99 9999.99 12 -7 141.2 2.35 9.999 99999 7".

(** A source none of whose year files can be fetched. *)
Definition no_year (year : Z) : option (list string) := None.

(** [m] is an element of [xs] that no element exceeds, respectively that
    exceeds no element, in the order of the floats. *)
Definition is_max_of (xs : list float) (m : float) : Prop :=
  m ∈ xs /\ forall x, x ∈ xs -> (x <=? m)%float = true.

Definition is_min_of (xs : list float) (m : float) : Prop :=
  m ∈ xs /\ forall x, x ∈ xs -> (m <=? x)%float = true.

(** The processed data of the storm hour and the quiet hour, and its
    summary. *)
Definition storm_processed : ProcessedData :=
  match process_event_data unit_pow "now"
          [record_of storm_line; record_of quiet_line] None with
  | Ret processed => processed
  | Raise _ => mk_processed_data None [] ""
  end.

Definition storm_summary : EventSummary :=
  match generate_summary storm_processed with
  | Ret (Some s) => s
  | _ => mk_summary (mk_time_range "" "" 0) None None None None None 0 None None
  end.

(** What a run over the year file of the quiet and the calm hour
    produces. *)
Definition quiet_output : option (ProcessedData * option EventSummary) :=
  match run_date_range float_of_str quiet_year unit_pow "now"
          "2003-10-28" "2003-11-02" None with
  | Ret out => out
  | Raise _ => None
  end.

(* ===================================================================== *)
(** * Part IV. Facts about binary64 arithmetic                            *)
(* ===================================================================== *)

Module Binary64.

(** ** The order of [SpecFloat] *)

Ltac cmp_cases :=
  repeat match goal with
    | H : context [Z.compare ?a ?b] |- _ => destruct (Z.compare_spec a b); subst
    | |- context [Z.compare ?a ?b] => destruct (Z.compare_spec a b); subst
    | H : context [Pos.compare_cont Eq ?a ?b] |- _ =>
        change (Pos.compare_cont Eq a b) with (Pos.compare a b) in H;
        destruct (Pos.compare_spec a b); subst
    | |- context [Pos.compare_cont Eq ?a ?b] =>
        change (Pos.compare_cont Eq a b) with (Pos.compare a b);
        destruct (Pos.compare_spec a b); subst
    end.

Ltac sf_order :=
  unfold SFltb, SFleb, SFeqb, SFcompare, SFabs in *;
  repeat match goal with s : bool |- _ => destruct s end;
  cmp_cases; simpl in *; try reflexivity; try discriminate; try lia.

Lemma SFltb_leb x y : SFltb x y = true -> SFleb x y = true.
Proof. unfold SFltb, SFleb. destruct (SFcompare x y) as [[]|]; easy. Qed.

Lemma SFleb_trans x y z :
  SFleb x y = true -> SFleb y z = true -> SFleb x z = true.
Proof.
  destruct x as [sx|sx| |sx mx ex], y as [sy|sy| |sy my ey],
           z as [sz|sz| |sz mz ez]; intros Hxy Hyz; sf_order.
Qed.

(** Below zero, a larger magnitude is a smaller number. *)
Lemma SFabs_leb_nonpos x y :
  SFleb x (S754_zero false) = true -> SFleb y (S754_zero false) = true ->
  SFleb (SFabs x) (SFabs y) = true -> SFleb y x = true.
Proof.
  destruct x as [sx|sx| |sx mx ex], y as [sy|sy| |sy my ey];
    intros Hx Hy Hxy; sf_order.
Qed.

Lemma SFeqb_zero_false x s :
  match x with S754_zero _ => False | _ => True end ->
  SFeqb x (S754_zero s) = false.
Proof. destruct x as [sx|sx| |sx mx ex]; intros H; try easy; sf_order. Qed.

(** ** Rounding never reaches zero from [2^emin] up *)

Section Rounding.
Variables prec emax : Z.
Hypothesis prec_pos : 0 < prec.
Local Abbreviation emin := (SpecFloat.emin prec emax).
Local Abbreviation fexp := (SpecFloat.fexp prec emax).
Local Abbreviation above := (above_emin prec emax).

Lemma pow2_le_1 k : k <= 0 -> 2 ^ k <= 1.
Proof.
  intros Hk. destruct (Z.eq_dec k 0) as [->|Hne]; [reflexivity|].
  rewrite Z.pow_neg_r by lia. lia.
Qed.

Lemma above_emin_mono m m' e : above m e -> m <= m' -> above m' e.
Proof. unfold above_emin. lia. Qed.

Lemma above_emin_exp m e : 0 < m -> emin <= e -> above m e.
Proof.
  intros Hm He. split; [assumption|].
  pose proof (pow2_le_1 (emin - e)). lia.
Qed.

Lemma digits2_pos_lower m : 2 ^ (Zpos (digits2_pos m) - 1) <= Zpos m.
Proof.
  induction m as [m IH|m IH|]; simpl digits2_pos.
  - rewrite Pos2Z.inj_succ.
    replace (Z.succ (Zpos (digits2_pos m)) - 1)
      with (Z.succ (Zpos (digits2_pos m) - 1)) by lia.
    rewrite Z.pow_succ_r by lia. lia.
  - rewrite Pos2Z.inj_succ.
    replace (Z.succ (Zpos (digits2_pos m)) - 1)
      with (Z.succ (Zpos (digits2_pos m) - 1)) by lia.
    rewrite Z.pow_succ_r by lia. lia.
  - simpl. lia.
Qed.

Lemma shr_1_m mrs : 0 <= shr_m mrs -> shr_m (shr_1 mrs) = shr_m mrs / 2.
Proof.
  destruct mrs as [m r s]; simpl. intros Hm.
  destruct m as [|[p|p|]|p]; simpl shr_m; try lia; try reflexivity.
  - apply Z.div_unique with 1; lia.
  - apply Z.div_unique with 0; lia.
Qed.

Lemma pow2_xI n : 2 ^ Zpos n~1 = 2 * 2 ^ Zpos n * 2 ^ Zpos n.
Proof.
  replace (Zpos n~1) with (1 + Zpos n + Zpos n) by lia.
  rewrite Z.pow_add_r, Z.pow_add_r by lia. reflexivity.
Qed.

Lemma pow2_xO n : 2 ^ Zpos n~0 = 2 ^ Zpos n * 2 ^ Zpos n.
Proof.
  replace (Zpos n~0) with (Zpos n + Zpos n) by lia.
  rewrite Z.pow_add_r by lia. reflexivity.
Qed.

(** Shifting right [n] times divides the mantissa by [2^n]. *)
Lemma iter_shr_1_m n : forall mrs, 0 <= shr_m mrs ->
  shr_m (SpecFloat.iter_pos shr_1 n mrs) = shr_m mrs / 2 ^ Zpos n.
Proof.
  induction n as [n IH|n IH|]; intros mrs Hm; simpl SpecFloat.iter_pos.
  - assert (H1 : 0 <= shr_m (shr_1 mrs))
      by (rewrite shr_1_m by assumption; apply Z.div_pos; lia).
    assert (H2 : 0 <= shr_m (SpecFloat.iter_pos shr_1 n (shr_1 mrs))).
    { rewrite IH by assumption. apply Z.div_pos; [assumption|].
      apply Z.pow_pos_nonneg; lia. }
    rewrite IH, IH, shr_1_m by assumption.
    rewrite !Z.div_div by (try apply Z.pow_pos_nonneg; lia).
    rewrite (pow2_xI n). f_equal. ring.
  - assert (H2 : 0 <= shr_m (SpecFloat.iter_pos shr_1 n mrs)).
    { rewrite IH by assumption. apply Z.div_pos; [assumption|].
      apply Z.pow_pos_nonneg; lia. }
    rewrite IH, IH by assumption.
    rewrite !Z.div_div by (try apply Z.pow_pos_nonneg; lia).
    rewrite (pow2_xO n). f_equal.
  - rewrite shr_1_m by assumption. reflexivity.
Qed.

Lemma shr_record_of_loc_m m l : shr_m (shr_record_of_loc m l) = m.
Proof. destruct l as [|[]]; reflexivity. Qed.

(** One alignment step keeps a mantissa positive, and what follows it is
    again at least [2^emin]. *)
Lemma shr_fexp_above m e l :
  above m e ->
  0 < shr_m (fst (shr_fexp prec emax m e l)) /\
  forall m', shr_m (fst (shr_fexp prec emax m e l)) <= m' ->
             above m' (snd (shr_fexp prec emax m e l)).
Proof.
  intros [Hm Hlow]. unfold shr_fexp, shr.
  destruct m as [|p|p]; try lia. simpl Zdigits2.
  pose proof (digits2_pos_lower p) as Hd.
  set (d := Zpos (digits2_pos p)) in *.
  destruct (fexp (d + e) - e) as [|n|n] eqn:Hn; simpl fst; simpl snd.
  - rewrite shr_record_of_loc_m. split; [lia|]. intros m' Hm'. split; lia.
  - rewrite iter_shr_1_m by (rewrite shr_record_of_loc_m; lia).
    rewrite shr_record_of_loc_m.
    assert (Hpow : 2 ^ Zpos n <= Zpos p).
    { unfold SpecFloat.fexp in Hn.
      destruct (Z.max_spec (d + e - prec) emin) as [[_ Hmax]|[_ Hmax]];
        rewrite Hmax in Hn.
      - replace (Zpos n) with (emin - e) by lia. assumption.
      - apply Z.le_trans with (2 ^ (d - 1)); [|assumption].
        apply Z.pow_le_mono_r; lia. }
    assert (Hq : 0 < Zpos p / 2 ^ Zpos n).
    { apply Z.div_str_pos. split; [apply Z.pow_pos_nonneg; lia | assumption]. }
    split; [assumption|]. intros m' Hm'.
    apply above_emin_exp; [lia|].
    rewrite <- Hn. unfold SpecFloat.fexp. lia.
  - rewrite shr_record_of_loc_m. split; [lia|]. intros m' Hm'. split; lia.
Qed.

Lemma round_nearest_even_ge mx lx : mx <= round_nearest_even mx lx.
Proof. destruct lx as [|[]]; simpl; try lia. destruct (Z.even mx); lia. Qed.

(** A value of at least [2^emin] rounds to a finite number or overflows. *)
Lemma binary_round_aux_above sx mx ex lx :
  above mx ex ->
  (exists m e, binary_round_aux prec emax sx mx ex lx = S754_finite sx m e) \/
  binary_round_aux prec emax sx mx ex lx = S754_infinity sx.
Proof.
  intros Habove. unfold binary_round_aux.
  destruct (shr_fexp_above mx ex lx Habove) as [Hpos Hnext].
  destruct (shr_fexp prec emax mx ex lx) as [mrs' e'] eqn:E1;
    simpl fst in *; simpl snd in *.
  specialize (Hnext _ (round_nearest_even_ge (shr_m mrs') (loc_of_shr_record mrs'))).
  destruct (shr_fexp_above _ e' loc_Exact Hnext) as [Hpos2 _].
  destruct (shr_fexp prec emax _ e' loc_Exact) as [mrs'' e''] eqn:E2;
    simpl fst in *.
  destruct (shr_m mrs'') as [|m|m]; try lia.
  destruct (e'' <=? emax - prec); eauto.
Qed.

(** Whatever the magnitude, rounding keeps the sign, or yields NaN. *)
Lemma binary_round_aux_cases sx mx ex lx :
  binary_round_aux prec emax sx mx ex lx = S754_zero sx \/
  (exists m e, binary_round_aux prec emax sx mx ex lx = S754_finite sx m e) \/
  binary_round_aux prec emax sx mx ex lx = S754_infinity sx \/
  binary_round_aux prec emax sx mx ex lx = S754_nan.
Proof.
  unfold binary_round_aux.
  destruct (shr_fexp prec emax mx ex lx) as [mrs' e'].
  destruct (shr_fexp prec emax _ e' loc_Exact) as [mrs'' e''].
  destruct (shr_m mrs'') as [|m|m]; auto.
  destruct (e'' <=? emax - prec); eauto.
Qed.

Lemma iter_xO_Z m d : Zpos (Pos.iter xO m d) = Zpos m * 2 ^ Zpos d.
Proof.
  revert m. induction d as [d IH|d IH|]; intros m; simpl Pos.iter.
  - rewrite (Pos2Z.inj_xO (Pos.iter xO (Pos.iter xO m d) d)), IH, IH, pow2_xI.
    ring.
  - rewrite IH, IH, pow2_xO. ring.
  - rewrite (Pos2Z.inj_xO m). change (2 ^ 1) with 2. ring.
Qed.

(** Aligning a mantissa to a smaller exponent keeps its value. *)
Lemma shl_align_above m e e' :
  above (Zpos m) e ->
  above (Zpos (fst (shl_align m e e'))) (snd (shl_align m e e')).
Proof.
  intros [Hm Hlow]. unfold shl_align.
  destruct (e' - e) as [|d|d] eqn:Hd; simpl fst; simpl snd;
    try (split; assumption).
  split; [lia|]. rewrite iter_xO_Z.
  destruct (Z_le_gt_dec (emin - e') 0) as [Hle|Hgt].
  - assert (0 < 2 ^ Zpos d) by (apply Z.pow_pos_nonneg; lia).
    pose proof (pow2_le_1 (emin - e') Hle). nia.
  - destruct (Z_le_gt_dec emin e) as [Hee|Hee].
    + apply Z.le_trans with (1 * 2 ^ Zpos d).
      * rewrite Z.mul_1_l. apply Z.pow_le_mono_r; lia.
      * apply Z.mul_le_mono_nonneg_r; [apply Z.pow_nonneg|]; lia.
    + replace (emin - e') with ((emin - e) + Zpos d) by lia.
      rewrite Z.pow_add_r by lia.
      apply Z.mul_le_mono_nonneg_r; [apply Z.pow_nonneg; lia | assumption].
Qed.

Lemma shl_align_snd m e e' : e' <= e -> snd (shl_align m e e') = e'.
Proof.
  intros Hle. unfold shl_align.
  destruct (e' - e) as [|d|d] eqn:Hd; simpl; lia.
Qed.

Lemma binary_round_above sx m e :
  above (Zpos m) e ->
  (exists m' e', binary_round prec emax sx m e = S754_finite sx m' e') \/
  binary_round prec emax sx m e = S754_infinity sx.
Proof.
  intros H. unfold binary_round.
  pose proof (shl_align_above m e (fexp (Zpos (digits2_pos m) + e)) H) as H'.
  destruct (shl_align m e _) as [mz ez]; simpl in H'.
  apply binary_round_aux_above; assumption.
Qed.

(** The product of two numbers that are not negative is not negative. *)
Lemma SFmul_nonneg x y :
  SFnonneg x -> SFnonneg y ->
  SFnonneg (SFmul prec emax x y) \/ SFmul prec emax x y = S754_nan.
Proof.
  destruct x as [[]|[]| |[] mx ex], y as [[]|[]| |[] my ey];
    simpl; intros Hx Hy; try contradiction; auto.
  destruct (binary_round_aux_cases false (Zpos (mx * my)) (ex + ey) loc_Exact)
    as [H|[(m & e & H)|[H|H]]]; rewrite H; simpl; auto.
Qed.

(** Adding a number that is not negative to a positive one of at least
    [2^emin] never gives zero. *)
Lemma SFadd_pos_nonzero m1 e1 y s :
  above (Zpos m1) e1 ->
  SFnonneg y \/ y = S754_nan ->
  SFeqb (SFadd prec emax (S754_finite false m1 e1) y) (S754_zero s) = false.
Proof.
  intros Habove [Hy| ->]; [|reflexivity].
  destruct y as [[]|[]| |[] m2 e2]; simpl in Hy; try contradiction;
    try (apply SFeqb_zero_false; exact I).
  unfold SFadd. set (ez := Z.min e1 e2).
  pose proof (shl_align_above m1 e1 ez Habove) as Ha.
  rewrite shl_align_snd in Ha by (unfold ez; lia).
  simpl cond_Zopp.
  set (a := fst (shl_align m1 e1 ez)) in *.
  set (b := fst (shl_align m2 e2 ez)).
  change (Zpos a + Zpos b) with (Zpos (a + b)). simpl binary_normalize.
  assert (Hab : above (Zpos (a + b)) ez)
    by (apply above_emin_mono with (Zpos a); [assumption | lia]).
  destruct (binary_round_above false (a + b) ez Hab) as [(m & e & H)|H];
    rewrite H; apply SFeqb_zero_false; exact I.
Qed.
End Rounding.

(** ** The primitive floats *)

Lemma ltb_leb (x y : float) : (x <? y)%float = true -> (x <=? y)%float = true.
Proof. rewrite FloatAxioms.ltb_spec, FloatAxioms.leb_spec. apply SFltb_leb. Qed.

Lemma leb_trans (x y z : float) :
  (x <=? y)%float = true -> (y <=? z)%float = true -> (x <=? z)%float = true.
Proof. rewrite !FloatAxioms.leb_spec. apply SFleb_trans. Qed.

Lemma abs_leb_nonpos (x y : float) :
  (x <=? 0)%float = true -> (y <=? 0)%float = true ->
  (abs x <=? abs y)%float = true -> (y <=? x)%float = true.
Proof. rewrite !FloatAxioms.leb_spec, !FloatAxioms.abs_spec. apply SFabs_leb_nonpos. Qed.

Lemma SFabs_nonneg x : SFnonneg (SFabs x) \/ SFabs x = S754_nan.
Proof. destruct x as [s|s| |s m e]; simpl; auto. Qed.

(** [1.0 + c * abs(x)] is never zero, for a constant [c] that is not
    negative: Python's division by it cannot fail. *)
Lemma one_plus_scaled_abs_nonzero (c x : float) :
  SFnonneg (Prim2SF c) ->
  (1.0 + c * abs x =? 0)%float = false.
Proof.
  intros Hc. rewrite FloatAxioms.eqb_spec, FloatAxioms.add_spec, FloatAxioms.mul_spec, FloatAxioms.abs_spec.
  change (Prim2SF 1.0) with (S754_finite false 4503599627370496 (-52)).
  change (Prim2SF 0) with (S754_zero false).
  apply SFadd_pos_nonzero.
  - reflexivity.
  - split; [reflexivity | discriminate].
  - destruct (SFabs_nonneg (Prim2SF x)) as [Hx|Hx].
    + apply SFmul_nonneg; assumption.
    + rewrite Hx. right. destruct (Prim2SF c) as [| | |]; reflexivity.
Qed.

(** The clamp [max(lo, min(hi, x))] lies between its bounds, whatever [x]
    is, NaN included. *)
Lemma clamp_between (lo hi x : float) :
  (lo <? hi)%float = true ->
  between lo hi (py_max2 lo (py_min2 hi x)).
Proof.
  intros Hlohi. unfold between, py_max2, py_min2.
  destruct (x <? hi)%float eqn:Hx.
  - destruct (lo <? x)%float eqn:Hl.
    + split; apply ltb_leb; assumption.
    + split; [|apply ltb_leb; assumption].
      rewrite FloatAxioms.leb_spec. rewrite FloatAxioms.ltb_spec in Hlohi.
      destruct (Prim2SF lo) as [s|s| |s m e], (Prim2SF hi) as [s'|s'| |s' m' e'];
        try discriminate; sf_order.
  - rewrite Hlohi. split; [apply ltb_leb; assumption|].
    rewrite FloatAxioms.leb_spec. rewrite FloatAxioms.ltb_spec in Hlohi.
    destruct (Prim2SF lo) as [s|s| |s m e], (Prim2SF hi) as [s'|s'| |s' m' e'];
      try discriminate; sf_order.
Qed.

End Binary64.

(* ===================================================================== *)
(** * Part V. The script's properties                                     *)
(* ===================================================================== *)

Import Binary64.

(** ** Results *)

Lemma bind_Ret_inv {A B} (m : result A) (k : A -> result B) b :
  (m ≫= k) = Ret b -> exists a, m = Ret a /\ k a = Ret b.
Proof. destruct m as [a|e]; simpl; [eauto | discriminate]. Qed.

Lemma try_except_Ret_inv {A} (m : result A) caught handler a :
  try_except m caught handler = Ret a ->
  m = Ret a \/ (exists e, m = Raise e /\ handler = Ret a).
Proof.
  unfold try_except. destruct m as [a'|e]; [auto|].
  destruct (existsb _ _); [eauto | discriminate].
Qed.

(** ** The parser *)

Lemma OMNI_COLUMNS_NoDup : NoDup OMNI_COLUMNS.*1.
Proof. apply (bool_decide_unpack _). vm_compute. reflexivity. Qed.

(** Every column the parser reads lies within the first 45 tokens. *)
Lemma OMNI_COLUMNS_below_45 name col :
  (name, col) ∈ OMNI_COLUMNS -> (col < 45)%nat.
Proof.
  unfold OMNI_COLUMNS. rewrite !elem_of_cons, elem_of_nil.
  intros H. repeat destruct H as [[= _ ->]|H]; lia.
Qed.

Lemma get_lookup (fs : gmap string (option float)) name v :
  fs !! name = Some v -> get fs name = v.
Proof. unfold get. intros ->. reflexivity. Qed.

Section ParserFacts.
Variable py_float : string -> option float.

Lemma decode_field_inv parts acc name col fs :
  decode_field py_float parts acc (name, col) = Ret fs ->
  (parts !! col = None /\ fs = acc) \/
  (exists tok val, parts !! col = Some tok /\ py_float tok = Some val
                   /\ fs = <[name := resolve_fill name val]> acc).
Proof.
  unfold decode_field. destruct (parts !! col) as [tok|]; [|intros [= <-]; auto].
  destruct (py_float tok) as [val|] eqn:Hval; [|discriminate].
  intros [= <-]. right. exists tok, val. auto.
Qed.

(** The loop over the columns stores, under each name, the resolved value
    of the token in that column, and leaves the other names alone. *)
Lemma decode_columns_inv parts cols : forall acc fs,
  NoDup cols.*1 ->
  for_each (decode_field py_float parts) cols acc = Ret fs ->
  (forall name col tok, (name, col) ∈ cols -> parts !! col = Some tok ->
     exists val, py_float tok = Some val
                 /\ fs !! name = Some (resolve_fill name val))
  /\ (forall name, name ∉ cols.*1 -> fs !! name = acc !! name).
Proof.
  induction cols as [|[n c] cols IH]; intros acc fs Hnd Hrun.
  - simpl in Hrun. injection Hrun as <-. split.
    + intros name col tok Hin. inversion Hin.
    + reflexivity.
  - simpl in Hrun. apply bind_Ret_inv in Hrun as (acc' & Hstep & Hrest).
    rewrite fmap_cons in Hnd. apply NoDup_cons in Hnd as [Hfresh Hnd].
    simpl in Hfresh.
    destruct (IH _ _ Hnd Hrest) as [Hin Hout]. split.
    + intros name col tok Hmem Htok.
      apply elem_of_cons in Hmem as [[= -> ->]|Hmem]; [|eauto].
      apply decode_field_inv in Hstep
          as [[Hnone _]|(tok' & val & Htok' & Hval & ->)]; [congruence|].
      assert (tok' = tok) as -> by congruence.
      exists val. split; [assumption|].
      rewrite (Hout _ Hfresh). apply lookup_insert_eq.
    + intros name Hname. rewrite fmap_cons in Hname.
      apply not_elem_of_cons in Hname as [Hne Hname].
      rewrite (Hout _ Hname).
      apply decode_field_inv in Hstep as [[_ ->]|(tok' & val & _ & _ & ->)];
        [reflexivity|].
      apply lookup_insert_ne. simpl in Hne. congruence.
Qed.

(** What a returned record tells about the line. *)
Lemma parse_omni_line_inv line r :
  parse_omni_line py_float line = Ret (Some r) ->
  (45 <= length (py_split line))%nat
  /\ for_each (decode_field py_float (py_split line)) OMNI_COLUMNS ∅ = Ret (fields r)
  /\ make_timestamp (fields r) = Ret (timestamp r).
Proof.
  unfold parse_omni_line.
  destruct (Nat.ltb_spec (length (py_split line)) 45) as [Hlt|Hge]; [discriminate|].
  intros H. apply try_except_Ret_inv in H as [H|(e & _ & H)]; [|discriminate].
  apply bind_Ret_inv in H as (fs & Hfs & H).
  apply bind_Ret_inv in H as (ts & Hts & H).
  injection H as <-. simpl. auto.
Qed.

(** In a returned record every column is stored: the token decoded, and
    resolved against the field's fill value. *)
Lemma parsed_field line r name col :
  parse_omni_line py_float line = Ret (Some r) ->
  (name, col) ∈ OMNI_COLUMNS ->
  exists tok val, py_split line !! col = Some tok /\ py_float tok = Some val
                  /\ fields r !! name = Some (resolve_fill name val).
Proof.
  intros Hparse Hcol.
  destruct (parse_omni_line_inv _ _ Hparse) as (Hlen & Hrun & _).
  pose proof (OMNI_COLUMNS_below_45 _ _ Hcol) as Hlt.
  destruct (lookup_lt_is_Some_2 (py_split line) col) as [tok Htok]; [lia|].
  destruct (decode_columns_inv _ _ _ _ OMNI_COLUMNS_NoDup Hrun) as [Hin _].
  destruct (Hin _ _ _ Hcol Htok) as (val & Hval & Hfs).
  exists tok, val. auto.
Qed.

(** Year, day of year and hour have no fill value: a returned record
    always carries the three of them. *)
Lemma parsed_time_fields line r :
  parse_omni_line py_float line = Ret (Some r) ->
  exists y d h,
    fields r !! "year" = Some (Some y) /\ fields r !! "doy" = Some (Some d)
    /\ fields r !! "hour" = Some (Some h).
Proof.
  intros Hparse.
  destruct (parsed_field _ _ "year" 0%nat Hparse) as (? & y & _ & _ & Hy);
    [unfold OMNI_COLUMNS; set_solver|].
  destruct (parsed_field _ _ "doy" 1%nat Hparse) as (? & d & _ & _ & Hd);
    [unfold OMNI_COLUMNS; set_solver|].
  destruct (parsed_field _ _ "hour" 2%nat Hparse) as (? & h & _ & _ & Hh);
    [unfold OMNI_COLUMNS; set_solver|].
  exists y, d, h. auto.
Qed.

Lemma parsed_record_truthy line r :
  parse_omni_line py_float line = Ret (Some r) -> record_truthy r = true.
Proof.
  intros Hparse. destruct (parsed_time_fields _ _ Hparse) as (y & _ & _ & Hy & _).
  unfold record_truthy. rewrite bool_decide_eq_false_2; [reflexivity|].
  intros Hempty. rewrite Hempty, lookup_empty in Hy. discriminate.
Qed.
End ParserFacts.

(** The timestamp step returns a timestamp exactly under its guard: when
    the guard holds it either attaches one or raises. *)
Lemma make_timestamp_inv fs ts :
  make_timestamp fs = Ret ts ->
  is_Some ts <->
  truthy (get fs "year") = true /\ truthy (get fs "doy") = true
  /\ get fs "hour" <> None.
Proof.
  unfold make_timestamp.
  destruct (truthy (get fs "year")), (truthy (get fs "doy"));
    simpl; try (intros [= <-]; split; [intros [? [=]] | intros (? & ? & ?); discriminate]).
  destruct (bool_decide_reflect (get fs "hour" ≠ None)) as [Hh|Hh]; simpl.
  - intros H.
    apply bind_Ret_inv in H as (y & _ & H). apply bind_Ret_inv in H as (d & _ & H).
    apply bind_Ret_inv in H as (h & _ & H). apply bind_Ret_inv in H as (dt & _ & H).
    injection H as <-. split; [auto | eauto].
  - intros [= <-]. split; [intros [? [=]] | intros (_ & _ & ?); contradiction].
Qed.

Lemma int_field_or_0_of_int_field r name z :
  int_field (fields r) name = Ret z -> int_field_or_0 r name = Ret z.
Proof.
  unfold int_field, int_field_or_0, get.
  destruct (fields r !! name) as [[x|]|]; auto; discriminate.
Qed.

(** A nonzero integer is the [int()] of a float that is truthy. *)
Lemma py_int_nonzero_truthy x z : py_int x = Ret z -> z <> 0 -> py_bool x = true.
Proof.
  unfold py_int, py_bool. rewrite FloatAxioms.eqb_spec.
  change (Prim2SF 0) with (S754_zero false).
  destruct (Prim2SF x) as [s|s| |s m e]; try discriminate.
  - intros [= <-] H. contradiction.
  - intros _ _. rewrite SFeqb_zero_false; [reflexivity | exact I].
Qed.

(** A float that is falsy converts to the integer 0. *)
Lemma py_int_falsy x : py_bool x = false -> py_int x = Ret 0.
Proof.
  unfold py_int, py_bool. rewrite FloatAxioms.eqb_spec.
  change (Prim2SF 0) with (S754_zero false).
  destruct (Prim2SF x) as [s|s| |s m e]; try reflexivity;
    rewrite SFeqb_zero_false by exact I; discriminate.
Qed.

(** When a timestamp was attached, year, day of year and hour converted to
    integers and named a date of the calendar. *)
Lemma make_timestamp_Some fs ts :
  make_timestamp fs = Ret (Some ts) ->
  exists y d h dt,
    int_field fs "year" = Ret y /\ int_field fs "doy" = Ret d
    /\ int_field fs "hour" = Ret h /\ doy_to_date y d h = Ret dt
    /\ ts = isoformat dt.
Proof.
  unfold make_timestamp.
  destruct (_ && _ && _); [|discriminate].
  intros H.
  apply bind_Ret_inv in H as (y & Hy & H). apply bind_Ret_inv in H as (d & Hd & H).
  apply bind_Ret_inv in H as (h & Hh & H). apply bind_Ret_inv in H as (dt & Hdt & H).
  injection H as <-. exists y, d, h, dt. auto.
Qed.


Section FilterFacts.
Variable py_float : string -> option float.

(** In a returned record whose year converts to a nonzero integer, the
    day of year converts too: the filter decides every such record. *)
Lemma parsed_doy_converts line r rec_year :
  parse_omni_line py_float line = Ret (Some r) ->
  int_field_or_0 r "year" = Ret rec_year -> rec_year <> 0 ->
  exists rec_doy, int_field_or_0 r "doy" = Ret rec_doy.
Proof.
  intros Hparse Hyear Hnz.
  destruct (parsed_time_fields _ _ _ Hparse) as (y & d & h & Hy & Hd & Hh).
  destruct (parse_omni_line_inv _ _ _ Hparse) as (_ & _ & Hts).
  unfold int_field_or_0 in *. rewrite Hy in Hyear. rewrite Hd.
  pose proof (py_int_nonzero_truthy _ _ Hyear Hnz) as Hty.
  destruct (py_bool d) eqn:Htd.
  - destruct (timestamp r) as [ts|] eqn:Ets.
    + apply make_timestamp_Some in Hts as (? & rd & ? & ? & _ & Hrd & _).
      unfold int_field in Hrd. rewrite (get_lookup _ _ _ Hd) in Hrd. eauto.
    + apply make_timestamp_inv in Hts.
      rewrite (get_lookup _ _ _ Hy), (get_lookup _ _ _ Hd), (get_lookup _ _ _ Hh) in Hts.
      simpl in Hts. destruct Hts as [_ Hts].
      destruct Hts as [? [=]]. auto.
  - exists 0. apply py_int_falsy. assumption.
Qed.
End FilterFacts.

(** A value within 0.1 of the field's fill value is resolved to [None]. *)
Lemma resolve_fill_within name fill val :
  FILL_VALUES !! name = Some fill ->
  (abs (val - fill) <? 0.1)%float = true ->
  resolve_fill name val = None.
Proof.
  intros Hfill Hnear. unfold resolve_fill. rewrite Hfill, Hnear.
  assert (Htruthy : py_bool fill = true); [|rewrite Htruthy; reflexivity].
  unfold FILL_VALUES in Hfill.
  apply elem_of_list_to_map_2 in Hfill.
  rewrite !elem_of_cons, elem_of_nil in Hfill.
  repeat destruct Hfill as [[= _ ->]|Hfill]; try reflexivity. contradiction.
Qed.

(** A field without fill value, and a value away from the fill value, is
    stored as decoded. *)
Lemma resolve_fill_no_table name val :
  FILL_VALUES !! name = None -> resolve_fill name val = Some val.
Proof. intros H. unfold resolve_fill. rewrite H. reflexivity. Qed.

(** ** C9 *)

(** C9. For every input line with fewer than 45 whitespace-separated
    tokens, [parse_omni_line] yields no record: it returns [None], and no
    exception leaves it. *)
Theorem short_line_yields_no_record py_float line :
  (length (py_split line) < 45)%nat ->
  parse_omni_line py_float line = Ret None.
Proof.
  intros Hshort. unfold parse_omni_line.
  destruct (Nat.ltb_spec (length (py_split line)) 45); [reflexivity | lia].
Qed.

Lemma short_line_yields_no_record_witness :
  (length (py_split short_line) < 45)%nat
  /\ parse_omni_line float_of_str short_line = Ret None.
Proof.
  split; [vm_compute; lia|].
  apply (short_line_yields_no_record float_of_str short_line).
  vm_compute. lia.
Defined.

(** ** C10 *)

(** C10. For every line that [parse_omni_line] returns a record for, the
    year, the day of year and the hour are present in the record, and the
    record carries a timestamp exactly when year and day of year are
    nonzero: the hour is only tested against [None], so an hour of 0 keeps
    the timestamp, while a year or a day of year of 0, though present,
    leaves the record without one. In terms of the record alone: a
    timestamp is attached exactly when year and day of year are present and
    nonzero and the hour is present. *)
Theorem timestamp_attached_iff py_float line r :
  parse_omni_line py_float line = Ret (Some r) ->
  (exists y d h,
      fields r !! "year" = Some (Some y) /\ fields r !! "doy" = Some (Some d)
      /\ fields r !! "hour" = Some (Some h)
      /\ (is_Some (timestamp r) <-> py_bool y = true /\ py_bool d = true)
      /\ ((h =? 0)%float = true -> py_bool y = true -> py_bool d = true ->
          is_Some (timestamp r))
      /\ (py_bool y = false \/ py_bool d = false -> timestamp r = None))
  /\ (is_Some (timestamp r) <->
      (exists y, get (fields r) "year" = Some y /\ py_bool y = true)
      /\ (exists d, get (fields r) "doy" = Some d /\ py_bool d = true)
      /\ (exists h, get (fields r) "hour" = Some h)).
Proof.
  intros Hparse.
  destruct (parsed_time_fields _ _ _ Hparse) as (y & d & h & Hy & Hd & Hh).
  destruct (parse_omni_line_inv _ _ _ Hparse) as (_ & _ & Hts).
  apply make_timestamp_inv in Hts.
  rewrite (get_lookup _ _ _ Hy), (get_lookup _ _ _ Hd), (get_lookup _ _ _ Hh) in *.
  simpl in Hts.
  assert (Hiff : is_Some (timestamp r) <-> py_bool y = true /\ py_bool d = true).
  { rewrite Hts. split; [intros (? & ? & _); auto | intros [? ?]; auto]. }
  split.
  - exists y, d, h. split; [assumption|]. split; [assumption|].
    split; [assumption|]. split; [assumption|]. split.
    + intros _ Hy' Hd'. apply Hiff. auto.
    + intros Hzero. destruct (timestamp r) as [ts|]; [|reflexivity].
      assert (Hsome : is_Some (Some ts)) by eauto.
      apply Hiff in Hsome as [Hy' Hd']. destruct Hzero; congruence.
  - rewrite Hiff. split.
    + intros [? ?]. eauto 10.
    + intros ((y' & [= <-] & ?) & (d' & [= <-] & ?) & _). auto.
Qed.

Lemma timestamp_attached_iff_witness :
  parse_omni_line float_of_str quiet_line = Ret (Some (record_of quiet_line))
  /\ get (fields (record_of quiet_line)) "hour" = Some 0%float
  /\ is_Some (timestamp (record_of quiet_line)).
Proof.
  assert (Hparse : parse_omni_line float_of_str quiet_line
                   = Ret (Some (record_of quiet_line))) by (vm_compute; reflexivity).
  split; [exact Hparse|]. split; [vm_compute; reflexivity|].
  apply (proj2 (timestamp_attached_iff float_of_str quiet_line
                  (record_of quiet_line) Hparse)).
  split; [|split].
  - exists 2003%float. split; vm_compute; reflexivity.
  - exists 301%float. split; vm_compute; reflexivity.
  - exists 0%float. vm_compute. reflexivity.
Defined.

(** A day of year of 0 is present and yet leaves the record undated. *)
Example undated_line_has_no_timestamp :
  get (fields (record_of undated_line)) "doy" = Some 0%float
  /\ timestamp (record_of undated_line) = None.
Proof. split; vm_compute; reflexivity. Qed.

(** ** C8 *)

(** A record whose value is [None] adds nothing to the values a summary
    statistic is computed from. *)
Lemma truthy_values_skip_None (before after : list (option float)) :
  truthy_values (before ++ None :: after) = truthy_values (before ++ after).
Proof. unfold truthy_values. rewrite !omap_app. reflexivity. Qed.

(** What [process_record] reports of a dated record. *)
Lemma process_record_inv py_pow r p :
  process_record py_pow r = Ret (Some p) ->
  sw_speed (solar_wind p) = get (fields r) "plasma_speed"
  /\ sw_density (solar_wind p) = get (fields r) "proton_density"
  /\ sw_temperature (solar_wind p) = get (fields r) "plasma_temp"
  /\ sw_pressure (solar_wind p) =
       match get (fields r) "proton_density", get (fields r) "plasma_speed" with
       | Some d, Some s =>
           if py_bool d && py_bool s then Some (dynamic_pressure d s) else None
       | _, _ => None
       end
  /\ imf_magnitude (imf p) = get (fields r) "imf_magnitude"
  /\ imf_bx (imf p) = get (fields r) "imf_bx_gse"
  /\ imf_by (imf p) = get (fields r) "imf_by_gse"
  /\ imf_bz (imf p) = get (fields r) "imf_bz_gse"
  /\ geo_dst (geomagnetic p) = get (fields r) "dst"
  /\ geo_kp (geomagnetic p) =
       match get (fields r) "kp" with
       | Some k => if py_bool k then Some (k / 10.0)%float else None
       | None => None
       end
  /\ geo_storm_level (geomagnetic p) =
       calculate_storm_intensity (get (fields r) "dst") (get (fields r) "kp")
  /\ calculate_magnetopause_standoff py_pow (get (fields r) "proton_density")
       (get (fields r) "plasma_speed") (get (fields r) "imf_bz_gse")
     = Ret (standoff_re (magnetosphere p))
  /\ timestamp r = Some (p_timestamp p).
Proof.
  unfold process_record.
  destruct (timestamp r) as [[|c ts]|]; simpl; try discriminate.
  intros H. apply bind_Ret_inv in H as (standoff & Hstandoff & H).
  injection H as <-. simpl. repeat split; try reflexivity. assumption.
Qed.

Lemma FILL_VALUES_table n f :
  FILL_VALUES !! n = Some f <->
  (n, f) ∈ [ ("plasma_speed", 9999.0); ("proton_density", 999.9);
             ("imf_magnitude", 999.9); ("imf_bx_gse", 999.9);
             ("imf_by_gse", 999.9); ("imf_bz_gse", 999.9);
             ("plasma_temp", 9999999.0); ("kp", 99); ("dst", 99999) ]%float.
Proof.
  unfold FILL_VALUES. rewrite <- elem_of_list_to_map.
  - rewrite !elem_of_cons, !elem_of_nil. tauto.
  - apply (bool_decide_unpack _). vm_compute. reflexivity.
Qed.

(** A fill value read back from the processed record is absent. *)
Lemma reported_field_absent py_pow r p name col :
  process_record py_pow r = Ret (Some p) ->
  (name, col) ∈ OMNI_COLUMNS ->
  is_Some (FILL_VALUES !! name) ->
  get (fields r) name = None ->
  reported_field name p = Some None.
Proof.
  intros Hp Hcol [fill Hfill] Hget.
  destruct (process_record_inv _ _ _ Hp)
    as (Hspeed & Hdens & Htemp & _ & Hmag & Hbx & Hby & Hbz & Hdst & Hkp & _).
  apply FILL_VALUES_table in Hfill.
  rewrite !elem_of_cons, elem_of_nil in Hfill.
  unfold reported_field.
  repeat (destruct Hfill as [[= -> _]|Hfill];
          [simpl; rewrite Hget in *; simpl in *; congruence|]).
  contradiction.
Qed.

(** C8. The fill values are 9999.0 for the speed, 999.9 for the density
    and the IMF magnitude and components, 9999999.0 for the temperature,
    99 for Kp and 99999 for Dst. For every field with a fill value and
    every token of a parsed line whose decoded value is within 0.1 of it,
    the record holds [None] for the field, which is all that later steps
    read: the processed record reports the field as absent; from an absent
    density or speed it computes no pressure and takes the default
    standoff; and the speeds that the average, the maximum and the minimum
    are taken over are the same with and without a record whose speed was
    the fill value. *)
Theorem fill_value_resolved_to_absent py_float line r name col fill tok val :
  parse_omni_line py_float line = Ret (Some r) ->
  (name, col) ∈ OMNI_COLUMNS ->
  FILL_VALUES !! name = Some fill ->
  py_split line !! col = Some tok ->
  py_float tok = Some val ->
  (abs (val - fill) <? 0.1)%float = true ->
  (forall n f, FILL_VALUES !! n = Some f <->
     (n, f) ∈ [ ("plasma_speed", 9999.0); ("proton_density", 999.9);
                ("imf_magnitude", 999.9); ("imf_bx_gse", 999.9);
                ("imf_by_gse", 999.9); ("imf_bz_gse", 999.9);
                ("plasma_temp", 9999999.0); ("kp", 99); ("dst", 99999) ]%float)
  /\ fields r !! name = Some None
  /\ get (fields r) name = None
  /\ forall py_pow p,
       process_record py_pow r = Ret (Some p) ->
       reported_field name p = Some None
       /\ (name = "proton_density" \/ name = "plasma_speed" ->
           sw_pressure (solar_wind p) = None
           /\ standoff_re (magnetosphere p) = 10.0%float)
       /\ (name = "plasma_speed" ->
           forall before after : list ProcessedRecord,
             truthy_values
               (map (fun d => sw_speed (solar_wind d)) (before ++ p :: after))
             = truthy_values
                 (map (fun d => sw_speed (solar_wind d)) (before ++ after))).
Proof.
  intros Hparse Hcol Hfill Htok Hval Hnear.
  destruct (parsed_field _ _ _ _ _ Hparse Hcol) as (tok' & val' & Htok' & Hval' & Hfs).
  assert (tok' = tok) as -> by congruence.
  assert (val' = val) as -> by congruence.
  rewrite (resolve_fill_within _ _ _ Hfill Hnear) in Hfs.
  pose proof (get_lookup _ _ _ Hfs) as Hget.
  split; [apply FILL_VALUES_table|].
  split; [assumption|]. split; [assumption|].
  intros py_pow p Hp.
  split; [eapply reported_field_absent; eauto|].
  destruct (process_record_inv _ _ _ Hp)
    as (Hspeed & _ & _ & Hpressure & _ & _ & _ & _ & _ & _ & _ & Hstandoff & _).
  split.
  - intros [-> | ->]; rewrite Hget in Hpressure, Hstandoff.
    + simpl in Hpressure, Hstandoff. cbv [mret result_ret] in Hstandoff.
      split; congruence.
    + destruct (get (fields r) "proton_density");
        simpl in Hpressure, Hstandoff; cbv [mret result_ret] in Hstandoff;
        split; congruence.
  - intros ->. intros before after. rewrite !map_app. simpl.
    rewrite Hspeed, Hget. apply truthy_values_skip_None.
Qed.

Lemma fill_value_resolved_to_absent_witness :
  parse_omni_line float_of_str fill_line = Ret (Some (record_of fill_line))
  /\ py_split fill_line !! 24%nat = Some "9999."
  /\ float_of_str "9999." = Some 9999%float
  /\ get (fields (record_of fill_line)) "plasma_speed" = None.
Proof.
  assert (Hparse : parse_omni_line float_of_str fill_line
                   = Ret (Some (record_of fill_line))) by (vm_compute; reflexivity).
  assert (Htok : py_split fill_line !! 24%nat = Some "9999.")
    by (vm_compute; reflexivity).
  assert (Hval : float_of_str "9999." = Some 9999%float) by (vm_compute; reflexivity).
  assert (Hcol : ("plasma_speed", 24%nat) ∈ OMNI_COLUMNS)
    by (unfold OMNI_COLUMNS; rewrite !elem_of_cons; tauto).
  assert (Hfill : FILL_VALUES !! "plasma_speed" = Some 9999%float)
    by (vm_compute; reflexivity).
  assert (Hnear : (abs (9999 - 9999) <? 0.1)%float = true) by (vm_compute; reflexivity).
  split; [exact Hparse|]. split; [exact Htok|]. split; [exact Hval|].
  exact (proj1 (proj2 (proj2
           (fill_value_resolved_to_absent float_of_str fill_line
              (record_of fill_line) "plasma_speed" 24%nat 9999%float "9999."
              9999%float Hparse Hcol Hfill Htok Hval Hnear)))).
Defined.

(** ** C7 *)

(** The three tests of the filter keep a record exactly when its year lies
    in the range and its day of year respects the bound of a boundary
    year. *)
Lemma in_date_range_spec sy sd ey ed ry rd :
  in_date_range sy sd ey ed ry rd = true <->
  sy <= ry <= ey /\ (ry = sy -> sd <= rd) /\ (ry = ey -> rd <= ed).
Proof.
  unfold in_date_range. rewrite !Z.gtb_ltb.
  destruct (Z.eqb_spec ry sy), (Z.ltb_spec rd sd), (Z.eqb_spec ry ey),
    (Z.ltb_spec ed rd), (Z.ltb_spec ry sy), (Z.ltb_spec ey ry); simpl;
    split; intros; try lia; try discriminate; try reflexivity.
Qed.

(** C7, as amended. For every record [parse_omni_line] returns whose year
    and day of year [int()] converts, to the integers [rec_year] and
    [rec_doy] (their integer parts), and for every date range, the loop
    body of [fetch_event_data] appends the record exactly when the three
    tests of the filter let [rec_year] and [rec_doy] through. A record of
    the start year is kept only if [rec_doy] is at least the start day of
    year; a record of the end year is kept only if [rec_doy] is at most the
    end day of year; a record of a year strictly between is kept; a record
    of a year outside the range is dropped. For the range from 2003-10-28
    to 2003-11-02, days 301 to 306 of 2003, the records of 2003 kept are
    those of days 301 to 306; days 300 and 307 are dropped. Records whose
    year or day of year [int()] does not convert are not covered. *)
Theorem date_range_filter py_float start_year start_doy end_year end_doy
    all_data line r rec_year rec_doy :
  parse_omni_line py_float line = Ret (Some r) ->
  int_field_or_0 r "year" = Ret rec_year ->
  int_field_or_0 r "doy" = Ret rec_doy ->
  let kept := in_date_range start_year start_doy end_year end_doy rec_year rec_doy in
  fetch_line py_float start_year start_doy end_year end_doy all_data line
    = Ret (if kept then (all_data ++ [r])%list else all_data)
  /\ (rec_year = start_year -> kept = true -> start_doy <= rec_doy)
  /\ (rec_year = end_year -> kept = true -> rec_doy <= end_doy)
  /\ (start_year < rec_year < end_year -> kept = true)
  /\ (rec_year < start_year \/ end_year < rec_year -> kept = false)
  /\ (kept = true <->
      start_year <= rec_year <= end_year
      /\ (rec_year = start_year -> start_doy <= rec_doy)
      /\ (rec_year = end_year -> rec_doy <= end_doy))
  /\ date_to_doy "2003-10-28" = Ret (2003, 301)
  /\ date_to_doy "2003-11-02" = Ret (2003, 306)
  /\ (rec_year = 2003 ->
      (in_date_range 2003 301 2003 306 rec_year rec_doy = true
       <-> 301 <= rec_doy <= 306)
      /\ (rec_doy = 300 \/ rec_doy = 307 ->
          in_date_range 2003 301 2003 306 rec_year rec_doy = false)).
Proof.
  intros Hparse Hyear Hdoy kept.
  pose proof (in_date_range_spec start_year start_doy end_year end_doy
                rec_year rec_doy) as Hspec. fold kept in Hspec.
  split.
  { unfold fetch_line. rewrite Hparse. simpl.
    rewrite (parsed_record_truthy _ _ _ Hparse). simpl.
    unfold keep_record. rewrite Hyear, Hdoy. reflexivity. }
  split. { intros -> Hk. apply Hspec in Hk. lia. }
  split. { intros -> Hk. apply Hspec in Hk. lia. }
  split. { intros Hbetween. apply Hspec. lia. }
  split.
  { intros Hout. destruct kept eqn:Hk; [|reflexivity].
    assert (Hk' : true = true) by reflexivity. apply Hspec in Hk'. lia. }
  split. { exact Hspec. }
  split. { vm_compute. reflexivity. }
  split. { vm_compute. reflexivity. }
  intros ->. split.
  - rewrite in_date_range_spec. lia.
  - intros [-> | ->]; reflexivity.
Qed.

Lemma date_range_filter_witness :
  parse_omni_line float_of_str storm_line = Ret (Some (record_of storm_line))
  /\ int_field_or_0 (record_of storm_line) "year" = Ret 2003
  /\ int_field_or_0 (record_of storm_line) "doy" = Ret 303
  /\ fetch_line float_of_str 2003 301 2003 306 [] storm_line
     = Ret [record_of storm_line].
Proof.
  assert (Hparse : parse_omni_line float_of_str storm_line
                   = Ret (Some (record_of storm_line))) by (vm_compute; reflexivity).
  assert (Hyear : int_field_or_0 (record_of storm_line) "year" = Ret 2003)
    by (vm_compute; reflexivity).
  assert (Hdoy : int_field_or_0 (record_of storm_line) "doy" = Ret 303)
    by (vm_compute; reflexivity).
  split; [exact Hparse|]. split; [exact Hyear|]. split; [exact Hdoy|].
  exact (proj1 (date_range_filter float_of_str 2003 301 2003 306 [] storm_line
                  (record_of storm_line) 2003 303 Hparse Hyear Hdoy)).
Defined.

(** Outside the records the filter decides: a line of year 0 whose day of
    year reads [nan] parses to an undated record, and [int()] raises on its
    day of year before the tests of the filter are reached. *)
Example unconvertible_day_raises :
  parse_omni_line float_of_str nan_day_line = Ret (Some (record_of nan_day_line))
  /\ timestamp (record_of nan_day_line) = None
  /\ int_field_or_0 (record_of nan_day_line) "year" = Ret 0
  /\ keep_record 2003 301 2003 306 (record_of nan_day_line) = Raise ValueError.
Proof. repeat (split; [vm_compute; reflexivity|]). vm_compute. reflexivity. Qed.

(** C7, as first stated, fails at two lines, for the range from 2003-10-28
    to 2003-11-02. The record of [fractional_day_line] is of the end year
    and its day of year, 306.9, is past the end day of year 306, and yet
    it is kept: the filter compares integer parts. The record of
    [nan_day_line] is of year 0, outside the range, and yet it is not
    dropped: [int()] raises [ValueError] on its day of year, out of the
    loop and out of [fetch_event_data], before the filter's tests. *)
Lemma date_range_filter_counterexample :
  date_to_doy "2003-10-28" = Ret (2003, 301)
  /\ date_to_doy "2003-11-02" = Ret (2003, 306)
  /\ parse_omni_line float_of_str fractional_day_line
     = Ret (Some (record_of fractional_day_line))
  /\ get (fields (record_of fractional_day_line)) "year" = Some 2003%float
  /\ get (fields (record_of fractional_day_line)) "doy" = Some 306.9%float
  /\ (306.9 <=? 306)%float = false
  /\ fetch_line float_of_str 2003 301 2003 306 [] fractional_day_line
     = Ret [record_of fractional_day_line]
  /\ parse_omni_line float_of_str nan_day_line
     = Ret (Some (record_of nan_day_line))
  /\ get (fields (record_of nan_day_line)) "year" = Some 0%float
  /\ fetch_line float_of_str 2003 301 2003 306 [] nan_day_line
     = Raise ValueError
  /\ fetch_event_data float_of_str nan_day_year "2003-10-28" "2003-11-02"
     = Raise ValueError.
Proof. repeat (split; [vm_compute; reflexivity|]). vm_compute. reflexivity. Qed.

(** ** C4, C5: the magnetopause model *)

(** C5. With the density absent the standoff distance is exactly 10.0
    Earth radii, for every speed and every Bz, and likewise with the speed
    absent for every density and every Bz; the function returns and raises
    nothing, whatever [**] does. *)
Theorem standoff_default_when_input_absent py_pow :
  (forall speed bz,
      calculate_magnetopause_standoff py_pow None speed bz = Ret 10.0%float)
  /\ (forall density bz,
      calculate_magnetopause_standoff py_pow density None bz = Ret 10.0%float).
Proof.
  split.
  - intros speed bz. reflexivity.
  - intros density bz. destruct density; reflexivity.
Qed.

(** The divisor of the standoff formula is never zero. *)
Lemma bz_factor_nonzero (bz : option float) :
  (match bz with
   | Some bz => if (bz <? 0)%float then (1.0 + 0.02 * abs bz)%float else 1.0%float
   | None => 1.0%float
   end =? 0)%float = false.
Proof.
  destruct bz as [b|]; [|reflexivity].
  destruct (b <? 0)%float; [|reflexivity].
  apply one_plus_scaled_abs_nonzero. exact I.
Qed.

(** The model fails only where [**] does. *)
Lemma standoff_raises_only_from_pow py_pow density speed bz e :
  calculate_magnetopause_standoff py_pow density speed bz = Raise e ->
  exists d s, density = Some d /\ speed = Some s
              /\ py_pow (2e-6 * d * s * s)%float (-1 / 6.6)%float = Raise e.
Proof.
  unfold calculate_magnetopause_standoff.
  destruct density as [d|], speed as [s|]; try discriminate.
  destruct (0 <? 2e-6 * d * s * s)%float; [|discriminate].
  destruct (py_pow _ _) as [p|e'] eqn:Hpow; simpl.
  - unfold py_truediv. rewrite bz_factor_nonzero. discriminate.
  - intros [= <-]. eauto.
Qed.

(** C4. Provided [**] returns for a positive base and the exponent
    -1/6.6, as it does for every positive float, the standoff distance is
    returned and lies in the closed interval [4.0, 15.0], for every
    density, speed and Bz, each present or absent (and for every float,
    the non-finite ones included). *)
Theorem standoff_within_bounds py_pow density speed bz :
  (forall p, (0 <? p)%float = true ->
             exists r, py_pow p (-1 / 6.6)%float = Ret r) ->
  exists r, calculate_magnetopause_standoff py_pow density speed bz = Ret r
            /\ between 4.0 15.0 r.
Proof.
  intros Hpow. unfold calculate_magnetopause_standoff.
  destruct density as [density|], speed as [speed|];
    try (eexists; split; [reflexivity | split; reflexivity]).
  destruct (0 <? 2e-6 * density * speed * speed)%float eqn:Hp.
  - destruct (Hpow _ Hp) as [p Hr]. rewrite Hr. simpl.
    unfold py_truediv. rewrite bz_factor_nonzero. simpl.
    eexists; split; [reflexivity|]. apply clamp_between. reflexivity.
  - simpl. eexists; split; [reflexivity|]. apply clamp_between. reflexivity.
Qed.

Lemma standoff_within_bounds_witness :
  (forall p, (0 <? p)%float = true ->
             exists r, unit_pow p (-1 / 6.6)%float = Ret r)
  /\ exists r,
       calculate_magnetopause_standoff unit_pow
         (Some 10.0%float) (Some 800%float) (Some (-20)%float) = Ret r
       /\ between 4.0 15.0 r.
Proof.
  assert (Hpow : forall p, (0 <? p)%float = true ->
                           exists r, unit_pow p (-1 / 6.6)%float = Ret r)
    by (intros p _; exists 1.0%float; reflexivity).
  split; [exact Hpow|].
  exact (standoff_within_bounds unit_pow (Some 10.0%float) (Some 800%float)
           (Some (-20)%float) Hpow).
Defined.

(** ** C6: the storm classifier *)

(** With Kp absent the level is that of the Dst tests alone. *)
Lemma storm_intensity_kp_absent d :
  calculate_storm_intensity (Some d) None =
  (let l := 0 in
   let l := if (d <=? -50)%float then 1 else l in
   let l := if (d <=? -100)%float then 2 else l in
   let l := if (d <=? -200)%float then 3 else l in
   let l := if (d <=? -300)%float then 4 else l in
   let l := if (d <=? -400)%float then 5 else l in l).
Proof.
  unfold calculate_storm_intensity.
  change (5 <=? 0)%float with false. change (6 <=? 0)%float with false.
  change (7 <=? 0)%float with false. change (8 <=? 0)%float with false.
  change (9 <=? 0)%float with false. cbv zeta.
  repeat match goal with |- context [if ?b then _ else _] => destruct b end;
    reflexivity.
Qed.

Lemma leb_below (t t' d : float) :
  (t <=? t')%float = true -> (d <=? t)%float = true -> (d <=? t')%float = true.
Proof. intros Ht Hd. exact (leb_trans _ _ _ Hd Ht). Qed.

(** The cumulative tests agree with the ordered lookup, for every float. *)
Lemma storm_intensity_lookup d :
  calculate_storm_intensity (Some d) None = dst_level_lookup d.
Proof.
  rewrite storm_intensity_kp_absent. unfold dst_level_lookup. cbv zeta.
  pose proof (leb_below (-400) (-300) d eq_refl) as H4.
  pose proof (leb_below (-300) (-200) d eq_refl) as H3.
  pose proof (leb_below (-200) (-100) d eq_refl) as H2.
  pose proof (leb_below (-100) (-50) d eq_refl) as H1.
  destruct (d <=? -400)%float, (d <=? -300)%float, (d <=? -200)%float,
    (d <=? -100)%float, (d <=? -50)%float; try reflexivity; intuition discriminate.
Qed.

Lemma dst_level_lookup_mono d1 d2 :
  (d2 <=? d1)%float = true -> dst_level_lookup d1 <= dst_level_lookup d2.
Proof.
  intros Hle. unfold dst_level_lookup.
  pose proof (fun t => leb_trans d2 d1 t Hle) as Ht.
  pose proof (Ht (-400)%float) as H5. pose proof (Ht (-300)%float) as H4.
  pose proof (Ht (-200)%float) as H3. pose proof (Ht (-100)%float) as H2.
  pose proof (Ht (-50)%float) as H1. clear Ht.
  destruct (d1 <=? -400)%float, (d1 <=? -300)%float, (d1 <=? -200)%float,
    (d1 <=? -100)%float, (d1 <=? -50)%float;
  destruct (d2 <=? -400)%float, (d2 <=? -300)%float, (d2 <=? -200)%float,
    (d2 <=? -100)%float, (d2 <=? -50)%float; try lia; intuition discriminate.
Qed.

(** C6. With Kp absent, the storm level is monotone non-decreasing in
    |Dst| over Dst <= 0; it is 0 at -49, 1 at -50, 2 at -100, 3 at -200,
    4 at -300 and 5 at -400; and the cumulative descending tests compute
    the ordered lookup of the thresholds, for every Dst. *)
Theorem storm_level_monotone_in_dst :
  (forall d1 d2 : float,
      (d1 <=? 0)%float = true -> (d2 <=? 0)%float = true ->
      (abs d1 <=? abs d2)%float = true ->
      calculate_storm_intensity (Some d1) None
      <= calculate_storm_intensity (Some d2) None)
  /\ calculate_storm_intensity (Some (-49)%float) None = 0
  /\ calculate_storm_intensity (Some (-50)%float) None = 1
  /\ calculate_storm_intensity (Some (-100)%float) None = 2
  /\ calculate_storm_intensity (Some (-200)%float) None = 3
  /\ calculate_storm_intensity (Some (-300)%float) None = 4
  /\ calculate_storm_intensity (Some (-400)%float) None = 5
  /\ (forall d : float,
        calculate_storm_intensity (Some d) None = dst_level_lookup d).
Proof.
  split.
  { intros d1 d2 H1 H2 Habs. rewrite !storm_intensity_lookup.
    apply dst_level_lookup_mono. apply abs_leb_nonpos; assumption. }
  repeat (split; [vm_compute; reflexivity|]).
  exact storm_intensity_lookup.
Qed.

Lemma storm_level_monotone_in_dst_witness :
  (-120 <=? 0)%float = true /\ (-250 <=? 0)%float = true
  /\ (abs (-120) <=? abs (-250))%float = true
  /\ calculate_storm_intensity (Some (-120)%float) None
     <= calculate_storm_intensity (Some (-250)%float) None.
Proof.
  assert (H1 : (-120 <=? 0)%float = true) by reflexivity.
  assert (H2 : (-250 <=? 0)%float = true) by reflexivity.
  assert (H3 : (abs (-120) <=? abs (-250))%float = true) by reflexivity.
  split; [exact H1|]. split; [exact H2|]. split; [exact H3|].
  exact (proj1 storm_level_monotone_in_dst (-120)%float (-250)%float H1 H2 H3).
Defined.

(** ** C1, C2, C3: truthiness where presence is meant *)

(** The comprehension of the summary keeps the values that are present
    and nonzero: a present 0.0 is left out like an absent value. *)
Lemma truthy_values_spec (values : list (option float)) x :
  x ∈ truthy_values values <-> Some x ∈ values /\ py_bool x = true.
Proof.
  unfold truthy_values. rewrite list_elem_of_omap. split.
  - intros ([y|] & Hin & Hy); [|discriminate].
    destruct (py_bool y) eqn:Hb; [|discriminate].
    injection Hy as ->. auto.
  - intros [Hin Hb]. exists (Some x). rewrite Hb. auto.
Qed.

Lemma truthy_values_filter (values : list (option float)) :
  truthy_values values = filter (fun x => py_bool x = true) (present_values values).
Proof.
  unfold truthy_values, present_values.
  induction values as [|[x|] values IH]; simpl; [reflexivity | | assumption].
  rewrite filter_cons. destruct (py_bool x) eqn:Hb.
  - rewrite decide_True by reflexivity. f_equal. assumption.
  - rewrite decide_False by discriminate. assumption.
Qed.

(** A statistic of the summary is absent exactly when no value is present
    and nonzero. *)
Lemma if_nonempty_None f xs :
  if_nonempty f xs = Ret None <-> xs = [].
Proof.
  unfold if_nonempty. destruct xs as [|x xs]; [tauto|].
  split; [|discriminate]. destruct (f (x :: xs)); discriminate.
Qed.

(** C1 (not met by the code). The quiet hour has a density of 0.0 and a
    speed of 400: both are present, and 2e-6 x density x speed^2 is 0.0.
    The processed record nevertheless reports no pressure, because the
    guard tests the truth value of density and speed, and 0.0 is false. *)
Theorem pressure_absent_at_zero_density py_pow :
  parse_omni_line float_of_str quiet_line = Ret (Some (record_of quiet_line))
  /\ match process_record py_pow (record_of quiet_line) with
     | Ret (Some p) =>
         sw_density (solar_wind p) = Some 0%float
         /\ sw_speed (solar_wind p) = Some 400%float
         /\ sw_pressure (solar_wind p) = None
         /\ dynamic_pressure 0 400 = 0%float
     | _ => False
     end.
Proof. split; [vm_compute; reflexivity|]. vm_compute. repeat split; reflexivity. Qed.

(** C2 (not met by the code). In the year file of the quiet and the calm
    hour, Dst is 0 then 12, the density 0.0 then missing, Bz 0.0 then 3.1.
    The summary reports a minimum Dst of 12 where the least present value
    is 0, no maximum density although a density is present, and a minimum
    Bz of 3.1 where the least present value is 0.0: the values of a
    statistic are taken by truth value, which drops a present 0.0. *)
Theorem summary_drops_zero_values py_pow utcnow :
  match run_date_range float_of_str quiet_year py_pow utcnow
          "2003-10-28" "2003-11-02" None with
  | Ret (Some (processed, Some summary)) =>
      map (fun d => geo_dst (geomagnetic d)) (data processed)
        = [Some 0; Some 12]%float
      /\ min_dst summary = Some 12%float
      /\ py_min (present_values [Some 0; Some 12]%float) = Ret 0%float
      /\ map (fun d => sw_density (solar_wind d)) (data processed)
        = [Some 0%float; None]
      /\ max_density summary = None
      /\ present_values [Some 0%float; None] = [0%float]
      /\ map (fun d => imf_bz (imf d)) (data processed)
        = [Some 0; Some 3.1]%float
      /\ min_bz summary = Some 3.1%float
      /\ py_min (present_values [Some 0; Some 3.1]%float) = Ret 0%float
  | _ => False
  end.
Proof. vm_compute. repeat split; reflexivity. Qed.

(** C3 (not met by the code). The quiet hour has a raw Kp of 0: the field
    is present, and raw Kp / 10 is 0.0. The processed record nevertheless
    reports Kp as absent, because the conversion tests the truth value of
    the raw Kp. *)
Theorem kp_zero_reported_absent py_pow :
  parse_omni_line float_of_str quiet_line = Ret (Some (record_of quiet_line))
  /\ get (fields (record_of quiet_line)) "kp" = Some 0%float
  /\ (0 / 10.0)%float = 0%float
  /\ match process_record py_pow (record_of quiet_line) with
     | Ret (Some p) => geo_kp (geomagnetic p) = None
     | _ => False
     end.
Proof. split; [|split; [|split]]; vm_compute; reflexivity. Qed.

(* ===================================================================== *)
(** * Part VI. Further properties of the script                           *)
(* ===================================================================== *)

(** ** The calendar arithmetic under [datetime] *)

Lemma is_leap_spec y :
  is_leap y = true <-> (y mod 4 = 0 /\ (y mod 100 <> 0 \/ y mod 400 = 0)).
Proof.
  unfold is_leap.
  destruct (Z.eqb_spec (y mod 4) 0), (Z.eqb_spec (y mod 100) 0),
    (Z.eqb_spec (y mod 400) 0); simpl; split; intros; try discriminate;
    try reflexivity; lia.
Qed.

Lemma div_mod_eq N b q r :
  0 <= r < b -> N = b * q + r -> N / b = q /\ N mod b = r.
Proof.
  intros Hr HN. split.
  - symmetry. apply Z.div_unique with r; [lia | assumption].
  - symmetry. apply Z.mod_unique with q; [lia | assumption].
Qed.

(** A year before which [p] years have passed, by its place in the cycles
    of 400, 100 and 4 years. *)
Lemma year_cycles p :
  0 <= p ->
  exists a c f g,
    0 <= a /\ 0 <= c <= 3 /\ 0 <= f <= 24 /\ 0 <= g <= 3
    /\ p = 400 * a + 100 * c + 4 * f + g
    /\ days_before_year (p + 1) = 146097 * a + 36524 * c + 1461 * f + 365 * g
    /\ (is_leap (p + 1) = true <-> g = 3 /\ (f <> 24 \/ c = 3)).
Proof.
  intros Hp.
  pose proof (Z.div_mod p 400 ltac:(lia)) as E1.
  pose proof (Z.mod_pos_bound p 400 ltac:(lia)) as B1.
  set (a := p / 400) in *. set (b := p mod 400) in *.
  pose proof (Z.div_mod b 100 ltac:(lia)) as E2.
  pose proof (Z.mod_pos_bound b 100 ltac:(lia)) as B2.
  set (c := b / 100) in *. set (e := b mod 100) in *.
  pose proof (Z.div_mod e 4 ltac:(lia)) as E3.
  pose proof (Z.mod_pos_bound e 4 ltac:(lia)) as B3.
  set (f := e / 4) in *. set (g := e mod 4) in *.
  assert (Ha : 0 <= a) by (apply Z.div_pos; lia).
  assert (Hc : 0 <= c <= 3).
  { split; [apply Z.div_pos; lia|]. apply Z.lt_succ_r, Z.div_lt_upper_bound; lia. }
  assert (Hf : 0 <= f <= 24).
  { split; [apply Z.div_pos; lia|]. apply Z.lt_succ_r, Z.div_lt_upper_bound; lia. }
  exists a, c, f, g.
  assert (Hpdec : p = 400 * a + 100 * c + 4 * f + g) by lia.
  split; [assumption|]. split; [assumption|]. split; [assumption|].
  split; [lia|]. split; [assumption|]. split.
  - unfold days_before_year. replace (p + 1 - 1) with p by lia.
    destruct (div_mod_eq p 4 (100 * a + 25 * c + f) g) as [-> _]; [lia | lia |].
    destruct (div_mod_eq p 100 (4 * a + c) (4 * f + g)) as [-> _]; [lia | lia |].
    lia.
  - rewrite is_leap_spec.
    destruct (div_mod_eq (p + 1) 4 (100 * a + 25 * c + f + (g + 1) / 4) ((g + 1) mod 4))
      as [_ ->].
    { apply Z.mod_pos_bound. lia. }
    { pose proof (Z.div_mod (g + 1) 4 ltac:(lia)). lia. }
    destruct (div_mod_eq (p + 1) 100 (4 * a + c + (4 * f + g + 1) / 100)
                ((4 * f + g + 1) mod 100)) as [_ ->].
    { apply Z.mod_pos_bound. lia. }
    { pose proof (Z.div_mod (4 * f + g + 1) 100 ltac:(lia)). lia. }
    destruct (div_mod_eq (p + 1) 400 (a + (100 * c + 4 * f + g + 1) / 400)
                ((100 * c + 4 * f + g + 1) mod 400)) as [_ ->].
    { apply Z.mod_pos_bound. lia. }
    { pose proof (Z.div_mod (100 * c + 4 * f + g + 1) 400 ltac:(lia)). lia. }
    assert (G : (g + 1) mod 4 = 0 <-> g = 3).
    { destruct (Z.eq_dec g 3) as [->|Hg]; [split; reflexivity|].
      rewrite Z.mod_small by lia. lia. }
    assert (F : (4 * f + g + 1) mod 100 = 0 <-> f = 24 /\ g = 3).
    { destruct (Z.eq_dec (4 * f + g + 1) 100) as [E|E].
      - rewrite E. split; [lia | reflexivity].
      - rewrite Z.mod_small by lia. lia. }
    assert (C : (100 * c + 4 * f + g + 1) mod 400 = 0 <-> c = 3 /\ f = 24 /\ g = 3).
    { destruct (Z.eq_dec (100 * c + 4 * f + g + 1) 400) as [E|E].
      - rewrite E. split; [lia | reflexivity].
      - rewrite Z.mod_small by lia. lia. }
    rewrite G, F, C. lia.
Qed.

Lemma days_in_month_bounds y m : 28 <= days_in_month y m <= 31.
Proof.
  unfold days_in_month.
  destruct (m =? 2); [destruct (is_leap y); lia|].
  destruct (_ || _); lia.
Qed.

Lemma days_before_month_succ y m :
  1 <= m -> days_before_month y (m + 1) = days_before_month y m + days_in_month y m.
Proof.
  intros Hm. unfold days_before_month.
  replace (m + 1 - 1) with ((m - 1) + 1) by lia.
  rewrite seqZ_app by lia. rewrite fold_left_app.
  replace (1 + (m - 1)) with m by lia. reflexivity.
Qed.

Lemma days_before_month_1 y : days_before_month y 1 = 0.
Proof. reflexivity. Qed.

Lemma days_before_month_13 y : days_before_month y 13 = year_length y.
Proof.
  unfold days_before_month, year_length.
  change (seqZ 1 (13 - 1)) with [1; 2; 3; 4; 5; 6; 7; 8; 9; 10; 11; 12].
  cbn [fold_left].
  change (days_in_month y 1) with 31. change (days_in_month y 3) with 31.
  change (days_in_month y 4) with 30. change (days_in_month y 5) with 31.
  change (days_in_month y 6) with 30. change (days_in_month y 7) with 31.
  change (days_in_month y 8) with 31. change (days_in_month y 9) with 30.
  change (days_in_month y 10) with 31. change (days_in_month y 11) with 30.
  change (days_in_month y 12) with 31.
  change (days_in_month y 2) with (if is_leap y then 29 else 28).
  destruct (is_leap y); reflexivity.
Qed.

(** The days before a month grow with the month. *)
Lemma days_before_month_mono y m m' :
  1 <= m -> m < m' ->
  days_before_month y m + days_in_month y m <= days_before_month y m'.
Proof.
  intros Hm Hlt.
  replace m' with (m + 1 + Z.of_nat (Z.to_nat (m' - m - 1))) by lia.
  induction (Z.to_nat (m' - m - 1)) as [|k IH].
  - rewrite Z.add_0_r, days_before_month_succ by lia. lia.
  - replace (m + 1 + Z.of_nat (S k)) with (m + 1 + Z.of_nat k + 1) by lia.
    rewrite days_before_month_succ by lia.
    pose proof (days_in_month_bounds y (m + 1 + Z.of_nat k)). lia.
Qed.

Lemma month_day_scan y : forall fuel m n,
  1 <= m -> 0 <= n -> m + Z.of_nat fuel = 12 ->
  n < days_before_month y 13 - days_before_month y m ->
  exists m' d',
    month_day y n m fuel = (m', d')
    /\ m <= m' <= 12 /\ 1 <= d' <= days_in_month y m'
    /\ days_before_month y m' + d' = days_before_month y m + n + 1.
Proof.
  induction fuel as [|fuel IH]; intros m n Hm Hn Hfuel Hlt.
  - assert (m = 12) as -> by lia. cbn [month_day].
    change 13 with (12 + 1) in Hlt. rewrite days_before_month_succ in Hlt by lia.
    exists 12, (n + 1). repeat split; lia.
  - cbn [month_day]. destruct (Z.ltb_spec n (days_in_month y m)) as [Hin|Hout].
    + exists m, (n + 1). repeat split; lia.
    + destruct (IH (m + 1) (n - days_in_month y m)) as (m' & d' & E & Hm' & Hd' & Hsum);
        try lia.
      { rewrite days_before_month_succ by lia. lia. }
      rewrite days_before_month_succ in Hsum by lia.
      exists m', d'. repeat split; try lia. assumption.
Qed.

(** Month and day of the [n]-th day (from 0) of a year. *)
Lemma month_day_spec y n :
  0 <= n < year_length y ->
  exists m d, month_day y n 1 11 = (m, d)
    /\ 1 <= m <= 12 /\ 1 <= d <= days_in_month y m
    /\ days_before_month y m + d = n + 1.
Proof.
  intros Hn.
  destruct (month_day_scan y 11 1 n) as (m & d & E & Hm & Hd & Hsum); try lia.
  { rewrite days_before_month_13, days_before_month_1. lia. }
  rewrite days_before_month_1 in Hsum. exists m, d. repeat split; try lia. assumption.
Qed.

Lemma day_of_year_bounds y m d :
  1 <= m <= 12 -> 1 <= d <= days_in_month y m ->
  1 <= days_before_month y m + d <= year_length y.
Proof.
  intros Hm Hd. split.
  - destruct (Z.eq_dec m 1) as [->|Hne]; [rewrite days_before_month_1; lia|].
    pose proof (days_before_month_mono y 1 m ltac:(lia) ltac:(lia)).
    pose proof (days_in_month_bounds y 1).
    rewrite days_before_month_1 in *. lia.
  - rewrite <- days_before_month_13.
    destruct (Z.eq_dec m 12) as [->|Hne].
    + change 13 with (12 + 1). rewrite days_before_month_succ by lia. lia.
    + pose proof (days_before_month_mono y m 12 ltac:(lia) ltac:(lia)).
      change 13 with (12 + 1). rewrite (days_before_month_succ y 12) by lia.
      pose proof (days_in_month_bounds y 12). lia.
Qed.

(** A month and a day are determined by the day of the year. *)
Lemma day_of_year_inj y m d m' d' :
  1 <= m <= 12 -> 1 <= d <= days_in_month y m ->
  1 <= m' <= 12 -> 1 <= d' <= days_in_month y m' ->
  days_before_month y m + d = days_before_month y m' + d' ->
  m = m' /\ d = d'.
Proof.
  intros Hm Hd Hm' Hd' E.
  destruct (Z.lt_trichotomy m m') as [Hlt|[->|Hgt]].
  - pose proof (days_before_month_mono y m m' ltac:(lia) Hlt). lia.
  - lia.
  - pose proof (days_before_month_mono y m' m ltac:(lia) Hgt). lia.
Qed.

Lemma month_day_unique y m d :
  1 <= m <= 12 -> 1 <= d <= days_in_month y m ->
  month_day y (days_before_month y m + d - 1) 1 11 = (m, d).
Proof.
  intros Hm Hd.
  pose proof (day_of_year_bounds y m d Hm Hd) as Hb.
  destruct (month_day_spec y (days_before_month y m + d - 1)) as (m' & d' & E & Hm' & Hd' & Hsum);
    [lia|].
  destruct (day_of_year_inj y m d m' d' Hm Hd Hm' Hd') as [-> ->]; [lia | assumption].
Qed.

(** [ord2ymd] recovers the year and, through [month_day], the month and
    the day from the ordinal of the [n]-th day (from 0) of year [y]. *)
Lemma ord2ymd_day_of_year y n :
  1 <= y -> 0 <= n < year_length y ->
  ord2ymd (days_before_year y + 1 + n)
  = (let '(m, d) := month_day y n 1 11 in (y, m, d)).
Proof.
  intros Hy Hn.
  destruct (year_cycles (y - 1)) as (a & c & f & g & Ha & Hc & Hf & Hg & Hp & Hdby & Hleap);
    [lia|].
  replace (y - 1 + 1) with y in * by lia.
  unfold year_length in Hn. unfold ord2ymd. rewrite Hdby.
  set (R := 36524 * c + 1461 * f + 365 * g + n).
  replace (146097 * a + 36524 * c + 1461 * f + 365 * g + 1 + n - 1)
    with (146097 * a + R) by (unfold R; lia).
  cbv zeta.
  assert (HR : 0 <= R < 146097).
  { unfold R. destruct (is_leap y); [|lia].
    destruct Hleap as [Hleap _]. specialize (Hleap eq_refl). lia. }
  destruct (div_mod_eq (146097 * a + R) 146097 a R HR eq_refl) as [-> ->].
  destruct (Z.eq_dec n 365) as [->|Hne].
  - (* the last day of a leap year *)
    destruct (is_leap y) eqn:Hl; [|lia].
    destruct Hleap as [Hleap _]. specialize (Hleap eq_refl) as [-> Hfc].
    assert (Hlast : month_day y 365 1 11 = (12, 31)).
    { pose proof (days_before_month_13 y) as H13. unfold year_length in H13.
      rewrite Hl in H13. change 13 with (12 + 1) in H13.
      rewrite days_before_month_succ in H13 by lia.
      change (days_in_month y 12) with 31 in H13.
      replace 365 with (days_before_month y 12 + 31 - 1) by lia.
      apply month_day_unique; [lia|]. change (days_in_month y 12) with 31. lia. }
    rewrite Hlast.
    destruct (Z.eq_dec f 24) as [->|Hf24].
    + assert (c = 3) as -> by lia. subst R.
      change (36524 * 3 + 1461 * 24 + 365 * 3 + 365) with 146096.
      change (146096 / 36524) with 4. change (146096 mod 36524) with 0.
      change (0 / 1461) with 0. change (0 mod 1461) with 0.
      change (0 / 365) with 0. cbn [Z.eqb orb Pos.eqb]. f_equal. f_equal. lia.
    + destruct (div_mod_eq R 36524 c (1461 * f + 1460)) as [-> ->];
        [lia | unfold R; lia |].
      destruct (div_mod_eq (1461 * f + 1460) 1461 f 1460) as [-> ->]; [lia | lia |].
      change (1460 / 365) with 4. cbn [Z.eqb orb Pos.eqb]. f_equal. f_equal. lia.
  - destruct (div_mod_eq R 36524 c (1461 * f + 365 * g + n)) as [-> ->];
      [destruct (is_leap y); lia | unfold R; lia |].
    destruct (div_mod_eq (1461 * f + 365 * g + n) 1461 f (365 * g + n)) as [-> ->];
      [destruct (is_leap y); lia | lia |].
    destruct (div_mod_eq (365 * g + n) 365 g n) as [-> ->];
      [destruct (is_leap y); lia | lia |].
    replace (g =? 4) with false by (symmetry; apply Z.eqb_neq; lia).
    replace (c =? 4) with false by (symmetry; apply Z.eqb_neq; lia).
    cbn [orb].
    replace (a * 400 + 1 + c * 100 + f * 4 + g) with y by lia.
    reflexivity.
Qed.

(** The civil date of the day [d] of month [m] of year [y], from its
    ordinal. *)
Lemma ord2ymd_correct y m d :
  1 <= y -> 1 <= m <= 12 -> 1 <= d <= days_in_month y m ->
  ord2ymd (days_before_year y + days_before_month y m + d) = (y, m, d).
Proof.
  intros Hy Hm Hd.
  pose proof (day_of_year_bounds y m d Hm Hd) as Hb.
  replace (days_before_year y + days_before_month y m + d)
    with (days_before_year y + 1 + (days_before_month y m + d - 1)) by lia.
  rewrite ord2ymd_day_of_year by lia.
  rewrite month_day_unique by assumption. reflexivity.
Qed.

Lemma digit_val_bounds c d : digit_val c = Some d -> 0 <= d <= 9.
Proof.
  unfold digit_val.
  destruct (Z.leb_spec 48 (Z.of_nat (nat_of_ascii c))),
    (Z.leb_spec (Z.of_nat (nat_of_ascii c)) 57); simpl; intros [= <-]; lia.
Qed.

(** A run of [n] digits denotes a number below [10^n]. *)
Lemma digitpart_rest_bounds k : forall s acc cnt v n rest,
  (String.length s <= k)%nat ->
  0 <= cnt -> 0 <= acc < 10 ^ cnt ->
  digitpart_rest s acc cnt = (v, n, rest) ->
  0 <= v < 10 ^ n /\ cnt <= n.
Proof.
  induction k as [|k IH]; intros s acc cnt v n rest Hlen Hcnt Hacc Hrun.
  - destruct s; [|simpl in Hlen; lia]. simpl in Hrun. injection Hrun as <- <- _. lia.
  - assert (Hstep : forall d s', (String.length s' <= k)%nat -> 0 <= d <= 9 ->
              digitpart_rest s' (10 * acc + d) (cnt + 1) = (v, n, rest) ->
              0 <= v < 10 ^ n /\ cnt <= n).
    { intros d s' Hlen' Hd Hrun'.
      destruct (IH s' (10 * acc + d) (cnt + 1) v n rest Hlen') as [Hv Hn]; try lia.
      - rewrite Z.pow_add_r by lia. change (10 ^ 1) with 10. lia.
      - assumption. }
    destruct s as [|c s']; simpl in Hrun.
    + injection Hrun as <- <- _. lia.
    + simpl in Hlen. destruct (digit_val c) as [d|] eqn:Hd.
      * apply (Hstep d s'); [lia | eapply digit_val_bounds; eassumption | assumption].
      * destruct (is_underscore c); [|injection Hrun as <- <- _; lia].
        destruct s' as [|c2 s'']; [injection Hrun as <- <- _; lia|].
        destruct (digit_val c2) as [d|] eqn:Hd2; [|injection Hrun as <- <- _; lia].
        simpl in Hlen.
        apply (Hstep d s''); [lia | eapply digit_val_bounds; eassumption | assumption].
Qed.

Lemma digits_value_bounds s v :
  digits_value s = Some v -> 0 <= v < 10 ^ Z.of_nat (String.length s).
Proof.
  unfold digits_value, digitpart.
  destruct s as [|c s']; [discriminate|].
  destruct (digit_val c) as [d|] eqn:Hd; [|discriminate].
  destruct (digitpart_rest s' d 1) as [[v' n] rest] eqn:Hrun.
  destruct rest; [|discriminate].
  destruct (Z.eqb_spec n (Z.of_nat (String.length (String c s')))) as [<-|]; [|discriminate].
  intros [= <-].
  pose proof (digit_val_bounds _ _ Hd).
  destruct (digitpart_rest_bounds (String.length s') s' d 1 v' n "" ltac:(lia)
              ltac:(lia) ltac:(change (10 ^ 1) with 10; lia) Hrun). lia.
Qed.

(** What [strptime] accepts is a day of the calendar, years 1 to 9999. *)
Lemma strptime_ymd_valid s y m d :
  strptime_ymd s = Ret (y, m, d) ->
  1 <= y <= 9999 /\ 1 <= m <= 12 /\ 1 <= d <= days_in_month y m.
Proof.
  unfold strptime_ymd.
  destruct (split_on "-" s "") as [|ys [|ms [|ds [|]]]]; try discriminate.
  destruct (year_field ys) as [y'|] eqn:Hy; [|discriminate].
  destruct (month_field ms) as [m'|] eqn:Hm; [|discriminate].
  destruct (day_field ds) as [d'|] eqn:Hd; [|discriminate].
  destruct (Z.leb_spec 1 y'), (Z.leb_spec d' (days_in_month y' m'));
    simpl; try discriminate.
  intros [= <- <- <-].
  unfold year_field in Hy. destruct (Nat.eqb_spec (String.length ys) 4); [|discriminate].
  apply digits_value_bounds in Hy. rewrite e in Hy. change (10 ^ Z.of_nat 4) with 10000 in Hy.
  unfold month_field in Hm. destruct (_ <=? _)%nat; [|discriminate].
  destruct (digits_value ms) as [v|]; [|discriminate].
  destruct (Z.leb_spec 1 v), (Z.leb_spec v 12); simpl in Hm; try discriminate.
  injection Hm as <-.
  unfold day_field in Hd. destruct (_ <=? _)%nat; [|discriminate].
  destruct (digits_value _) as [w|]; [|discriminate].
  destruct (Z.leb_spec 1 w), (Z.leb_spec w 31); simpl in Hd; try discriminate.
  injection Hd as <-. lia.
Qed.

Lemma strptime_ymd_raises s e : strptime_ymd s = Raise e -> e = ValueError.
Proof.
  unfold strptime_ymd.
  destruct (split_on "-" s "") as [|ys [|ms [|ds [|]]]]; try (intros [= <-]; reflexivity).
  destruct (year_field ys), (month_field ms), (day_field ds);
    try (intros [= <-]; reflexivity).
  destruct (_ && _); [discriminate | intros [= <-]; reflexivity].
Qed.

Lemma days_before_year_bounds y :
  1 <= y <= 9999 ->
  0 <= days_before_year y /\ days_before_year y + year_length y <= MAXORDINAL.
Proof.
  intros Hy. unfold days_before_year, year_length, MAXORDINAL.
  assert (H4 : 0 <= (y - 1) / 4 <= 2499).
  { split; [apply Z.div_pos; lia|]. apply Z.lt_succ_r, Z.div_lt_upper_bound; lia. }
  assert (H100 : 0 <= (y - 1) / 100 <= (y - 1) / 4).
  { split; [apply Z.div_pos; lia|]. apply Z.div_le_compat_l; lia. }
  assert (H400 : 0 <= (y - 1) / 400 <= 24).
  { split; [apply Z.div_pos; lia|]. apply Z.lt_succ_r, Z.div_lt_upper_bound; lia. }
  split; [lia|].
  destruct (Z.eq_dec y 9999) as [->|Hne]; [vm_compute; discriminate|].
  destruct (is_leap y); lia.
Qed.

(** ** [date_to_doy] and [doy_to_date] *)

(** X1. [date_to_doy] either returns a year from 1 to 9999 with a day of
    year from 1 to the length of that year (365, or 366 in a leap year),
    or raises [ValueError]; it raises nothing else. *)
Theorem date_to_doy_range date_str :
  match date_to_doy date_str with
  | Ret (year, doy) => 1 <= year <= 9999 /\ 1 <= doy <= year_length year
  | Raise e => e = ValueError
  end.
Proof.
  unfold date_to_doy.
  destruct (strptime_ymd date_str) as [[[y m] d]|e] eqn:E; simpl.
  - apply strptime_ymd_valid in E as (Hy & Hm & Hd).
    split; [exact Hy | exact (day_of_year_bounds y m d Hm Hd)].
  - eapply strptime_ymd_raises; eassumption.
Qed.

(** X2. Round trip of the two date helpers: for every date string that
    [date_to_doy] accepts, [doy_to_date] of the year and day of year it
    returns, at hour 0, is midnight of the very day the string names. *)
Theorem doy_to_date_of_date_to_doy date_str year doy :
  date_to_doy date_str = Ret (year, doy) ->
  exists month day,
    strptime_ymd date_str = Ret (year, month, day)
    /\ doy_to_date year doy 0 = Ret (mk_datetime year month day 0).
Proof.
  unfold date_to_doy. intros H.
  apply bind_Ret_inv in H as ([[y m] d] & E & H). injection H as <- <-.
  pose proof (strptime_ymd_valid _ _ _ _ E) as (Hy & Hm & Hd).
  pose proof (day_of_year_bounds y m d Hm Hd) as Hb.
  pose proof (days_before_year_bounds y Hy) as Hord.
  exists m, d. split; [assumption|].
  unfold doy_to_date, jan1_plus, datetime_jan1.
  replace ((y <? - 2 ^ 31) || (2 ^ 31 - 1 <? y)) with false by (symmetry; lia).
  replace ((y <? 1) || (9999 <? y)) with false by (symmetry; lia).
  simpl. change (0 / 24) with 0. change (0 mod 24) with 0.
  rewrite Z.add_0_r.
  replace ((days_before_month y m + d - 1 <? -999999999)
           || (999999999 <? days_before_month y m + d - 1)) with false
    by (symmetry; unfold year_length in Hb; destruct (is_leap y); lia).
  replace ((days_before_year y + 1 + (days_before_month y m + d - 1) <? 1)
           || (MAXORDINAL <? days_before_year y + 1 + (days_before_month y m + d - 1)))
    with false by (symmetry; lia).
  replace (days_before_year y + 1 + (days_before_month y m + d - 1))
    with (days_before_year y + days_before_month y m + d) by lia.
  rewrite ord2ymd_correct by (try assumption; lia). reflexivity.
Qed.

Lemma doy_to_date_of_date_to_doy_witness :
  date_to_doy "2003-10-28" = Ret (2003, 301)
  /\ exists month day,
       strptime_ymd "2003-10-28" = Ret (2003, month, day)
       /\ doy_to_date 2003 301 0 = Ret (mk_datetime 2003 month day 0).
Proof.
  assert (H : date_to_doy "2003-10-28" = Ret (2003, 301)) by (vm_compute; reflexivity).
  split; [exact H|].
  exact (doy_to_date_of_date_to_doy "2003-10-28" 2003 301 H).
Defined.

Lemma doy_to_date_in_year year doy hour :
  1 <= year <= 9999 -> 1 <= doy <= year_length year -> 0 <= hour <= 23 ->
  exists month day,
    doy_to_date year doy hour = Ret (mk_datetime year month day hour)
    /\ 1 <= month <= 12 /\ 1 <= day <= days_in_month year month
    /\ days_before_month year month + day = doy.
Proof.
  intros Hy Hdoy Hh.
  pose proof (days_before_year_bounds year Hy) as Hord.
  destruct (month_day_spec year (doy - 1)) as (m & d & E & Hm & Hd & Hsum); [lia|].
  exists m, d. split; [|split; [assumption | split; [assumption | lia]]].
  unfold doy_to_date, jan1_plus, datetime_jan1.
  replace ((year <? - 2 ^ 31) || (2 ^ 31 - 1 <? year)) with false by (symmetry; lia).
  replace ((year <? 1) || (9999 <? year)) with false by (symmetry; lia).
  simpl.
  rewrite (Z.div_small hour 24), (Z.mod_small hour 24) by lia.
  rewrite Z.add_0_r.
  replace ((doy - 1 <? -999999999) || (999999999 <? doy - 1)) with false
    by (symmetry; unfold year_length in Hdoy; destruct (is_leap year); lia).
  replace ((days_before_year year + 1 + (doy - 1) <? 1)
           || (MAXORDINAL <? days_before_year year + 1 + (doy - 1)))
    with false by (symmetry; lia).
  rewrite ord2ymd_day_of_year by lia. rewrite E. reflexivity.
Qed.

(** X3. For every year from 1 to 9999, every day of year from 1 to the
    length of the year and every hour from 0 to 23, [doy_to_date] returns
    a datetime of that year and that hour, on a day of the calendar whose
    day of year (the days before its month plus its day) is the one
    given. *)
Theorem doy_to_date_day_of_year year doy hour :
  1 <= year <= 9999 -> 1 <= doy <= year_length year -> 0 <= hour <= 23 ->
  exists month day,
    doy_to_date year doy hour = Ret (mk_datetime year month day hour)
    /\ 1 <= month <= 12 /\ 1 <= day <= days_in_month year month
    /\ days_before_month year month + day = doy.
Proof. apply doy_to_date_in_year. Qed.

Lemma doy_to_date_day_of_year_witness :
  exists month day,
    doy_to_date 2024 366 23 = Ret (mk_datetime 2024 month day 23)
    /\ 1 <= month <= 12 /\ 1 <= day <= days_in_month 2024 month
    /\ days_before_month 2024 month + day = 366.
Proof.
  apply (doy_to_date_day_of_year 2024 366 23); vm_compute; split; discriminate.
Defined.

(** X4. Within one year the day of year orders dates as the calendar
    does: of two date strings of the same year, the first has the smaller
    or equal day of year exactly when its month is earlier, or the months
    agree and its day is not later. *)
Theorem date_to_doy_order s1 s2 year m1 d1 m2 d2 :
  strptime_ymd s1 = Ret (year, m1, d1) ->
  strptime_ymd s2 = Ret (year, m2, d2) ->
  exists doy1 doy2,
    date_to_doy s1 = Ret (year, doy1) /\ date_to_doy s2 = Ret (year, doy2)
    /\ (doy1 <= doy2 <-> m1 < m2 \/ (m1 = m2 /\ d1 <= d2)).
Proof.
  intros E1 E2. unfold date_to_doy. rewrite E1, E2. simpl.
  eexists. eexists. split; [reflexivity|]. split; [reflexivity|].
  apply strptime_ymd_valid in E1 as (_ & Hm1 & Hd1).
  apply strptime_ymd_valid in E2 as (_ & Hm2 & Hd2).
  destruct (Z.lt_trichotomy m1 m2) as [Hlt|[->|Hgt]].
  - pose proof (days_before_month_mono year m1 m2 ltac:(lia) Hlt). lia.
  - lia.
  - pose proof (days_before_month_mono year m2 m1 ltac:(lia) Hgt). lia.
Qed.

Lemma date_to_doy_order_witness :
  strptime_ymd "2003-10-28" = Ret (2003, 10, 28)
  /\ strptime_ymd "2003-11-02" = Ret (2003, 11, 2)
  /\ exists doy1 doy2,
       date_to_doy "2003-10-28" = Ret (2003, doy1)
       /\ date_to_doy "2003-11-02" = Ret (2003, doy2)
       /\ (doy1 <= doy2 <-> 10 < 11 \/ (10 = 11 /\ 28 <= 2)).
Proof.
  assert (H1 : strptime_ymd "2003-10-28" = Ret (2003, 10, 28)) by (vm_compute; reflexivity).
  assert (H2 : strptime_ymd "2003-11-02" = Ret (2003, 11, 2)) by (vm_compute; reflexivity).
  split; [exact H1|]. split; [exact H2|].
  exact (date_to_doy_order "2003-10-28" "2003-11-02" 2003 10 28 11 2 H1 H2).
Defined.

(** ** [parse_omni_line]: malformed lines, exceptions, the record *)

Lemma bind_Raise_inv {A B} (m : result A) (k : A -> result B) e :
  (m ≫= k) = Raise e -> m = Raise e \/ exists a, m = Ret a /\ k a = Raise e.
Proof. destruct m as [a|e']; simpl; [eauto | intros [= ->]; auto]. Qed.

Section ParserEdges.
Variable py_float : string -> option float.

(** The loop over the columns fails only with a [ValueError], at a token
    that [float()] rejects. *)
Lemma decode_columns_raises parts cols : forall acc e,
  for_each (decode_field py_float parts) cols acc = Raise e ->
  e = ValueError
  /\ exists name col tok, (name, col) ∈ cols /\ parts !! col = Some tok
                          /\ py_float tok = None.
Proof.
  induction cols as [|[n c] cols IH]; intros acc e H; [discriminate|].
  simpl in H. apply bind_Raise_inv in H as [H|(acc' & _ & H)].
  - revert H. unfold decode_field.
    destruct (parts !! c) as [tok|] eqn:Htok; [|discriminate].
    destruct (py_float tok) eqn:Hval; [discriminate|]. intros [= <-].
    split; [reflexivity|]. exists n, c, tok. rewrite elem_of_cons. auto.
  - destruct (IH _ _ H) as [-> (name & col & tok & Hin & Htok & Hval)].
    split; [reflexivity|]. exists name, col, tok. rewrite elem_of_cons. auto.
Qed.

(** A token that [float()] rejects, in a column the loop reads, makes the
    loop raise [ValueError]. *)
Lemma decode_columns_rejects parts cols name col tok : forall acc,
  (name, col) ∈ cols -> parts !! col = Some tok -> py_float tok = None ->
  for_each (decode_field py_float parts) cols acc = Raise ValueError.
Proof.
  induction cols as [|[n c] cols IH]; intros acc Hin Htok Hval.
  - inversion Hin.
  - cbn [for_each].
    destruct (decode_field py_float parts acc (n, c)) as [acc'|e] eqn:Hstep.
    + apply elem_of_cons in Hin as [[= -> ->]|Hin].
      * unfold decode_field in Hstep. rewrite Htok, Hval in Hstep. discriminate.
      * exact (IH acc' Hin Htok Hval).
    + revert Hstep. unfold decode_field at 1.
      destruct (parts !! c) as [t|]; [|discriminate].
      destruct (py_float t); [discriminate|]. intros [= <-]. reflexivity.
Qed.

(** X5. A line of 45 tokens or more with a token that [float()] rejects
    in one of the twelve columns read yields no record: the parser returns
    [None] and raises nothing, whatever the other tokens are. *)
Theorem malformed_token_yields_no_record line name col tok :
  (45 <= length (py_split line))%nat ->
  (name, col) ∈ OMNI_COLUMNS ->
  py_split line !! col = Some tok ->
  py_float tok = None ->
  parse_omni_line py_float line = Ret None.
Proof.
  intros Hlen Hcol Htok Hval. unfold parse_omni_line.
  destruct (Nat.ltb_spec (length (py_split line)) 45); [lia|].
  rewrite (decode_columns_rejects _ _ _ _ _ ∅ Hcol Htok Hval). reflexivity.
Qed.

Lemma doy_to_date_raises y d h e :
  doy_to_date y d h = Raise e -> e = ValueError \/ e = OverflowError.
Proof.
  unfold doy_to_date, jan1_plus, datetime_jan1.
  repeat (match goal with
          | |- context [if ?b then _ else _] => destruct b
          end; simpl);
    try (intros [= <-]; auto).
  destruct (ord2ymd _) as [[? ?] ?]. discriminate.
Qed.

Lemma doy_to_date_Ret_year y d h dt :
  doy_to_date y d h = Ret dt -> 1 <= y <= 9999.
Proof.
  unfold doy_to_date, jan1_plus, datetime_jan1.
  destruct ((y <? - 2 ^ 31) || (2 ^ 31 - 1 <? y)); [discriminate|].
  destruct (Z.ltb_spec y 1), (Z.ltb_spec 9999 y); simpl; try discriminate.
  intros _. lia.
Qed.

(** The timestamp step raises only [ValueError] or [OverflowError]. *)
Lemma make_timestamp_raises fs e :
  make_timestamp fs = Raise e ->
  (e = ValueError \/ e = OverflowError)
  /\ truthy (get fs "year") = true /\ truthy (get fs "doy") = true
  /\ get fs "hour" <> None.
Proof.
  unfold make_timestamp.
  destruct (truthy (get fs "year")) eqn:Hy; [|discriminate].
  destruct (truthy (get fs "doy")) eqn:Hd; [|discriminate].
  destruct (bool_decide_reflect (get fs "hour" ≠ None)) as [Hh|Hh]; [|discriminate].
  simpl. intros H. split; [|auto].
  assert (Hint : forall name e', int_field fs name = Raise e' ->
                   is_Some (get fs name) -> e' = ValueError \/ e' = OverflowError).
  { intros name e'. unfold int_field, py_int.
    destruct (get fs name) as [x|]; [|intros _ [? [=]]].
    destruct (Prim2SF x) as [| | |]; intros [= <-] _; auto. }
  assert (Sy : is_Some (get fs "year")) by (destruct (get fs "year"); [eauto | discriminate]).
  assert (Sd : is_Some (get fs "doy")) by (destruct (get fs "doy"); [eauto | discriminate]).
  assert (Sh : is_Some (get fs "hour")) by (destruct (get fs "hour"); [eauto | contradiction]).
  apply bind_Raise_inv in H as [H|(y & _ & H)]; [eapply Hint; eassumption|].
  apply bind_Raise_inv in H as [H|(d & _ & H)]; [eapply Hint; eassumption|].
  apply bind_Raise_inv in H as [H|(h & _ & H)]; [eapply Hint; eassumption|].
  apply bind_Raise_inv in H as [H|(dt & _ & H)]; [|discriminate].
  eapply doy_to_date_raises; eassumption.
Qed.

(** X6. The only exception that leaves the parser is [OverflowError]: it
    does so on a line of 45 tokens or more whose twelve columns all decode
    and whose year and day of year are nonzero, when building the
    timestamp overflows. *)
Theorem parser_raises_only_overflow line e :
  parse_omni_line py_float line = Raise e ->
  e = OverflowError
  /\ (45 <= length (py_split line))%nat
  /\ exists record,
       for_each (decode_field py_float (py_split line)) OMNI_COLUMNS ∅ = Ret record
       /\ truthy (get record "year") = true /\ truthy (get record "doy") = true
       /\ make_timestamp record = Raise OverflowError.
Proof.
  unfold parse_omni_line.
  destruct (Nat.ltb_spec (length (py_split line)) 45) as [|Hlen]; [discriminate|].
  destruct (for_each _ OMNI_COLUMNS ∅) as [record|e'] eqn:Hdec.
  - simpl. destruct (make_timestamp record) as [ts|e'] eqn:Hts; [discriminate|].
    simpl. destruct (make_timestamp_raises _ _ Hts) as ([-> | ->] & Hy & Hd & _);
      simpl; [discriminate|].
    intros [= <-]. split; [reflexivity|]. split; [assumption|].
    exists record. auto.
  - apply decode_columns_raises in Hdec as [-> _]. discriminate.
Qed.

(** X7. A record the parser returns has exactly the twelve keys of
    [OMNI_COLUMNS], and under each key the token of its column, decoded:
    [None] when the value is within 0.1 of the field's fill value, the
    value itself otherwise and for the three fields without fill value. *)
Theorem parsed_record_fields line r :
  parse_omni_line py_float line = Ret (Some r) ->
  dom (fields r) = list_to_set OMNI_COLUMNS.*1
  /\ forall name col, (name, col) ∈ OMNI_COLUMNS ->
       exists tok val,
         py_split line !! col = Some tok /\ py_float tok = Some val
         /\ fields r !! name
            = Some match FILL_VALUES !! name with
                   | Some fill =>
                       if (abs (val - fill) <? 0.1)%float then None else Some val
                   | None => Some val
                   end.
Proof.
  intros Hparse. split.
  - destruct (parse_omni_line_inv _ _ _ Hparse) as (_ & Hrun & _).
    destruct (decode_columns_inv _ _ _ _ _ OMNI_COLUMNS_NoDup Hrun) as [_ Hout].
    apply set_eq. intros k. rewrite elem_of_dom, elem_of_list_to_set.
    split.
    + intros Hsome. destruct (decide (k ∈ OMNI_COLUMNS.*1)) as [|Hnot]; [assumption|].
      rewrite (Hout _ Hnot), lookup_empty in Hsome. destruct Hsome as [? [=]].
    + intros Hin. apply list_elem_of_fmap in Hin as ([n c] & -> & Hin).
      destruct (parsed_field _ _ _ _ _ Hparse Hin) as (? & ? & _ & _ & E).
      simpl. rewrite E. eauto.
  - intros name col Hcol.
    destruct (parsed_field _ _ _ _ _ Hparse Hcol) as (tok & val & Htok & Hval & E).
    exists tok, val. split; [assumption|]. split; [assumption|].
    rewrite E. f_equal. unfold resolve_fill.
    destruct (FILL_VALUES !! name) as [fill|] eqn:Hfill; [|reflexivity].
    assert (Htruthy : py_bool fill = true); [|rewrite Htruthy; reflexivity].
    apply FILL_VALUES_table in Hfill. rewrite !elem_of_cons, elem_of_nil in Hfill.
    repeat (destruct Hfill as [[= _ ->]|Hfill]; [reflexivity|]). contradiction.
Qed.

Lemma isoformat_nonempty dt : exists c s, isoformat dt = String c s.
Proof. unfold isoformat, pad4, pad2. simpl. eauto. Qed.

(** X8. The timestamp of a returned record is the ISO text of
    [doy_to_date] at the integer parts of the year, the day of year and
    the hour; it is never the empty string, and the year lies between 1
    and 9999. When the day of year lies within the year and the hour
    within the day, it names that year, that hour, and the day of the
    calendar with that day of year. *)
Theorem parsed_timestamp line r ts :
  parse_omni_line py_float line = Ret (Some r) ->
  timestamp r = Some ts ->
  exists y d h dt,
    int_field (fields r) "year" = Ret y /\ int_field (fields r) "doy" = Ret d
    /\ int_field (fields r) "hour" = Ret h
    /\ doy_to_date y d h = Ret dt /\ ts = isoformat dt /\ ts <> ""
    /\ 1 <= y <= 9999
    /\ (1 <= d <= year_length y -> 0 <= h <= 23 ->
        dt_year dt = y /\ dt_hour dt = h
        /\ days_before_month y (dt_month dt) + dt_day dt = d).
Proof.
  intros Hparse Hts.
  destruct (parse_omni_line_inv _ _ _ Hparse) as (_ & _ & Hmk).
  rewrite Hts in Hmk.
  apply make_timestamp_Some in Hmk as (y & d & h & dt & Hy & Hd & Hh & Hdt & ->).
  exists y, d, h, dt. repeat (split; [assumption|]). split; [reflexivity|].
  split. { destruct (isoformat_nonempty dt) as (c & s & ->). discriminate. }
  assert (Hyear : 1 <= y <= 9999).
  { eapply doy_to_date_Ret_year; eassumption. }
  split; [assumption|]. intros Hdoy Hhour.
  destruct (doy_to_date_in_year y d h Hyear Hdoy Hhour) as (m & dd & E & _ & _ & Hsum).
  rewrite E in Hdt. injection Hdt as <-. simpl. auto.
Qed.
End ParserEdges.

Lemma malformed_token_yields_no_record_witness :
  (45 <= length (py_split garbled_line))%nat
  /\ py_split garbled_line !! 24%nat = Some "n/a"
  /\ float_of_str "n/a" = None
  /\ parse_omni_line float_of_str garbled_line = Ret None.
Proof.
  assert (H1 : (45 <= length (py_split garbled_line))%nat) by (vm_compute; lia).
  assert (H2 : ("plasma_speed", 24%nat) ∈ OMNI_COLUMNS)
    by (unfold OMNI_COLUMNS; rewrite !elem_of_cons; tauto).
  assert (H3 : py_split garbled_line !! 24%nat = Some "n/a") by (vm_compute; reflexivity).
  assert (H4 : float_of_str "n/a" = None) by (vm_compute; reflexivity).
  split; [exact H1|]. split; [exact H3|]. split; [exact H4|].
  exact (malformed_token_yields_no_record float_of_str garbled_line
           "plasma_speed" 24%nat "n/a" H1 H2 H3 H4).
Defined.

Lemma parser_raises_only_overflow_witness :
  parse_omni_line float_of_str overflow_line = Raise OverflowError
  /\ (45 <= length (py_split overflow_line))%nat.
Proof.
  assert (H : parse_omni_line float_of_str overflow_line = Raise OverflowError)
    by (vm_compute; reflexivity).
  split; [exact H|].
  exact (proj1 (proj2 (parser_raises_only_overflow float_of_str overflow_line
                         OverflowError H))).
Defined.

Lemma parsed_record_fields_witness :
  parse_omni_line float_of_str fill_line = Ret (Some (record_of fill_line))
  /\ dom (fields (record_of fill_line)) = list_to_set OMNI_COLUMNS.*1.
Proof.
  assert (H : parse_omni_line float_of_str fill_line = Ret (Some (record_of fill_line)))
    by (vm_compute; reflexivity).
  split; [exact H|].
  exact (proj1 (parsed_record_fields float_of_str fill_line (record_of fill_line) H)).
Defined.

Lemma parsed_timestamp_witness :
  parse_omni_line float_of_str storm_line = Ret (Some (record_of storm_line))
  /\ timestamp (record_of storm_line) = Some "2003-10-30T22:00:00"
  /\ exists y d h dt,
       int_field (fields (record_of storm_line)) "year" = Ret y
       /\ int_field (fields (record_of storm_line)) "doy" = Ret d
       /\ int_field (fields (record_of storm_line)) "hour" = Ret h
       /\ doy_to_date y d h = Ret dt /\ "2003-10-30T22:00:00" = isoformat dt
       /\ "2003-10-30T22:00:00" <> ""
       /\ 1 <= y <= 9999
       /\ (1 <= d <= year_length y -> 0 <= h <= 23 ->
           dt_year dt = y /\ dt_hour dt = h
           /\ days_before_month y (dt_month dt) + dt_day dt = d).
Proof.
  assert (H : parse_omni_line float_of_str storm_line = Ret (Some (record_of storm_line)))
    by (vm_compute; reflexivity).
  assert (Hts : timestamp (record_of storm_line) = Some "2003-10-30T22:00:00")
    by (vm_compute; reflexivity).
  split; [exact H|]. split; [exact Hts|].
  exact (parsed_timestamp float_of_str storm_line (record_of storm_line)
           "2003-10-30T22:00:00" H Hts).
Defined.

(** ** [fetch_event_data]: where the records come from *)

Section FetchFacts.

Variable py_float : string -> option float.
Variable fetch_omni_year : Z -> option (list string).

(** A loop that returns keeps an invariant that every turn keeps. *)
Lemma for_each_invariant {A S} (body : S -> A -> result S) (P : list A -> S -> Prop) :
  (forall seen s x s', P seen s -> body s x = Ret s' -> P (seen ++ [x])%list s') ->
  forall xs seen s s',
    P seen s -> for_each body xs s = Ret s' -> P (seen ++ xs)%list s'.
Proof.
  intros Hbody. induction xs as [|x xs IH]; intros seen s s' HP H.
  - injection H as <-. rewrite app_nil_r. assumption.
  - cbn [for_each] in H. apply bind_Ret_inv in H as (s1 & Hx & H).
    replace (seen ++ x :: xs)%list with ((seen ++ [x]) ++ xs)%list
      by (rewrite <- app_assoc; reflexivity).
    eapply IH; [|eassumption]. eapply Hbody; eassumption.
Qed.

(** The records a line adds: none, or the record parsed from the line,
    which the date filter keeps. *)
Lemma fetch_line_inv sy sd ey ed all_data line all_data' :
  fetch_line py_float sy sd ey ed all_data line = Ret all_data' ->
  all_data' = all_data
  \/ exists r, all_data' = (all_data ++ [r])%list
               /\ parse_omni_line py_float line = Ret (Some r)
               /\ keep_record sy sd ey ed r = Ret true.
Proof.
  unfold fetch_line. intros H. apply bind_Ret_inv in H as ([r|] & Hparse & H).
  - destruct (negb (record_truthy r)); [injection H as <-; left; reflexivity|].
    apply bind_Ret_inv in H as ([|] & Hkeep & H); injection H as <-.
    + right. exists r. auto.
    + left. reflexivity.
  - injection H as <-. left. reflexivity.
Qed.

Lemma fetch_year_inv sy sd ey ed all_data year all_data' :
  fetch_year py_float fetch_omni_year sy sd ey ed all_data year = Ret all_data' ->
  forall r, r ∈ all_data' ->
    r ∈ all_data
    \/ exists lines line,
         fetch_omni_year year = Some lines /\ line ∈ lines
         /\ parse_omni_line py_float line = Ret (Some r)
         /\ keep_record sy sd ey ed r = Ret true.
Proof.
  unfold fetch_year. destruct (fetch_omni_year year) as [lines|] eqn:Hfetch;
    [|intros [= <-]; auto].
  intros H.
  assert (Hloop : for_each (fetch_line py_float sy sd ey ed) lines all_data
                  = Ret all_data')
    by (destruct lines; [injection H as <-; reflexivity | exact H]).
  clear H.
  set (P := fun (seen : list string) (acc : list OmniRecord) =>
              forall r, r ∈ acc ->
                r ∈ all_data
                \/ exists line, line ∈ seen
                     /\ parse_omni_line py_float line = Ret (Some r)
                     /\ keep_record sy sd ey ed r = Ret true).
  assert (Hbody : forall seen acc line acc',
            P seen acc -> fetch_line py_float sy sd ey ed acc line = Ret acc' ->
            P (seen ++ [line])%list acc').
  { intros seen acc line acc' Hacc Hstep r Hr.
    apply fetch_line_inv in Hstep as [->|(r' & -> & Hp & Hk)].
    - destruct (Hacc r Hr) as [Hin|(l & Hl & Hpl & Hkl)]; [auto|].
      right. exists l. split; [apply elem_of_app; auto | auto].
    - apply elem_of_app in Hr as [Hr|Hr].
      + destruct (Hacc r Hr) as [Hin|(l & Hl & Hpl & Hkl)]; [auto|].
        right. exists l. split; [apply elem_of_app; auto | auto].
      + apply list_elem_of_singleton in Hr as ->.
        right. exists line. split; [apply elem_of_app; right; left | auto]. }
  assert (Hinit : P [] all_data) by (intros r Hr; auto).
  intros r Hr.
  destruct (for_each_invariant _ P Hbody lines [] all_data all_data' Hinit Hloop r Hr)
    as [Hin|(line & Hl & Hp & Hk)]; [auto|].
  right. exists lines, line. auto.
Qed.

(** X9. Every record [fetch_event_data] returns was parsed from a line of
    the file of a year from the start year to the end year, and passed the
    date filter of the range. *)
Theorem fetch_event_data_sound start_date end_date records :
  fetch_event_data py_float fetch_omni_year start_date end_date = Ret records ->
  exists sy sd ey ed,
    date_to_doy start_date = Ret (sy, sd)
    /\ date_to_doy end_date = Ret (ey, ed)
    /\ forall r, r ∈ records ->
         exists year lines line,
           sy <= year <= ey
           /\ fetch_omni_year year = Some lines /\ line ∈ lines
           /\ parse_omni_line py_float line = Ret (Some r)
           /\ keep_record sy sd ey ed r = Ret true.
Proof.
  unfold fetch_event_data. intros H.
  apply bind_Ret_inv in H as ([sy sd] & Hs & H).
  apply bind_Ret_inv in H as ([ey ed] & He & H).
  exists sy, sd, ey, ed. split; [assumption|]. split; [assumption|].
  set (P := fun (seen : list Z) (acc : list OmniRecord) =>
              forall r, r ∈ acc ->
                exists year lines line,
                  year ∈ seen
                  /\ fetch_omni_year year = Some lines /\ line ∈ lines
                  /\ parse_omni_line py_float line = Ret (Some r)
                  /\ keep_record sy sd ey ed r = Ret true).
  assert (Hbody : forall seen acc year acc',
            P seen acc ->
            fetch_year py_float fetch_omni_year sy sd ey ed acc year = Ret acc' ->
            P (seen ++ [year])%list acc').
  { intros seen acc year acc' Hacc Hstep r Hr.
    destruct (fetch_year_inv _ _ _ _ _ _ _ Hstep r Hr)
      as [Hin|(lines & line & Hrest)].
    - destruct (Hacc r Hin) as (y & ls & l & Hy & Hrest).
      exists y, ls, l. split; [apply elem_of_app; auto | assumption].
    - exists year, lines, line. split; [apply elem_of_app; right; left | assumption]. }
  assert (Hinit : P [] []) by (intros r Hr; apply elem_of_nil in Hr; contradiction).
  intros r Hr.
  destruct (for_each_invariant _ P Hbody _ [] [] records Hinit H r Hr)
    as (year & lines & line & Hy & Hrest).
  exists year, lines, line. split; [|assumption].
  simpl in Hy. apply elem_of_seqZ in Hy. lia.
Qed.

(** X10. When the download of every year of the range fails or is empty,
    [fetch_event_data] returns no record; so it does when the start year is
    after the end year, without a download. *)
Theorem fetch_event_data_no_data start_date end_date sy sd ey ed :
  date_to_doy start_date = Ret (sy, sd) ->
  date_to_doy end_date = Ret (ey, ed) ->
  (forall year, sy <= year <= ey ->
     fetch_omni_year year = None \/ fetch_omni_year year = Some []) ->
  fetch_event_data py_float fetch_omni_year start_date end_date = Ret [].
Proof.
  intros Hs He Hnone. unfold fetch_event_data. rewrite Hs, He. simpl.
  assert (Hloop : forall years, (forall y, y ∈ years -> sy <= y <= ey) ->
            for_each (fetch_year py_float fetch_omni_year sy sd ey ed) years []
            = Ret []).
  { induction years as [|y years IH]; intros Hin; [reflexivity|].
    assert (Hy : fetch_year py_float fetch_omni_year sy sd ey ed [] y = Ret []).
    { unfold fetch_year.
      destruct (Hnone y (Hin y ltac:(left))) as [E|E]; rewrite E; reflexivity. }
    cbn [for_each]. rewrite Hy. simpl.
    apply IH. intros y' Hy'. apply Hin. right. assumption. }
  apply Hloop. intros y Hy. apply elem_of_seqZ in Hy. lia.
Qed.

End FetchFacts.

Lemma fetch_event_data_sound_witness :
  fetch_event_data float_of_str quiet_year "2003-10-28" "2003-10-28"
    = Ret [record_of quiet_line; record_of calm_line]
  /\ exists sy sd ey ed,
       date_to_doy "2003-10-28" = Ret (sy, sd)
       /\ date_to_doy "2003-10-28" = Ret (ey, ed)
       /\ forall r, r ∈ [record_of quiet_line; record_of calm_line] ->
            exists year lines line,
              sy <= year <= ey
              /\ quiet_year year = Some lines /\ line ∈ lines
              /\ parse_omni_line float_of_str line = Ret (Some r)
              /\ keep_record sy sd ey ed r = Ret true.
Proof.
  assert (H : fetch_event_data float_of_str quiet_year "2003-10-28" "2003-10-28"
              = Ret [record_of quiet_line; record_of calm_line])
    by (vm_compute; reflexivity).
  exact (conj H (fetch_event_data_sound float_of_str quiet_year _ _ _ H)).
Defined.

Lemma fetch_event_data_no_data_witness :
  date_to_doy "2003-10-28" = Ret (2003, 301)
  /\ date_to_doy "2003-11-02" = Ret (2003, 306)
  /\ fetch_event_data float_of_str no_year "2003-10-28" "2003-11-02" = Ret [].
Proof.
  assert (H1 : date_to_doy "2003-10-28" = Ret (2003, 301)) by (vm_compute; reflexivity).
  assert (H2 : date_to_doy "2003-11-02" = Ret (2003, 306)) by (vm_compute; reflexivity).
  exact (conj H1 (conj H2
           (fetch_event_data_no_data float_of_str no_year _ _ _ _ _ _ H1 H2
              (fun year _ => or_introl eq_refl)))).
Defined.

(** ** [calculate_storm_intensity]: the two indicators *)

(** The level is the larger of the two ordered lookups, for every Dst and
    every raw Kp, absent or present. *)
Lemma storm_intensity_lookups dst kp :
  calculate_storm_intensity dst kp
  = Z.max (dst_level_lookup (match dst with Some d => d | None => 0%float end))
          (kp_level_lookup (match kp with Some k => (k / 10.0)%float
                                        | None => 0%float end)).
Proof.
  destruct dst, kp; reflexivity.
Qed.

Lemma dst_level_lookup_range d : 0 <= dst_level_lookup d <= 5.
Proof. unfold dst_level_lookup. repeat (destruct (_ <=? _)%float; [lia|]). lia. Qed.

Lemma kp_level_lookup_range k : 0 <= kp_level_lookup k <= 5.
Proof. unfold kp_level_lookup. repeat (destruct (_ <=? _)%float; [lia|]). lia. Qed.

Lemma storm_intensity_range dst kp : 0 <= calculate_storm_intensity dst kp <= 5.
Proof.
  rewrite storm_intensity_lookups.
  pose proof (dst_level_lookup_range (match dst with Some d => d | None => 0%float end)).
  pose proof (kp_level_lookup_range
                (match kp with Some k => (k / 10.0)%float | None => 0%float end)).
  lia.
Qed.

(** X11. For every Dst and every raw Kp, present or absent, NaN
    included, the storm level lies between 0 and 5 and is the more severe
    of the two indicators: the maximum of the level Dst gives alone and
    the level Kp gives alone. An absent index counts as the value 0. *)
Theorem storm_level_more_severe_indicator dst kp :
  0 <= calculate_storm_intensity dst kp <= 5
  /\ calculate_storm_intensity dst kp
     = Z.max (calculate_storm_intensity dst None) (calculate_storm_intensity None kp)
  /\ calculate_storm_intensity None kp = calculate_storm_intensity (Some 0%float) kp
  /\ calculate_storm_intensity dst None = calculate_storm_intensity dst (Some 0%float).
Proof.
  split; [apply storm_intensity_range|].
  split; [|split].
  - rewrite !storm_intensity_lookups.
    change (kp_level_lookup 0) with 0. change (dst_level_lookup 0) with 0.
    pose proof (dst_level_lookup_range (match dst with Some d => d | None => 0%float end)).
    pose proof (kp_level_lookup_range
                  (match kp with Some k => (k / 10.0)%float | None => 0%float end)).
    lia.
  - reflexivity.
  - rewrite !storm_intensity_lookups. reflexivity.
Qed.

Lemma kp_level_lookup_mono k1 k2 :
  (k1 <=? k2)%float = true -> kp_level_lookup k1 <= kp_level_lookup k2.
Proof.
  intros Hle. unfold kp_level_lookup.
  pose proof (fun t H => leb_trans t k1 k2 H Hle) as Ht.
  pose proof (Ht 9%float) as H5. pose proof (Ht 8%float) as H4.
  pose proof (Ht 7%float) as H3. pose proof (Ht 6%float) as H2.
  pose proof (Ht 5%float) as H1. clear Ht.
  destruct (9 <=? k1)%float, (8 <=? k1)%float, (7 <=? k1)%float,
    (6 <=? k1)%float, (5 <=? k1)%float;
  destruct (9 <=? k2)%float, (8 <=? k2)%float, (7 <=? k2)%float,
    (6 <=? k2)%float, (5 <=? k2)%float; try lia; intuition discriminate.
Qed.

(** X12. With Dst absent, the level of a raw Kp is the ordered lookup of
    the thresholds 5, 6, 7, 8, 9 on the true Kp (raw / 10.0), for every
    float; it is monotone non-decreasing in the true Kp; and the raw values
    49, 50, 60, 70, 80 and 90 give the levels 0 to 5. *)
Theorem storm_level_of_kp :
  (forall kp : float,
      calculate_storm_intensity None (Some kp) = kp_level_lookup (kp / 10.0)%float)
  /\ (forall kp1 kp2 : float,
        (kp1 / 10.0 <=? kp2 / 10.0)%float = true ->
        calculate_storm_intensity None (Some kp1)
        <= calculate_storm_intensity None (Some kp2))
  /\ map (fun kp => calculate_storm_intensity None (Some kp))
         [49; 50; 60; 70; 80; 90]%float
     = [0; 1; 2; 3; 4; 5].
Proof.
  split; [|split].
  - intros kp. rewrite storm_intensity_lookups. change (dst_level_lookup 0) with 0.
    pose proof (kp_level_lookup_range (kp / 10.0)%float). lia.
  - intros kp1 kp2 Hle. rewrite !storm_intensity_lookups.
    change (dst_level_lookup 0) with 0.
    pose proof (kp_level_lookup_mono _ _ Hle).
    pose proof (kp_level_lookup_range (kp1 / 10.0)%float).
    pose proof (kp_level_lookup_range (kp2 / 10.0)%float). lia.
  - vm_compute. reflexivity.
Qed.

Lemma storm_level_of_kp_witness :
  (43 / 10.0 <=? 67 / 10.0)%float = true
  /\ calculate_storm_intensity None (Some 43%float)
     <= calculate_storm_intensity None (Some 67%float).
Proof.
  assert (H : (43 / 10.0 <=? 67 / 10.0)%float = true) by reflexivity.
  split; [exact H|].
  exact (proj1 (proj2 storm_level_of_kp) 43%float 67%float H).
Defined.

(** ** [process_event_data]: the loop over the records *)

Section ProcessFacts.
Variable py_pow : float -> float -> result float.

(** Wherever [**] returns, the standoff model returns a clamped value. *)
Lemma standoff_returns_clamped density speed bz :
  (forall p, (0 <? p)%float = true ->
             exists r, py_pow p (-1 / 6.6)%float = Ret r) ->
  exists r0, calculate_magnetopause_standoff py_pow density speed bz
             = Ret (py_max2 4.0 (py_min2 15.0 r0)).
Proof.
  intros Hpow. unfold calculate_magnetopause_standoff.
  destruct density as [density|], speed as [speed|];
    try (exists 10.0%float; reflexivity).
  destruct (0 <? 2e-6 * density * speed * speed)%float eqn:Hp.
  - destruct (Hpow _ Hp) as [p Hr]. rewrite Hr. simpl.
    unfold py_truediv. rewrite bz_factor_nonzero. simpl. eauto.
  - simpl. eauto.
Qed.

(** A clamped value is returned whenever the model returns. *)
Lemma standoff_Ret_between density speed bz r :
  calculate_magnetopause_standoff py_pow density speed bz = Ret r ->
  between 4.0 15.0 r.
Proof.
  unfold calculate_magnetopause_standoff.
  destruct density as [d|], speed as [s|];
    try (intros [= <-]; split; reflexivity).
  intros E. apply bind_Ret_inv in E as (r0 & _ & E). injection E as <-.
  apply clamp_between. reflexivity.
Qed.

(** The loop of [process_event_data] appends, in order, the processed
    record of each raw record that carries a timestamp. *)
Lemma process_loop_inv raw : forall acc out,
  for_each (process_step py_pow) raw acc = Ret out ->
  exists ps,
    out = (acc ++ ps)%list
    /\ Forall2 (fun r p => process_record py_pow r = Ret (Some p))
         (filter (fun r => str_truthy (timestamp r) = true) raw) ps.
Proof.
  induction raw as [|r raw IH]; intros acc out H.
  - injection H as <-. exists []. rewrite app_nil_r. split; [reflexivity | constructor].
  - cbn [for_each] in H. apply bind_Ret_inv in H as (acc' & Hstep & Hrest).
    unfold process_step in Hstep.
    apply bind_Ret_inv in Hstep as (p & Hp & Hacc). injection Hacc as <-.
    destruct (IH _ _ Hrest) as (ps & -> & Hps).
    rewrite filter_cons.
    destruct p as [p|].
    + assert (Hdated : str_truthy (timestamp r) = true).
      { revert Hp. unfold process_record.
        destruct (str_truthy (timestamp r)); [reflexivity | discriminate]. }
      rewrite decide_True by assumption.
      exists (p :: ps). rewrite <- app_assoc. split; [reflexivity|].
      constructor; assumption.
    + assert (Hundated : str_truthy (timestamp r) = false).
      { revert Hp. unfold process_record.
        destruct (str_truthy (timestamp r)); [|reflexivity].
        simpl. destruct (calculate_magnetopause_standoff _ _ _ _); discriminate. }
      rewrite decide_False by (rewrite Hundated; discriminate).
      exists ps. split; [reflexivity | assumption].
Qed.

(** X13. When [process_event_data] returns, its data are the processed
    records of the raw records that carry a non-empty timestamp, one for
    each and in the same order, each with the timestamp of its raw record;
    undated records are skipped; the event descriptor and the clock
    reading are passed through. *)
Theorem process_event_data_structure utcnow raw info processed :
  process_event_data py_pow utcnow raw info = Ret processed ->
  event_info processed = info
  /\ generated_at processed = utcnow
  /\ Forall2 (fun r p => process_record py_pow r = Ret (Some p)
                         /\ timestamp r = Some (p_timestamp p))
       (filter (fun r => str_truthy (timestamp r) = true) raw) (data processed)
  /\ (length (data processed) <= length raw)%nat.
Proof.
  unfold process_event_data. intros H.
  apply bind_Ret_inv in H as (ps & Hloop & H). injection H as <-. simpl.
  split; [reflexivity|]. split; [reflexivity|].
  destruct (process_loop_inv _ _ _ Hloop) as (ps' & -> & Hps). simpl.
  split.
  - eapply Forall2_impl; [exact Hps|]. intros r p Hp. split; [assumption|].
    apply process_record_inv in Hp. apply Hp.
  - rewrite <- (Forall2_length _ _ _ Hps). apply length_filter.
Qed.

(** X14. Provided [**] returns for a positive base and the exponent
    -1/6.6, [process_event_data] returns for every list of raw records,
    and every record of its data has a standoff distance in [4.0, 15.0]
    and a storm level from 0 to 5. *)
Theorem process_event_data_total utcnow raw info :
  (forall p, (0 <? p)%float = true ->
             exists r, py_pow p (-1 / 6.6)%float = Ret r) ->
  exists processed,
    process_event_data py_pow utcnow raw info = Ret processed
    /\ Forall (fun p => between 4.0 15.0 (standoff_re (magnetosphere p))
                        /\ 0 <= geo_storm_level (geomagnetic p) <= 5)
         (data processed).
Proof.
  intros Hpow.
  assert (Hrec : forall r, exists p, process_record py_pow r = Ret p).
  { intros r. unfold process_record.
    destruct (str_truthy (timestamp r)); simpl; [|eauto].
    destruct (standoff_returns_clamped (get (fields r) "proton_density")
                (get (fields r) "plasma_speed") (get (fields r) "imf_bz_gse") Hpow)
      as [r0 ->]. simpl. eauto. }
  assert (Hloop : forall raw' acc, exists out,
             for_each (process_step py_pow) raw' acc = Ret out).
  { induction raw' as [|r raw' IH]; intros acc; [simpl; eauto|].
    destruct (Hrec r) as [p Hp].
    assert (Hstep : exists acc', process_step py_pow acc r = Ret acc')
      by (unfold process_step; rewrite Hp; simpl; eauto).
    destruct Hstep as [acc' Hstep]. cbn [for_each]. rewrite Hstep. apply IH. }
  destruct (Hloop raw []) as [out Hout].
  assert (Hrun : process_event_data py_pow utcnow raw info
                 = Ret (mk_processed_data info out utcnow)).
  { unfold process_event_data. rewrite Hout. reflexivity. }
  eexists. split; [exact Hrun|]. simpl.
  destruct (process_loop_inv _ _ _ Hout) as (ps & -> & Hps). simpl.
  clear Hout Hrun. induction Hps as [|r p rs ps Hp _ IH]; constructor; [|exact IH].
  destruct (process_record_inv _ _ _ Hp)
    as (_ & _ & _ & _ & _ & _ & _ & _ & _ & _ & Hlevel & Hstandoff & _).
  split.
  - eapply standoff_Ret_between; eassumption.
  - rewrite Hlevel. apply storm_intensity_range.
Qed.

(** X15. What a processed record reports of its raw record. The pressure
    is present exactly when density and speed are both present and nonzero,
    and is then 2e-6 x density x speed x speed; the true Kp is present
    exactly when the raw Kp is present and nonzero, and is then raw / 10.0;
    speed, density, temperature, the IMF fields and Dst are the raw values,
    absent where the raw value is. *)
Theorem process_record_reports r p :
  process_record py_pow r = Ret (Some p) ->
  (forall x, sw_pressure (solar_wind p) = Some x <->
     exists d s,
       get (fields r) "proton_density" = Some d
       /\ get (fields r) "plasma_speed" = Some s
       /\ py_bool d = true /\ py_bool s = true
       /\ x = (2e-6 * d * s * s)%float)
  /\ (forall x, geo_kp (geomagnetic p) = Some x <->
        exists k, get (fields r) "kp" = Some k /\ py_bool k = true
                  /\ x = (k / 10.0)%float)
  /\ sw_speed (solar_wind p) = get (fields r) "plasma_speed"
  /\ sw_density (solar_wind p) = get (fields r) "proton_density"
  /\ sw_temperature (solar_wind p) = get (fields r) "plasma_temp"
  /\ imf_magnitude (imf p) = get (fields r) "imf_magnitude"
  /\ imf_bx (imf p) = get (fields r) "imf_bx_gse"
  /\ imf_by (imf p) = get (fields r) "imf_by_gse"
  /\ imf_bz (imf p) = get (fields r) "imf_bz_gse"
  /\ geo_dst (geomagnetic p) = get (fields r) "dst".
Proof.
  intros Hp.
  destruct (process_record_inv _ _ _ Hp)
    as (Hspeed & Hdens & Htemp & Hpress & Hmag & Hbx & Hby & Hbz & Hdst & Hkp & _).
  split; [|split; [|repeat (split; [assumption|]); assumption]].
  - intros x. rewrite Hpress. unfold dynamic_pressure. split.
    + destruct (get (fields r) "proton_density") as [d|]; [|discriminate].
      destruct (get (fields r) "plasma_speed") as [s|]; [|discriminate].
      destruct (py_bool d) eqn:Hd, (py_bool s) eqn:Hs; simpl; try discriminate.
      intros [= <-]. exists d, s. auto.
    + intros (d & s & -> & -> & Hd & Hs & ->). rewrite Hd, Hs. reflexivity.
  - intros x. rewrite Hkp. split.
    + destruct (get (fields r) "kp") as [k|]; [|discriminate].
      destruct (py_bool k) eqn:Hk; [|discriminate]. intros [= <-]. eauto.
    + intros (k & -> & Hk & ->). rewrite Hk. reflexivity.
Qed.
End ProcessFacts.

Lemma process_event_data_structure_witness :
  process_event_data unit_pow "now" [record_of storm_line; record_of quiet_line] None
    = Ret storm_processed
  /\ event_info storm_processed = None
  /\ generated_at storm_processed = "now".
Proof.
  assert (H : process_event_data unit_pow "now"
                [record_of storm_line; record_of quiet_line] None
              = Ret storm_processed) by (vm_compute; reflexivity).
  split; [exact H|].
  pose proof (process_event_data_structure unit_pow "now"
                [record_of storm_line; record_of quiet_line] None storm_processed H)
    as Hs.
  exact (conj (proj1 Hs) (proj1 (proj2 Hs))).
Defined.

Lemma process_event_data_total_witness :
  (forall p, (0 <? p)%float = true ->
             exists r, unit_pow p (-1 / 6.6)%float = Ret r)
  /\ exists processed,
       process_event_data unit_pow "now" [record_of storm_line] None = Ret processed
       /\ Forall (fun p => between 4.0 15.0 (standoff_re (magnetosphere p))
                           /\ 0 <= geo_storm_level (geomagnetic p) <= 5)
            (data processed).
Proof.
  assert (Hpow : forall p, (0 <? p)%float = true ->
                           exists r, unit_pow p (-1 / 6.6)%float = Ret r)
    by (intros p _; exists 1.0%float; reflexivity).
  split; [exact Hpow|].
  exact (process_event_data_total unit_pow "now" [record_of storm_line] None Hpow).
Defined.

Lemma process_record_reports_witness :
  exists p,
    process_record unit_pow (record_of storm_line) = Ret (Some p)
    /\ sw_speed (solar_wind p) = get (fields (record_of storm_line)) "plasma_speed".
Proof.
  destruct (process_record unit_pow (record_of storm_line)) as [[p|]|e] eqn:E;
    [|vm_compute in E; discriminate E|vm_compute in E; discriminate E].
  exists p. split; [reflexivity|].
  exact (proj1 (proj2 (proj2 (process_record_reports unit_pow _ p E)))).
Defined.

(** ** [generate_summary]: the statistics *)

Lemma SFltb_false_leb x y :
  SFeqb x x = true -> SFeqb y y = true -> SFltb x y = false -> SFleb y x = true.
Proof.
  destruct x as [sx|sx| |sx mx ex], y as [sy|sy| |sy my ey];
    intros Hx Hy Hlt; sf_order.
Qed.

Lemma SFleb_refl x : SFeqb x x = true -> SFleb x x = true.
Proof. destruct x as [sx|sx| |sx mx ex]; intros Hx; sf_order. Qed.

(** Floats that are numbers are totally ordered. *)
Lemma ltb_false_leb (x y : float) :
  not_nan x -> not_nan y -> (x <? y)%float = false -> (y <=? x)%float = true.
Proof.
  unfold not_nan. rewrite !FloatAxioms.eqb_spec, FloatAxioms.ltb_spec, FloatAxioms.leb_spec.
  apply SFltb_false_leb.
Qed.

Lemma leb_refl (x : float) : not_nan x -> (x <=? x)%float = true.
Proof.
  unfold not_nan. rewrite FloatAxioms.eqb_spec, FloatAxioms.leb_spec. apply SFleb_refl.
Qed.

(** [max] returns an element of the list; when the list holds no NaN, no
    element exceeds it. *)
Lemma fold_max_spec xs : forall acc,
  fold_left py_max2 xs acc ∈ acc :: xs
  /\ (Forall not_nan (acc :: xs) ->
      forall x, x ∈ acc :: xs -> (x <=? fold_left py_max2 xs acc)%float = true).
Proof.
  induction xs as [|y xs IH]; intros acc.
  - simpl. split; [left|]. intros Hnn x Hx.
    apply list_elem_of_singleton in Hx as ->. apply leb_refl.
    inversion Hnn; assumption.
  - cbn [fold_left]. destruct (IH (py_max2 acc y)) as [Hin Hbound]. split.
    + apply elem_of_cons in Hin as [->|Hin].
      * unfold py_max2. destruct (acc <? y)%float; [right; left | left].
      * right. right. assumption.
    + intros Hnn x Hx.
      apply Forall_cons in Hnn as [Hacc Hnn]. apply Forall_cons in Hnn as [Hy Hnn].
      assert (Hstep : not_nan (py_max2 acc y)
                      /\ (acc <=? py_max2 acc y)%float = true
                      /\ (y <=? py_max2 acc y)%float = true).
      { unfold py_max2. destruct (acc <? y)%float eqn:Hlt.
        - split; [assumption|]. split; [apply ltb_leb; assumption | apply leb_refl; assumption].
        - split; [assumption|]. split; [apply leb_refl; assumption|].
          apply ltb_false_leb; assumption. }
      destruct Hstep as (Hm & Hacc' & Hy').
      assert (Hall : Forall not_nan (py_max2 acc y :: xs)) by (constructor; assumption).
      specialize (Hbound Hall).
      pose proof (Hbound (py_max2 acc y) ltac:(left)) as Htop.
      apply elem_of_cons in Hx as [->|Hx]; [exact (leb_trans _ _ _ Hacc' Htop)|].
      apply elem_of_cons in Hx as [->|Hx]; [exact (leb_trans _ _ _ Hy' Htop)|].
      apply Hbound. right. assumption.
Qed.

Lemma fold_min_spec xs : forall acc,
  fold_left py_min2 xs acc ∈ acc :: xs
  /\ (Forall not_nan (acc :: xs) ->
      forall x, x ∈ acc :: xs -> (fold_left py_min2 xs acc <=? x)%float = true).
Proof.
  induction xs as [|y xs IH]; intros acc.
  - simpl. split; [left|]. intros Hnn x Hx.
    apply list_elem_of_singleton in Hx as ->. apply leb_refl.
    inversion Hnn; assumption.
  - cbn [fold_left]. destruct (IH (py_min2 acc y)) as [Hin Hbound]. split.
    + apply elem_of_cons in Hin as [->|Hin].
      * unfold py_min2. destruct (y <? acc)%float; [right; left | left].
      * right. right. assumption.
    + intros Hnn x Hx.
      apply Forall_cons in Hnn as [Hacc Hnn]. apply Forall_cons in Hnn as [Hy Hnn].
      assert (Hstep : not_nan (py_min2 acc y)
                      /\ (py_min2 acc y <=? acc)%float = true
                      /\ (py_min2 acc y <=? y)%float = true).
      { unfold py_min2. destruct (y <? acc)%float eqn:Hlt.
        - split; [assumption|]. split; [apply ltb_leb; assumption | apply leb_refl; assumption].
        - split; [assumption|]. split; [apply leb_refl; assumption|].
          apply ltb_false_leb; assumption. }
      destruct Hstep as (Hm & Hacc' & Hy').
      assert (Hall : Forall not_nan (py_min2 acc y :: xs)) by (constructor; assumption).
      specialize (Hbound Hall).
      pose proof (Hbound (py_min2 acc y) ltac:(left)) as Hbot.
      apply elem_of_cons in Hx as [->|Hx]; [exact (leb_trans _ _ _ Hbot Hacc')|].
      apply elem_of_cons in Hx as [->|Hx]; [exact (leb_trans _ _ _ Hbot Hy')|].
      apply Hbound. right. assumption.
Qed.

Lemma if_nonempty_max_spec xs o :
  if_nonempty py_max xs = Ret o ->
  (o = None <-> xs = [])
  /\ forall m, o = Some m -> m ∈ xs /\ (Forall not_nan xs -> is_max_of xs m).
Proof.
  destruct xs as [|x xs]; simpl.
  - intros [= <-]. split; [tauto|]. discriminate.
  - intros [= <-]. split; [split; discriminate|]. intros m [= <-].
    destruct (fold_max_spec xs x) as [Hin Hb]. split; [assumption|].
    intros Hnn. split; [assumption | apply Hb; assumption].
Qed.

Lemma if_nonempty_min_spec xs o :
  if_nonempty py_min xs = Ret o ->
  (o = None <-> xs = [])
  /\ forall m, o = Some m -> m ∈ xs /\ (Forall not_nan xs -> is_min_of xs m).
Proof.
  destruct xs as [|x xs]; simpl.
  - intros [= <-]. split; [tauto|]. discriminate.
  - intros [= <-]. split; [split; discriminate|]. intros m [= <-].
    destruct (fold_min_spec xs x) as [Hin Hb]. split; [assumption|].
    intros Hnn. split; [assumption | apply Hb; assumption].
Qed.

(** The length of a list that is not empty, below [2^63], is a float other
    than zero. *)
Lemma float_of_len_nonzero {A} (xs : list A) :
  xs <> [] -> Z.of_nat (length xs) < 2 ^ 63 ->
  (float_of_len xs =? 0)%float = false.
Proof.
  intros Hne Hlen. unfold float_of_len.
  rewrite FloatAxioms.eqb_spec, FloatAxioms.of_uint63_spec, Uint63.of_Z_spec.
  change (Prim2SF 0) with (S754_zero false).
  assert (Hpos : 0 < Z.of_nat (length xs)) by (destruct xs; [contradiction | simpl; lia]).
  rewrite Z.mod_small by (change wB with (2 ^ 63); lia).
  destruct (Z.of_nat (length xs)) as [|p|p]; try lia.
  simpl binary_normalize.
  destruct (binary_round_above prec emax ltac:(reflexivity) false p 0) as [(m & e & H)|H].
  - split; [lia|]. change (2 ^ (SpecFloat.emin prec emax - 0)) with 0. lia.
  - rewrite H. apply SFeqb_zero_false. exact I.
  - rewrite H. apply SFeqb_zero_false. exact I.
Qed.

Lemma if_nonempty_average_spec xs :
  Z.of_nat (length xs) < 2 ^ 63 ->
  exists o, if_nonempty average xs = Ret o /\ (o = None <-> xs = []).
Proof.
  intros Hlen. destruct xs as [|x xs].
  - exists None. split; [reflexivity | tauto].
  - unfold if_nonempty, average, py_truediv.
    rewrite float_of_len_nonzero by (try discriminate; assumption).
    simpl. eexists. split; [reflexivity|]. split; discriminate.
Qed.

Lemma fold_Zmax_spec xs : forall acc,
  fold_left Z.max xs acc ∈ acc :: xs
  /\ forall x, x ∈ acc :: xs -> x <= fold_left Z.max xs acc.
Proof.
  induction xs as [|y xs IH]; intros acc.
  - simpl. split; [left|]. intros x Hx. apply list_elem_of_singleton in Hx as ->. lia.
  - cbn [fold_left]. destruct (IH (Z.max acc y)) as [Hin Hbound]. split.
    + apply elem_of_cons in Hin as [->|Hin].
      * destruct (Z.max_spec acc y) as [[_ ->]|[_ ->]]; [right; left | left].
      * right. right. assumption.
    + intros x Hx. pose proof (Hbound (Z.max acc y) ltac:(left)) as Htop.
      apply elem_of_cons in Hx as [->|Hx]; [lia|].
      apply elem_of_cons in Hx as [->|Hx]; [lia|].
      apply Hbound. right. assumption.
Qed.

Lemma truthy_values_length values :
  (length (truthy_values values) <= length values)%nat.
Proof.
  unfold truthy_values. induction values as [|[x|] values IH].
  - reflexivity.
  - unfold omap in *. simpl. destruct (py_bool x); simpl; lia.
  - unfold omap in *. simpl. lia.
Qed.

(** What a summary that is returned holds. *)
Lemma generate_summary_inv processed s :
  generate_summary processed = Ret (Some s) ->
  exists first rest,
    data processed = first :: rest
    /\ time_range s
       = mk_time_range (p_timestamp first) (p_timestamp (List.last rest first))
           (Z.of_nat (length (data processed)))
    /\ if_nonempty py_max
         (truthy_values (map (fun d => sw_speed (solar_wind d)) (data processed)))
       = Ret (max_speed s)
    /\ if_nonempty py_min
         (truthy_values (map (fun d => sw_speed (solar_wind d)) (data processed)))
       = Ret (min_speed s)
    /\ if_nonempty average
         (truthy_values (map (fun d => sw_speed (solar_wind d)) (data processed)))
       = Ret (avg_speed s)
    /\ if_nonempty py_max
         (truthy_values (map (fun d => sw_density (solar_wind d)) (data processed)))
       = Ret (max_density s)
    /\ if_nonempty py_min
         (truthy_values (map (fun d => geo_dst (geomagnetic d)) (data processed)))
       = Ret (min_dst s)
    /\ py_max_int (map (fun d => geo_storm_level (geomagnetic d)) (data processed))
       = Ret (max_storm_level s)
    /\ if_nonempty py_min
         (truthy_values (map (fun d => imf_bz (imf d)) (data processed)))
       = Ret (min_bz s)
    /\ if_nonempty py_max
         (truthy_values (map (fun d => imf_bz (imf d)) (data processed)))
       = Ret (max_bz s).
Proof.
  unfold generate_summary. destruct (data processed) as [|first rest] eqn:Hdata;
    [discriminate|].
  intros H.
  apply bind_Ret_inv in H as (a1 & H1 & H). apply bind_Ret_inv in H as (a2 & H2 & H).
  apply bind_Ret_inv in H as (a3 & H3 & H). apply bind_Ret_inv in H as (a4 & H4 & H).
  apply bind_Ret_inv in H as (a5 & H5 & H). apply bind_Ret_inv in H as (a6 & H6 & H).
  apply bind_Ret_inv in H as (a7 & H7 & H). apply bind_Ret_inv in H as (a8 & H8 & H).
  injection H as <-. exists first, rest. cbn [time_range max_speed min_speed avg_speed
    max_density min_dst max_storm_level min_bz max_bz].
  split; [reflexivity|]. split.
  { f_equal. destruct rest; reflexivity. }
  repeat (split; [assumption|]). assumption.
Qed.

(** X16. [generate_summary] raises nothing on data of fewer than [2^63]
    records, and returns the empty summary exactly when there is no data:
    no statistic divides by zero or takes the extremum of an empty list. *)
Theorem generate_summary_total processed :
  Z.of_nat (length (data processed)) < 2 ^ 63 ->
  exists o, generate_summary processed = Ret o
            /\ (o = None <-> data processed = []).
Proof.
  intros Hlen. unfold generate_summary.
  destruct (data processed) as [|first rest] eqn:Hdata.
  - exists None. split; [reflexivity | tauto].
  - set (dat := first :: rest) in *.
    set (speeds := truthy_values (map (fun d => sw_speed (solar_wind d)) dat)).
    assert (Hs : Z.of_nat (length speeds) < 2 ^ 63).
    { pose proof (truthy_values_length (map (fun d => sw_speed (solar_wind d)) dat)) as H.
      rewrite length_map in H. fold speeds in H. lia. }
    destruct (if_nonempty_average_spec speeds Hs) as (avg & -> & _).
    assert (Hmax : forall xs, exists o, if_nonempty py_max xs = Ret o)
      by (intros [|x xs]; simpl; eauto).
    assert (Hmin : forall xs, exists o, if_nonempty py_min xs = Ret o)
      by (intros [|x xs]; simpl; eauto).
    destruct (Hmax speeds) as [o1 ->]. destruct (Hmin speeds) as [o2 ->].
    destruct (Hmax (truthy_values (map (fun d => sw_density (solar_wind d)) dat)))
      as [o3 ->].
    destruct (Hmin (truthy_values (map (fun d => geo_dst (geomagnetic d)) dat)))
      as [o4 ->].
    destruct (Hmin (truthy_values (map (fun d => imf_bz (imf d)) dat))) as [o5 ->].
    destruct (Hmax (truthy_values (map (fun d => imf_bz (imf d)) dat))) as [o6 ->].
    subst dat. cbn [map py_max_int]. simpl.
    eexists. split; [reflexivity|]. split; discriminate.
Qed.

Lemma generate_summary_total_witness :
  Z.of_nat (length (data storm_processed)) < 2 ^ 63
  /\ exists o, generate_summary storm_processed = Ret o
               /\ (o = None <-> data storm_processed = []).
Proof.
  assert (H : Z.of_nat (length (data storm_processed)) < 2 ^ 63)
    by (vm_compute; reflexivity).
  exact (conj H (generate_summary_total storm_processed H)).
Defined.

(** X17. In a summary that is returned, the time range starts at the first
    record's timestamp, ends at the last one's and counts every record,
    and each optional statistic is absent exactly when no record has a
    truthy value of its measurement. *)
Theorem generate_summary_structure processed s :
  generate_summary processed = Ret (Some s) ->
  let column (f : ProcessedRecord -> option float) :=
    truthy_values (map f (data processed)) in
  (exists first rest,
     data processed = first :: rest
     /\ tr_start (time_range s) = p_timestamp first
     /\ tr_end (time_range s) = p_timestamp (List.last rest first))
  /\ tr_hours (time_range s) = Z.of_nat (length (data processed))
  /\ (max_speed s = None <-> column (fun d => sw_speed (solar_wind d)) = [])
  /\ (min_speed s = None <-> column (fun d => sw_speed (solar_wind d)) = [])
  /\ (avg_speed s = None <-> column (fun d => sw_speed (solar_wind d)) = [])
  /\ (max_density s = None <-> column (fun d => sw_density (solar_wind d)) = [])
  /\ (min_dst s = None <-> column (fun d => geo_dst (geomagnetic d)) = [])
  /\ (min_bz s = None <-> column (fun d => imf_bz (imf d)) = [])
  /\ (max_bz s = None <-> column (fun d => imf_bz (imf d)) = []).
Proof.
  intros H column.
  apply generate_summary_inv in H
    as (first & rest & Hdata & Htr & H1 & H2 & H3 & H4 & H5 & _ & H7 & H8).
  split; [exists first, rest; rewrite Htr; auto|].
  split; [rewrite Htr; reflexivity|].
  assert (Hnone : forall f xs o, if_nonempty f xs = Ret o -> (o = None <-> xs = [])).
  { intros f xs o Ho. split.
    - intros ->. apply (if_nonempty_None f). assumption.
    - intros ->. simpl in Ho. injection Ho as <-. reflexivity. }
  split; [exact (Hnone _ _ _ H1)|]. split; [exact (Hnone _ _ _ H2)|].
  split; [exact (Hnone _ _ _ H3)|]. split; [exact (Hnone _ _ _ H4)|].
  split; [exact (Hnone _ _ _ H5)|]. split; [exact (Hnone _ _ _ H7)|].
  exact (Hnone _ _ _ H8).
Qed.

Lemma generate_summary_structure_witness :
  generate_summary storm_processed = Ret (Some storm_summary)
  /\ tr_hours (time_range storm_summary)
     = Z.of_nat (length (data storm_processed)).
Proof.
  assert (storm_summary_returned :
            generate_summary storm_processed = Ret (Some storm_summary))
    by (vm_compute; reflexivity).
  exact (conj storm_summary_returned
           (proj1 (proj2 (generate_summary_structure storm_processed storm_summary
                            storm_summary_returned)))).
Defined.

(** X18. Every extremum of a summary is one of the truthy values of its
    measurement, and when none of those values is NaN it bounds them all:
    no speed, density or Bz exceeds the maximum reported, and no speed, Dst
    or Bz is below the minimum reported. *)
Theorem summary_extrema processed s :
  generate_summary processed = Ret (Some s) ->
  let column (f : ProcessedRecord -> option float) :=
    truthy_values (map f (data processed)) in
  let speeds := column (fun d => sw_speed (solar_wind d)) in
  let densities := column (fun d => sw_density (solar_wind d)) in
  let dsts := column (fun d => geo_dst (geomagnetic d)) in
  let bzs := column (fun d => imf_bz (imf d)) in
  (forall m, max_speed s = Some m ->
     m ∈ speeds /\ (Forall not_nan speeds -> is_max_of speeds m))
  /\ (forall m, min_speed s = Some m ->
        m ∈ speeds /\ (Forall not_nan speeds -> is_min_of speeds m))
  /\ (forall m, max_density s = Some m ->
        m ∈ densities /\ (Forall not_nan densities -> is_max_of densities m))
  /\ (forall m, min_dst s = Some m ->
        m ∈ dsts /\ (Forall not_nan dsts -> is_min_of dsts m))
  /\ (forall m, min_bz s = Some m ->
        m ∈ bzs /\ (Forall not_nan bzs -> is_min_of bzs m))
  /\ (forall m, max_bz s = Some m ->
        m ∈ bzs /\ (Forall not_nan bzs -> is_max_of bzs m)).
Proof.
  intros H column speeds densities dsts bzs.
  apply generate_summary_inv in H
    as (first & rest & Hdata & Htr & H1 & H2 & H3 & H4 & H5 & _ & H7 & H8).
  split; [exact (proj2 (if_nonempty_max_spec _ _ H1))|].
  split; [exact (proj2 (if_nonempty_min_spec _ _ H2))|].
  split; [exact (proj2 (if_nonempty_max_spec _ _ H4))|].
  split; [exact (proj2 (if_nonempty_min_spec _ _ H5))|].
  split; [exact (proj2 (if_nonempty_min_spec _ _ H7))|].
  exact (proj2 (if_nonempty_max_spec _ _ H8)).
Qed.

Lemma summary_extrema_witness :
  generate_summary storm_processed = Ret (Some storm_summary)
  /\ forall m, max_speed storm_summary = Some m ->
       m ∈ truthy_values (map (fun d => sw_speed (solar_wind d)) (data storm_processed))
       /\ (Forall not_nan
             (truthy_values (map (fun d => sw_speed (solar_wind d)) (data storm_processed)))
           -> is_max_of
                (truthy_values (map (fun d => sw_speed (solar_wind d)) (data storm_processed)))
                m).
Proof.
  assert (storm_summary_returned :
            generate_summary storm_processed = Ret (Some storm_summary))
    by (vm_compute; reflexivity).
  exact (conj storm_summary_returned
           (proj1 (summary_extrema storm_processed storm_summary
                     storm_summary_returned))).
Defined.

(** X19. The maximum storm level of a summary is the level of one of the
    records, and no record has a higher level. *)
Theorem summary_max_storm_level processed s :
  generate_summary processed = Ret (Some s) ->
  (exists d, d ∈ data processed
             /\ geo_storm_level (geomagnetic d) = max_storm_level s)
  /\ forall d, d ∈ data processed ->
       geo_storm_level (geomagnetic d) <= max_storm_level s.
Proof.
  intros H.
  apply generate_summary_inv in H
    as (first & rest & Hdata & _ & _ & _ & _ & _ & _ & H6 & _).
  rewrite Hdata in *. cbn [map py_max_int] in H6. injection H6 as H6.
  destruct (fold_Zmax_spec (map (fun d => geo_storm_level (geomagnetic d)) rest)
              (geo_storm_level (geomagnetic first))) as [Hin Hbound].
  rewrite H6 in Hin, Hbound. split.
  - change (max_storm_level s
            ∈ map (fun d => geo_storm_level (geomagnetic d)) (first :: rest)) in Hin.
    apply list_elem_of_fmap in Hin as (d & Hd & Hin). exists d. auto.
  - intros d Hd. apply Hbound.
    change (geo_storm_level (geomagnetic d)
            ∈ map (fun d => geo_storm_level (geomagnetic d)) (first :: rest)).
    apply list_elem_of_fmap. exists d. auto.
Qed.

Lemma summary_max_storm_level_witness :
  generate_summary storm_processed = Ret (Some storm_summary)
  /\ forall d, d ∈ data storm_processed ->
       geo_storm_level (geomagnetic d) <= max_storm_level storm_summary.
Proof.
  assert (storm_summary_returned :
            generate_summary storm_processed = Ret (Some storm_summary))
    by (vm_compute; reflexivity).
  exact (conj storm_summary_returned
           (proj2 (summary_max_storm_level storm_processed storm_summary
                     storm_summary_returned))).
Defined.

(** ** [main] with [save_event_data], for one date range *)

Lemma generate_summary_Ret_None processed :
  generate_summary processed = Ret None -> data processed = [].
Proof.
  unfold generate_summary. destruct (data processed) as [|first rest]; [reflexivity|].
  intros H.
  apply bind_Ret_inv in H as (a1 & H1 & H). apply bind_Ret_inv in H as (a2 & H2 & H).
  apply bind_Ret_inv in H as (a3 & H3 & H). apply bind_Ret_inv in H as (a4 & H4 & H).
  apply bind_Ret_inv in H as (a5 & H5 & H). apply bind_Ret_inv in H as (a6 & H6 & H).
  apply bind_Ret_inv in H as (a7 & H7 & H). apply bind_Ret_inv in H as (a8 & H8 & H).
  discriminate H.
Qed.

Lemma filter_nil_Forall {A} (f : A -> bool) (xs : list A) :
  filter (fun x => f x = true) xs = [] <-> Forall (fun x => f x = false) xs.
Proof.
  induction xs as [|x xs IH]; [split; [constructor | reflexivity]|].
  rewrite filter_cons. destruct (f x) eqn:Hx.
  - rewrite decide_True by reflexivity. split; [discriminate|].
    intros H. apply Forall_cons in H as [H _]. congruence.
  - rewrite decide_False by discriminate. rewrite IH. split.
    + intros H. constructor; assumption.
    + intros H. apply Forall_cons in H as [_ H]. assumption.
Qed.

Section MainFacts.

Variable py_float : string -> option float.
Variable fetch_omni_year : Z -> option (list string).
Variable py_pow : float -> float -> result float.
Variable utcnow : string.

(** X20. A run over a date range that returns produces nothing exactly when
    no record was fetched. Otherwise its output is the processed data of
    the fetched records with the event's description, one processed record
    for each fetched record that carries a timestamp, and the summary of
    that data: the summary is empty exactly when no fetched record carries
    a timestamp, and else counts the fetched records that carry one. *)
Theorem run_date_range_pipeline start_date end_date info out :
  run_date_range py_float fetch_omni_year py_pow utcnow start_date end_date info
    = Ret out ->
  exists raw_data,
    fetch_event_data py_float fetch_omni_year start_date end_date = Ret raw_data
    /\ (out = None <-> raw_data = [])
    /\ forall processed summary, out = Some (processed, summary) ->
         let dated := filter (fun r => str_truthy (timestamp r) = true) raw_data in
         process_event_data py_pow utcnow raw_data info = Ret processed
         /\ generate_summary processed = Ret summary
         /\ event_info processed = info
         /\ length (data processed) = length dated
         /\ (summary = None
             <-> Forall (fun r => str_truthy (timestamp r) = false) raw_data)
         /\ forall s, summary = Some s ->
              tr_hours (time_range s) = Z.of_nat (length dated).
Proof.
  unfold run_date_range. intros H.
  apply bind_Ret_inv in H as (raw & Hfetch & H). exists raw.
  split; [assumption|].
  cbv beta in H. destruct raw as [|r raw].
  { simpl in H. injection H as <-. split; [tauto|]. intros ? ? [=]. }
  set (raw_data := r :: raw) in *.
  apply bind_Ret_inv in H as (processed & Hproc & H).
  apply bind_Ret_inv in H as (summary & Hsum & H). injection H as <-.
  split; [split; discriminate|].
  intros processed' summary' Hout. injection Hout as <- <-. cbv zeta.
  set (dated := filter (fun r => str_truthy (timestamp r) = true) raw_data).
  split; [assumption|]. split; [assumption|].
  unfold process_event_data in Hproc.
  apply bind_Ret_inv in Hproc as (ps & Hloop & Hproc). injection Hproc as <-.
  apply process_loop_inv in Hloop as (ps' & -> & Hps).
  apply Forall2_length in Hps. fold dated in Hps.
  cbn [event_info data app] in *.
  split; [reflexivity|]. split; [symmetry; assumption|]. split.
  - rewrite <- filter_nil_Forall. fold dated. split.
    + intros ->. apply generate_summary_Ret_None in Hsum. cbn [data] in Hsum.
      subst ps'. destruct dated; [reflexivity | discriminate Hps].
    + intros Hnil. rewrite Hnil in Hps. destruct ps'; [|discriminate Hps].
      injection Hsum as <-. reflexivity.
  - intros s ->. apply generate_summary_inv in Hsum
      as (first & rest & Hdata & Htr & _).
    rewrite Htr. cbn [tr_hours data]. rewrite Hps. reflexivity.
Qed.

End MainFacts.

Lemma run_date_range_pipeline_witness :
  run_date_range float_of_str quiet_year unit_pow "now" "2003-10-28" "2003-11-02" None
    = Ret quiet_output
  /\ exists raw_data,
       fetch_event_data float_of_str quiet_year "2003-10-28" "2003-11-02"
         = Ret raw_data
       /\ (quiet_output = None <-> raw_data = []).
Proof.
  assert (H : run_date_range float_of_str quiet_year unit_pow "now"
                "2003-10-28" "2003-11-02" None = Ret quiet_output)
    by (vm_compute; reflexivity).
  split; [exact H|].
  destruct (run_date_range_pipeline float_of_str quiet_year unit_pow "now"
              "2003-10-28" "2003-11-02" None quiet_output H)
    as (raw_data & Hfetch & Hnone & _).
  exists raw_data. split; [exact Hfetch | exact Hnone].
Defined.
